(** * A shallow embedding of [github_api.py]

    The service is a facade over the GitHub REST API: every endpoint
    issues a few GET requests, truncates the decoded lists to ten
    elements, renames fields and returns one JSON document.

    The embedding follows the Python source function by function.
    - Decoded JSON is the inductive [json]; a Python [dict] is an
      association list read from the left.
    - A Python exception is the [Raise] branch of [result]; the
      primitive operations the source uses on decoded values
      ([d[k]], [d.get(k, default)], [x[:n]], iteration, [len], [sum],
      [in], truthiness, [str]) raise exactly where Python raises.
    - The upstream provider is an oracle answering each request from the
      requests issued so far; the async functions run in the monad [M],
      which threads the request log and an exception.
    - Strings are UTF-8 byte strings: slices, [len] and iteration count
      characters (code points), the substring test compares bytes, and
      [lower] folds the ASCII letters and leaves every other byte alone.
      Numbers are integers, as the count fields of the provider are. *)

From Stdlib Require Import ZArith List String Ascii Bool Lia Permutation.
From Stdlib Require Import DecimalString.
Import ListNotations.

Local Open Scope list_scope.
Local Open Scope string_scope.

Set Implicit Arguments.
Set Warnings "-register-all".

(* ================================================================= *)
(** ** Decoded JSON values and Python exceptions *)

Inductive json : Type :=
| JNull
| JBool (b : bool)
| JNum (n : Z)
| JStr (s : string)
| JList (l : list json)
| JObj (kv : list (string * json)).

Inductive exn : Type :=
| KeyError (key : string)
| TypeError (msg : string)
| AttributeError (msg : string)
| JSONDecodeError (msg : string)
| HTTPError (msg : string)
| TransportError (msg : string).

Inductive result (A : Type) : Type :=
| Ok (a : A)
| Raise (e : exn).

Arguments Ok {A} a.
Arguments Raise {A} e.

Definition rbind {A B} (r : result A) (k : A -> result B) : result B :=
  match r with
  | Ok a => k a
  | Raise e => Raise e
  end.

Declare Scope py_scope.
Delimit Scope py_scope with py.
Notation "x <- c ;; k" := (rbind c (fun x => k))
  (at level 61, c at next level, right associativity) : py_scope.
Local Open Scope py_scope.

(* ================================================================= *)
(** ** Strings: [str.lower] and the substring test [needle in hay] *)

Module Str.

Definition lower_ascii (c : ascii) : ascii :=
  let n := nat_of_ascii c in
  if (65 <=? n)%nat && (n <=? 90)%nat then ascii_of_nat (n + 32) else c.

Fixpoint lower (s : string) : string :=
  match s with
  | EmptyString => EmptyString
  | String c s' => String (lower_ascii c) (lower s')
  end.

Fixpoint is_prefix (p s : string) : bool :=
  match p, s with
  | EmptyString, _ => true
  | String a p', String b s' => Ascii.eqb a b && is_prefix p' s'
  | String _ _, EmptyString => false
  end.

(** [contains needle hay] is Python's [needle in hay] on two strings. *)
Fixpoint contains (needle hay : string) : bool :=
  is_prefix needle hay
  || match hay with
     | EmptyString => false
     | String _ hay' => contains needle hay'
     end.

(** A string holds UTF-8; a character is a byte that starts one,
    followed by the bytes that continue it (10xxxxxx). A decoded string
    never begins with a continuation byte; on one that did, [take] would
    keep those bytes and [length] and [chars] pass over them. *)
Definition is_continuation (c : ascii) : bool :=
  let n := nat_of_ascii c in (128 <=? n)%nat && (n <? 192)%nat.

(** [s[:n]]: the first [n] characters, each with all its bytes. *)
Fixpoint take (n : nat) (s : string) : string :=
  match s with
  | EmptyString => EmptyString
  | String c s' =>
      if is_continuation c then String c (take n s')
      else match n with
           | O => EmptyString
           | S n' => String c (take n' s')
           end
  end.

(** [len(s)]: the number of characters. *)
Fixpoint length (s : string) : nat :=
  match s with
  | EmptyString => O
  | String c s' => if is_continuation c then length s' else S (length s')
  end.

(** The characters a loop over [s] visits, each a string of its own. *)
Fixpoint chars (s : string) : list string :=
  match s with
  | EmptyString => []
  | String c s' =>
      if is_continuation c then chars s' else String c (take 0 s') :: chars s'
  end.

Definition of_Z (n : Z) : string := NilZero.string_of_int (Z.to_int n).

End Str.

(* ================================================================= *)
(** ** Python operations on decoded values *)

Fixpoint lookup (k : string) (kv : list (string * json)) : option json :=
  match kv with
  | [] => None
  | (k', v) :: rest => if String.eqb k k' then Some v else lookup k rest
  end.

Definition type_name (v : json) : string :=
  match v with
  | JNull => "NoneType"
  | JBool _ => "bool"
  | JNum _ => "int"
  | JStr _ => "str"
  | JList _ => "list"
  | JObj _ => "dict"
  end.

Module Py.

(** [v[k]] for a string key [k]. *)
Definition subscript (v : json) (k : string) : result json :=
  match v with
  | JObj kv =>
      match lookup k kv with
      | Some x => Ok x
      | None => Raise (KeyError k)
      end
  | JList _ => Raise (TypeError "list indices must be integers or slices, not str")
  | JStr _ => Raise (TypeError "string indices must be integers, not 'str'")
  | _ => Raise (TypeError ("'" ++ type_name v ++ "' object is not subscriptable"))
  end.

(** [v.get(k, d)]; [v.get(k)] is [get v k JNull]. *)
Definition get (v : json) (k : string) (d : json) : result json :=
  match v with
  | JObj kv =>
      match lookup k kv with
      | Some x => Ok x
      | None => Ok d
      end
  | _ => Raise (AttributeError ("'" ++ type_name v ++ "' object has no attribute 'get'"))
  end.

(** [v[:n]]; a dict refuses a slice ([TypeError] up to Python 3.11,
    [KeyError] from 3.12: an exception either way). *)
Definition slice_to (n : nat) (v : json) : result json :=
  match v with
  | JList l => Ok (JList (firstn n l))
  | JStr s => Ok (JStr (Str.take n s))
  | JObj _ => Raise (TypeError "unhashable type: 'slice'")
  | _ => Raise (TypeError ("'" ++ type_name v ++ "' object is not subscriptable"))
  end.

(** The elements a [for] loop or a comprehension visits. *)
Definition iterate (v : json) : result (list json) :=
  match v with
  | JList l => Ok l
  | JStr s => Ok (map JStr (Str.chars s))
  | JObj kv => Ok (map (fun p => JStr (fst p)) kv)
  | _ => Raise (TypeError ("'" ++ type_name v ++ "' object is not iterable"))
  end.

(** [len(v)]. *)
Definition len (v : json) : result json :=
  match v with
  | JList l => Ok (JNum (Z.of_nat (List.length l)))
  | JStr s => Ok (JNum (Z.of_nat (Str.length s)))
  | JObj kv => Ok (JNum (Z.of_nat (List.length kv)))
  | _ => Raise (TypeError ("object of type '" ++ type_name v ++ "' has no len()"))
  end.

(** Truthiness, as tested by [if v] and [not v]. *)
Definition truthy (v : json) : bool :=
  match v with
  | JNull => false
  | JBool b => b
  | JNum n => negb (n =? 0)%Z
  | JStr s => negb (String.eqb s "")
  | JList l => match l with [] => false | _ => true end
  | JObj kv => match kv with [] => false | _ => true end
  end.

(** [v == s] for a string [s]: only an equal string compares equal. *)
Definition eq_str (v : json) (s : string) : bool :=
  match v with
  | JStr t => String.eqb t s
  | _ => false
  end.

(** [s in v] for a string [s]. *)
Definition contains (s : string) (v : json) : result bool :=
  match v with
  | JObj kv => Ok (match lookup s kv with Some _ => true | None => false end)
  | JList l => Ok (existsb (fun x => eq_str x s) l)
  | JStr t => Ok (Str.contains s t)
  | _ => Raise (TypeError ("argument of type '" ++ type_name v ++ "' is not iterable"))
  end.

(** [v.lower()]. *)
Definition lower (v : json) : result string :=
  match v with
  | JStr s => Ok (Str.lower s)
  | _ => Raise (AttributeError ("'" ++ type_name v ++ "' object has no attribute 'lower'"))
  end.

(** One step of [sum]: [acc + v] with an integer accumulator. *)
Definition add (acc : Z) (v : json) : result Z :=
  match v with
  | JNum n => Ok (acc + n)%Z
  | JBool b => Ok (acc + (if b then 1 else 0))%Z
  | _ => Raise (TypeError ("unsupported operand type(s) for +: 'int' and '"
                           ++ type_name v ++ "'"))
  end.

Fixpoint sum_from (acc : Z) (vs : list (result json)) : result Z :=
  match vs with
  | [] => Ok acc
  | r :: rest => v <- r ;; acc' <- add acc v ;; sum_from acc' rest
  end.

(** [sum(g)] over a generator whose items are computed on demand. *)
Definition sum (vs : list (result json)) : result json :=
  n <- sum_from 0%Z vs ;; Ok (JNum n).

(** [any(g)]: stops at the first true item, raises where an item raises. *)
Fixpoint any (bs : list (result bool)) : result bool :=
  match bs with
  | [] => Ok false
  | r :: rest => b <- r ;; if b then Ok true else any rest
  end.

(** A list comprehension [[f x for x in xs]]. *)
Fixpoint comprehension (items : list (result json)) : result (list json) :=
  match items with
  | [] => Ok []
  | r :: rest => v <- r ;; vs <- comprehension rest ;; Ok (v :: vs)
  end.

(** A dict display [{k1: e1, k2: e2, ...}]: the values are evaluated
    in order and the first exception leaves the display. *)
Fixpoint dict_items (entries : list (string * result json))
  : result (list (string * json)) :=
  match entries with
  | [] => Ok []
  | (k, r) :: rest => v <- r ;; kvs <- dict_items rest ;; Ok ((k, v) :: kvs)
  end.

Definition dict (entries : list (string * result json)) : result json :=
  kvs <- dict_items entries ;; Ok (JObj kvs).

(** [v[k1][k2]...]: subscripts applied from the left. *)
Fixpoint path (v : json) (ks : list string) : result json :=
  match ks with
  | [] => Ok v
  | k :: ks' => x <- subscript v k ;; path x ks'
  end.

(** A comprehension with a filter, [[elt x for x in xs if cond x]]:
    the condition is evaluated before the element, item by item. *)
Fixpoint comprehension_if (cond : json -> result bool) (elt : json -> result json)
    (xs : list json) : result (list json) :=
  match xs with
  | [] => Ok []
  | x :: rest =>
      c <- cond x ;;
      if c then v <- elt x ;; vs <- comprehension_if cond elt rest ;; Ok (v :: vs)
      else comprehension_if cond elt rest
  end.

(** A [for] loop whose body updates one local variable. *)
Fixpoint for_each {S : Type} (xs : list json) (body : json -> S -> result S) (s : S)
  : result S :=
  match xs with
  | [] => Ok s
  | x :: rest => s' <- body x s ;; for_each rest body s'
  end.

Fixpoint join (sep : string) (parts : list string) : string :=
  match parts with
  | [] => ""
  | [p] => p
  | p :: rest => p ++ sep ++ join sep rest
  end.

(** [repr(v)]; a string is shown between single quotes (the escapes
    Python adds for quotes and control characters are not modelled). *)
Fixpoint repr (v : json) : string :=
  match v with
  | JNull => "None"
  | JBool true => "True"
  | JBool false => "False"
  | JNum n => Str.of_Z n
  | JStr s => "'" ++ s ++ "'"
  | JList l => "[" ++ join ", " (map repr l) ++ "]"
  | JObj kv =>
      "{" ++ join ", " (map (fun p => let '(k, x) := p in "'" ++ k ++ "': " ++ repr x) kv)
          ++ "}"
  end.

(** [str(v)], also what an f-string inserts for [{v}]. *)
Definition str (v : json) : string :=
  match v with
  | JStr s => s
  | _ => repr v
  end.

(** Values a [set] accepts. *)
Definition hashable (v : json) : bool :=
  match v with
  | JList _ | JObj _ => false
  | _ => true
  end.

(** [a == b] on hashable values: a boolean equals the integer 0 or 1. *)
Definition eq_scalar (a b : json) : bool :=
  match a, b with
  | JNull, JNull => true
  | JStr s, JStr t => String.eqb s t
  | JNum n, JNum m => (n =? m)%Z
  | JBool x, JBool y => Bool.eqb x y
  | JNum n, JBool y | JBool y, JNum n => (n =? (if y then 1 else 0))%Z
  | _, _ => false
  end.

(** [set(xs)], kept as the list of first occurrences (Python leaves the
    iteration order of a set unspecified). *)
Fixpoint set_from (seen : list json) (xs : list json) : result (list json) :=
  match xs with
  | [] => Ok seen
  | x :: rest =>
      if hashable x then
        if existsb (eq_scalar x) seen then set_from seen rest
        else set_from (seen ++ [x])%list rest
      else Raise (TypeError ("unhashable type: '" ++ type_name x ++ "'"))
  end.

Definition set (xs : list json) : result (list json) := set_from [] xs.

(** [str(e)] for a caught exception. *)
Definition exn_str (e : exn) : string :=
  match e with
  | KeyError k => "'" ++ k ++ "'"
  | TypeError m | AttributeError m | JSONDecodeError m | HTTPError m
  | TransportError m => m
  end.

End Py.

(* ================================================================= *)
(** ** Entity translators

    The source builds every summary with a dict display inside the
    function that fetched the entity; each display is given a name here
    and cites the lines it comes from. *)

Module Translate.

(** [get_repository_data], lines 238-246. *)
Definition repository_summary (repo : json) : result json :=
  Py.dict
    [ ("name", Py.subscript repo "name");
      ("description", Py.get repo "description" (JStr ""));
      ("language", Py.get repo "language" (JStr "Unknown"));
      ("stars", Py.subscript repo "stargazers_count");
      ("forks", Py.subscript repo "forks_count");
      ("url", Py.subscript repo "html_url");
      ("lastUpdated", Py.subscript repo "updated_at") ].

(** [commit["author"]["avatar_url"] if commit.get("author") else None]. *)
Definition author_avatar (commit : json) : result json :=
  a <- Py.get commit "author" JNull ;;
  if Py.truthy a then Py.path commit ["author"; "avatar_url"] else Ok JNull.

(** [sum(file.get(field, 0) for file in commit_detail.get("files", []))]. *)
Definition sum_over_files (commit_detail : json) (field : string) : result json :=
  files <- Py.get commit_detail "files" (JList []) ;;
  items <- Py.iterate files ;;
  Py.sum (map (fun file => Py.get file field (JNum 0)) items).

(** [get_repository_commits], lines 267-280: the detail fetch answered 200. *)
Definition commit_summary (repo_name : string) (commit commit_detail : json)
  : result json :=
  Py.dict
    [ ("id", sha <- Py.subscript commit "sha" ;; Py.slice_to 7 sha);
      ("message", Py.path commit ["commit"; "message"]);
      ("author", Py.path commit ["commit"; "author"; "name"]);
      ("date", Py.path commit ["commit"; "author"; "date"]);
      ("repository", Ok (JStr repo_name));
      ("url", Py.subscript commit "html_url");
      ("description", Py.path commit ["commit"; "message"]);
      ("files_changed",
        files <- Py.get commit_detail "files" (JList []) ;; Py.len files);
      ("additions", sum_over_files commit_detail "additions");
      ("deletions", sum_over_files commit_detail "deletions");
      ("commit_url", Py.subscript commit "html_url");
      ("author_avatar", author_avatar commit) ].

(** [get_repository_commits], lines 283-296: the fallback without detail. *)
Definition commit_summary_basic (repo_name : string) (commit : json) : result json :=
  Py.dict
    [ ("id", sha <- Py.subscript commit "sha" ;; Py.slice_to 7 sha);
      ("message", Py.path commit ["commit"; "message"]);
      ("author", Py.path commit ["commit"; "author"; "name"]);
      ("date", Py.path commit ["commit"; "author"; "date"]);
      ("repository", Ok (JStr repo_name));
      ("url", Py.subscript commit "html_url");
      ("description", Py.path commit ["commit"; "message"]);
      ("files_changed", Ok (JNum 0));
      ("additions", Ok (JNum 0));
      ("deletions", Ok (JNum 0));
      ("commit_url", Py.subscript commit "html_url");
      ("author_avatar", author_avatar commit) ].

(** [[x[field] for x in v.get(key, [])]]. *)
Definition names_of (v : json) (key field : string) : result json :=
  xs <- Py.get v key (JList []) ;;
  items <- Py.iterate xs ;;
  vs <- Py.comprehension (map (fun x => Py.subscript x field) items) ;;
  Ok (JList vs).

(** [str(v["number"])]. *)
Definition number_str (v : json) : result json :=
  n <- Py.subscript v "number" ;; Ok (JStr (Py.str n)).

(** [get_repository_pull_requests], lines 313-335. *)
Definition pull_request_summary (repo_name : string) (pr : json) : result json :=
  Py.dict
    [ ("id", number_str pr);
      ("title", Py.subscript pr "title");
      ("author", Py.path pr ["user"; "login"]);
      ("status", Py.subscript pr "state");
      ("repository", Ok (JStr repo_name));
      ("url", Py.subscript pr "html_url");
      ("createdAt", Py.subscript pr "created_at");
      ("updatedAt", Py.subscript pr "updated_at");
      ("description", Py.get pr "body" (JStr ""));
      ("labels", names_of pr "labels" "name");
      ("assignees", names_of pr "assignees" "login");
      ("reviewers", names_of pr "requested_reviewers" "login");
      ("comments", Py.get pr "comments" (JNum 0));
      ("commits", Py.get pr "commits" (JNum 0));
      ("additions", Py.get pr "additions" (JNum 0));
      ("deletions", Py.get pr "deletions" (JNum 0));
      ("changed_files", Py.get pr "changed_files" (JNum 0));
      ("author_avatar", Py.path pr ["user"; "avatar_url"]);
      ("draft", Py.get pr "draft" (JBool false));
      ("merged", Py.get pr "merged" (JBool false));
      ("mergeable", Py.get pr "mergeable" JNull) ].

(** ["kw" in label["name"].lower()]. *)
Definition label_has (kw : string) (label : json) : result bool :=
  name <- Py.subscript label "name" ;;
  s <- Py.lower name ;;
  Ok (Str.contains kw s).

(** [any(kw in label["name"].lower() for label in issue.get("labels", []))]. *)
Definition any_label_has (kw : string) (issue : json) : result bool :=
  labels <- Py.get issue "labels" (JList []) ;;
  items <- Py.iterate labels ;;
  Py.any (map (label_has kw) items).

(** [get_repository_issues], lines 355-359. *)
Definition priority (issue : json) : result string :=
  high <- any_label_has "high" issue ;;
  if high then Ok "high"
  else
    low <- any_label_has "low" issue ;;
    if low then Ok "low" else Ok "medium".

(** [issue.get("milestone", {}).get("title") if issue.get("milestone") else None]. *)
Definition milestone_title (issue : json) : result json :=
  m <- Py.get issue "milestone" JNull ;;
  if Py.truthy m then
    m' <- Py.get issue "milestone" (JObj []) ;; Py.get m' "title" JNull
  else Ok JNull.

(** [issue.get("reactions", {}).get(kind, 0)]. *)
Definition reaction (issue : json) (kind : string) : result json :=
  r <- Py.get issue "reactions" (JObj []) ;; Py.get r kind (JNum 0).

(** [get_repository_issues], lines 361-388; [priority] is the local
    variable computed just before. *)
Definition issue_entry (repo_name : string) (issue : json) (priority : string)
  : result json :=
  Py.dict
    [ ("id", number_str issue);
      ("title", Py.subscript issue "title");
      ("author", Py.path issue ["user"; "login"]);
      ("status", Py.subscript issue "state");
      ("priority", Ok (JStr priority));
      ("repository", Ok (JStr repo_name));
      ("url", Py.subscript issue "html_url");
      ("createdAt", Py.subscript issue "created_at");
      ("updatedAt", Py.subscript issue "updated_at");
      ("description", Py.get issue "body" (JStr ""));
      ("labels", names_of issue "labels" "name");
      ("assignees", names_of issue "assignees" "login");
      ("comments", Py.get issue "comments" (JNum 0));
      ("author_avatar", Py.path issue ["user"; "avatar_url"]);
      ("milestone", milestone_title issue);
      ("locked", Py.get issue "locked" (JBool false));
      ("closed_at", Py.get issue "closed_at" JNull);
      ("reactions",
        Py.dict
          [ ("total_count", reaction issue "total_count");
            ("thumbs_up", reaction issue "+1");
            ("thumbs_down", reaction issue "-1");
            ("laugh", reaction issue "laugh");
            ("hooray", reaction issue "hooray");
            ("confused", reaction issue "confused");
            ("heart", reaction issue "heart") ]) ].

(** Lines 354-388: the priority, then the display. *)
Definition issue_summary (repo_name : string) (issue : json) : result json :=
  p <- priority issue ;; issue_entry repo_name issue p.

(** [get_user_data], lines 427-435. *)
Definition user_summary (user : json) : result json :=
  Py.dict
    [ ("username", Py.subscript user "login");
      ("name", Py.get user "name" JNull);
      ("avatar_url", Py.get user "avatar_url" JNull);
      ("bio", Py.get user "bio" JNull);
      ("public_repos", Py.get user "public_repos" (JNum 0));
      ("followers", Py.get user "followers" (JNum 0));
      ("following", Py.get user "following" (JNum 0)) ].

(** [get_user_repositories], lines 452-464. *)
Definition user_repository_summary (repo : json) : result json :=
  Py.dict
    [ ("id", Py.subscript repo "id");
      ("name", Py.subscript repo "name");
      ("full_name", Py.subscript repo "full_name");
      ("description", Py.get repo "description" (JStr ""));
      ("language", Py.get repo "language" (JStr "Unknown"));
      ("stargazers_count", Py.subscript repo "stargazers_count");
      ("forks_count", Py.subscript repo "forks_count");
      ("updated_at", Py.subscript repo "updated_at");
      ("html_url", Py.subscript repo "html_url");
      ("private", Py.subscript repo "private");
      ("fork", Py.subscript repo "fork") ].

End Translate.

(* ================================================================= *)
(** ** The upstream provider and the request monad *)

Record request : Type := Request
  { req_url : string;
    req_headers : list (string * string);
    req_params : list (string * string) }.

Record response : Type := Response
  { status_code : Z;
    payload : option json }.

(** What one GET comes back with: a response, or a transport failure
    (connection refused, timeout, ...), which the HTTP client raises. *)
Inductive reply : Type :=
| Answered (r : response)
| Failed (msg : string).

(** The provider answers a request knowing the requests sent before it. *)
Definition upstream : Type := list request -> request -> reply.

(** A computation reads and extends the log of requests sent so far. *)
Definition M (A : Type) : Type := list request -> result A * list request.

Definition ret {A} (a : A) : M A := fun log => (Ok a, log).

Definition lift {A} (r : result A) : M A := fun log => (r, log).

Definition mbind {A B} (c : M A) (k : A -> M B) : M B :=
  fun log =>
    match c log with
    | (Ok a, log') => k a log'
    | (Raise e, log') => (Raise e, log')
    end.

Notation "x <~ c ;; k" := (mbind c (fun x => k))
  (at level 61, c at next level, right associativity) : py_scope.

(** [try: c except <caught>: return fallback]. *)
Definition try_except {A} (c : M A) (caught : exn -> bool) (fallback : A) : M A :=
  fun log =>
    match c log with
    | (Ok a, log') => (Ok a, log')
    | (Raise e, log') => if caught e then (Ok fallback, log') else (Raise e, log')
    end.

(** A [for] loop with awaits in its body. *)
Fixpoint for_each_await {S : Type} (xs : list json) (body : json -> S -> M S) (s : S)
  : M S :=
  match xs with
  | [] => ret s
  | x :: rest => s' <~ body x s ;; for_each_await rest body s'
  end.

(** [response.json()]. *)
Definition response_json (r : response) : result json :=
  match payload r with
  | Some v => Ok v
  | None => Raise (JSONDecodeError "Expecting value: line 1 column 1 (char 0)")
  end.

(** [response.raise_for_status()] of the [requests] library. *)
Definition raise_for_status (r : response) : result unit :=
  if (400 <=? status_code r)%Z && (status_code r <? 600)%Z
  then Raise (HTTPError (Str.of_Z (status_code r) ++ " Error"))
  else Ok tt.

(** [except requests.RequestException]; since requests 2.27 the error of
    [response.json()] is one of them. *)
Definition is_request_exception (e : exn) : bool :=
  match e with
  | TransportError _ | HTTPError _ | JSONDecodeError _ => true
  | _ => false
  end.

Definition GITHUB_API_BASE : string := "https://api.github.com".
Definition ORGANIZATION : string := "github".
Definition ADMIN : string := "admin".
Definition TEAM_LEADS : list string := ["user1"; "user2"].
Definition INTERNS : list string := ["intern1"; "intern2"; "intern3"].

Definition get_team_members : list string := ([ADMIN] ++ TEAM_LEADS ++ INTERNS)%list.

Definition error_body (msg : string) : json := JObj [("error", JStr msg)].

Definition count (xs : list json) : json := JNum (Z.of_nat (List.length xs)).

(* ================================================================= *)
(** ** The service *)

Section Service.

(** [os.getenv("GITHUB_TOKEN")], read once at import. *)
Variable GITHUB_TOKEN : option string.

Variable provider : upstream.

(** [not GITHUB_TOKEN]: unset, or set to the empty string. *)
Definition token_missing : bool :=
  match GITHUB_TOKEN with
  | None => true
  | Some t => String.eqb t ""
  end.

(** [f"token {GITHUB_TOKEN}"]. *)
Definition token_header : string :=
  "token " ++ match GITHUB_TOKEN with Some t => t | None => "None" end.

(** [await client.get(url, headers=headers)], and [requests.get]. *)
Definition http_get (u : string) (hs ps : list (string * string)) : M response :=
  fun log =>
    let rq := Request u hs ps in
    match provider log rq with
    | Answered r => (Ok r, (log ++ [rq])%list)
    | Failed msg => (Raise (TransportError msg), (log ++ [rq])%list)
    end.

Definition client_get (u : string) : M response :=
  http_get u [("Authorization", token_header)] [].

Definition get_github_headers : list (string * string) :=
  ([ ("Accept", "application/vnd.github.v3+json"); ("User-Agent", "GitHub-API") ]
   ++ if token_missing then [] else [("Authorization", token_header)])%list.

(** The four synchronous helpers share one body: GET, [raise_for_status],
    [return response.json()], all under [except requests.RequestException]. *)
Definition fetch_list (u : string) (ps : list (string * string)) : M json :=
  try_except
    (response <~ http_get u get_github_headers ps ;;
     _ <~ lift (raise_for_status response) ;;
     lift (response_json response))
    is_request_exception
    (JList []).

Definition fetch_organization_repos : M json :=
  fetch_list (GITHUB_API_BASE ++ "/users/" ++ ORGANIZATION ++ "/repos") [].

Definition fetch_commits (repo_name since_date : string) : M json :=
  fetch_list (GITHUB_API_BASE ++ "/repos/" ++ ORGANIZATION ++ "/" ++ repo_name ++ "/commits")
    [("since", since_date); ("per_page", "100")].

Definition fetch_pull_requests (repo_name : string) : M json :=
  fetch_list (GITHUB_API_BASE ++ "/repos/" ++ ORGANIZATION ++ "/" ++ repo_name ++ "/pulls")
    [("state", "all"); ("per_page", "100")].

Definition fetch_issues (repo_name : string) : M json :=
  fetch_list (GITHUB_API_BASE ++ "/repos/" ++ ORGANIZATION ++ "/" ++ repo_name ++ "/issues")
    [("state", "all"); ("per_page", "100")].

Definition get_organization_data (organization : string) : M json :=
  response <~ client_get (GITHUB_API_BASE ++ "/orgs/" ++ organization) ;;
  if (status_code response =? 200)%Z then lift (response_json response)
  else ret (JObj [ ("name", JStr organization);
                   ("description", JStr (organization ++ " Organization")) ]).

Definition repository_url (organization repo_name : string) : string :=
  GITHUB_API_BASE ++ "/repos/" ++ organization ++ "/" ++ repo_name.

Definition repository_placeholder (repo_name : string) : json :=
  JObj [ ("name", JStr repo_name); ("description", JStr "Repository not found") ].

Definition get_repository_data (organization repo_name : string) : M json :=
  response <~ client_get (repository_url organization repo_name) ;;
  if (status_code response =? 200)%Z then
    repo <~ lift (response_json response) ;;
    lift (Translate.repository_summary repo)
  else ret (repository_placeholder repo_name).

(** The body of the loop over [commits[:10]]. *)
Definition commit_step (organization repo_name : string)
    (commit : json) (detailed_commits : list json) : M (list json) :=
  sha <~ lift (Py.subscript commit "sha") ;;
  detail_response <~
    client_get (repository_url organization repo_name ++ "/commits/" ++ Py.str sha) ;;
  if (status_code detail_response =? 200)%Z then
    commit_detail <~ lift (response_json detail_response) ;;
    entry <~ lift (Translate.commit_summary repo_name commit commit_detail) ;;
    ret (detailed_commits ++ [entry])%list
  else
    entry <~ lift (Translate.commit_summary_basic repo_name commit) ;;
    ret (detailed_commits ++ [entry])%list.

Definition get_repository_commits (organization repo_name : string) : M (list json) :=
  response <~ client_get (repository_url organization repo_name ++ "/commits") ;;
  if (status_code response =? 200)%Z then
    commits <~ lift (response_json response) ;;
    window <~ lift (Py.slice_to 10 commits) ;;
    items <~ lift (Py.iterate window) ;;
    for_each_await items (commit_step organization repo_name) []
  else ret [].

(** The body of the loop over [prs[:10]]. *)
Definition pull_request_step (repo_name : string) (pr : json) (detailed_prs : list json)
  : result (list json) :=
  entry <- Translate.pull_request_summary repo_name pr ;;
  Ok (detailed_prs ++ [entry])%list.

Definition get_repository_pull_requests (organization repo_name : string)
  : M (list json) :=
  response <~ client_get (repository_url organization repo_name ++ "/pulls") ;;
  if (status_code response =? 200)%Z then
    prs <~ lift (response_json response) ;;
    window <~ lift (Py.slice_to 10 prs) ;;
    items <~ lift (Py.iterate window) ;;
    lift (Py.for_each items (pull_request_step repo_name) [])
  else ret [].

(** The body of the loop over [issues[:10]]. *)
Definition issue_step (repo_name : string) (issue : json) (detailed_issues : list json)
  : result (list json) :=
  marked <- Py.contains "pull_request" issue ;;
  if negb marked then
    entry <- Translate.issue_summary repo_name issue ;;
    Ok (detailed_issues ++ [entry])%list
  else Ok detailed_issues.

Definition get_repository_issues (organization repo_name : string) : M (list json) :=
  response <~ client_get (repository_url organization repo_name ++ "/issues") ;;
  if (status_code response =? 200)%Z then
    issues <~ lift (response_json response) ;;
    window <~ lift (Py.slice_to 10 issues) ;;
    items <~ lift (Py.iterate window) ;;
    lift (Py.for_each items (issue_step repo_name) [])
  else ret [].

Definition get_user_data (username : string) : M json :=
  response <~ client_get (GITHUB_API_BASE ++ "/users/" ++ username) ;;
  if (status_code response =? 200)%Z then
    user <~ lift (response_json response) ;;
    lift (Translate.user_summary user)
  else ret (JObj [ ("username", JStr username); ("name", JStr username) ]).

(** [repo["owner"]["login"] == username]. *)
Definition owned_by (username : string) (repo : json) : result bool :=
  login <- Py.path repo ["owner"; "login"] ;; Ok (Py.eq_str login username).

Definition get_user_repositories (username : string) : M (list json) :=
  response <~ client_get (GITHUB_API_BASE ++ "/user/repos") ;;
  if (status_code response =? 200)%Z then
    all_repos <~ lift (response_json response) ;;
    items <~ lift (Py.iterate all_repos) ;;
    lift (Py.comprehension_if (owned_by username) Translate.user_repository_summary items)
  else ret [].

(** [len(set([commit["author"] for commit in commits_data]))]. *)
Definition active_contributors (commits_data : list json) : result json :=
  authors <- Py.comprehension (map (fun commit => Py.subscript commit "author") commits_data) ;;
  distinct <- Py.set authors ;;
  Ok (count distinct).

(** Every endpoint: the token guard, then the body under
    [try: ... except Exception as e: return {"error": str(e)}]. *)
Definition endpoint (body : M json) : list request -> json * list request :=
  fun log =>
    if token_missing then (error_body "GitHub token not configured", log)
    else
      match body log with
      | (Ok v, log') => (v, log')
      | (Raise e, log') => (error_body (Py.exn_str e), log')
      end.

Definition get_github_data (org repo : string) : list request -> json * list request :=
  endpoint
    (org_data <~ get_organization_data org ;;
     repo_data <~ get_repository_data org repo ;;
     commits_data <~ get_repository_commits org repo ;;
     prs_data <~ get_repository_pull_requests org repo ;;
     issues_data <~ get_repository_issues org repo ;;
     contributors <~ lift (active_contributors commits_data) ;;
     ret (JObj
       [ ("organization", org_data);
         ("repository", repo_data);
         ("commits", JList commits_data);
         ("pullRequests", JList prs_data);
         ("issues", JList issues_data);
         ("stats", JObj
           [ ("totalCommits", count commits_data);
             ("totalPRs", count prs_data);
             ("totalIssues", count issues_data);
             ("activeContributors", contributors);
             ("repositoriesCount", JNum 1) ]) ])).

Definition get_github_user (username : string) : list request -> json * list request :=
  endpoint
    (user_data <~ get_user_data username ;;
     repositories_data <~ get_user_repositories username ;;
     ret (JObj [ ("user", user_data); ("repositories", JList repositories_data) ])).

(** [len([repo for repo in repositories_data if <test on repo["private"]>])]. *)
Definition count_private (keep : bool) (repositories_data : list json) : result json :=
  kept <- Py.comprehension_if
            (fun repo => p <- Py.subscript repo "private" ;;
                         Ok (Bool.eqb (Py.truthy p) keep))
            (fun repo => Ok repo) repositories_data ;;
  Ok (count kept).

(** [list(set([repo["language"] for repo in repositories_data
               if repo["language"] != "Unknown"]))]. *)
Definition languages (repositories_data : list json) : result json :=
  named <- Py.comprehension_if
             (fun repo => l <- Py.subscript repo "language" ;;
                          Ok (negb (Py.eq_str l "Unknown")))
             (fun repo => Py.subscript repo "language") repositories_data ;;
  distinct <- Py.set named ;;
  Ok (JList distinct).

(** [sum([repo[field] for repo in repositories_data])]. *)
Definition total_of (field : string) (repositories_data : list json) : result json :=
  vs <- Py.comprehension (map (fun repo => Py.subscript repo field) repositories_data) ;;
  Py.sum (map Ok vs).

Definition get_user_repositories_detailed (username : string)
  : list request -> json * list request :=
  endpoint
    (user_data <~ get_user_data username ;;
     repositories_data <~ get_user_repositories username ;;
     private_repos <~ lift (count_private true repositories_data) ;;
     public_repos <~ lift (count_private false repositories_data) ;;
     langs <~ lift (languages repositories_data) ;;
     total_stars <~ lift (total_of "stargazers_count" repositories_data) ;;
     total_forks <~ lift (total_of "forks_count" repositories_data) ;;
     ret (JObj
       [ ("user", user_data);
         ("repositories", JList repositories_data);
         ("total_repos", count repositories_data);
         ("private_repos", private_repos);
         ("public_repos", public_repos);
         ("languages", langs);
         ("total_stars", total_stars);
         ("total_forks", total_forks) ])).

Definition get_user_repository_detailed (username repo_name : string)
  : list request -> json * list request :=
  endpoint
    (repo_data <~ get_repository_data username repo_name ;;
     commits_data <~ get_repository_commits username repo_name ;;
     prs_data <~ get_repository_pull_requests username repo_name ;;
     issues_data <~ get_repository_issues username repo_name ;;
     contributors <~ lift (active_contributors commits_data) ;;
     ret (JObj
       [ ("repository", repo_data);
         ("commits", JList commits_data);
         ("pullRequests", JList prs_data);
         ("issues", JList issues_data);
         ("stats", JObj
           [ ("totalCommits", count commits_data);
             ("totalPRs", count prs_data);
             ("totalIssues", count issues_data);
             ("activeContributors", contributors) ]) ])).

End Service.

(* ================================================================= *)
(** ** Vocabulary of the specification *)

Module Spec.

(** The text [name] contains [kw] when letter case is ignored: some
    stretch of [name] lower-cases to [kw]. *)
Definition contains_ignoring_case (kw name : string) : Prop :=
  exists pre mid post, name = pre ++ mid ++ post /\ Str.lower mid = kw.

(** A label whose name contains [kw], case-insensitively. *)
Definition mentions (kw : string) (label : json) : Prop :=
  exists name,
    Py.subscript label "name" = Ok (JStr name) /\ contains_ignoring_case kw name.

(** The precedence of section 4.3: high, else low, else medium. *)
Inductive priority_rule (labels : list json) : string -> Prop :=
| rule_high :
    Exists (mentions "high") labels -> priority_rule labels "high"
| rule_low :
    ~ Exists (mentions "high") labels -> Exists (mentions "low") labels ->
    priority_rule labels "low"
| rule_medium :
    ~ Exists (mentions "high") labels -> ~ Exists (mentions "low") labels ->
    priority_rule labels "medium".

(** The labels of an upstream issue, as the source iterates them. *)
Definition labels_of (issue : json) : result (list json) :=
  labels <- Py.get issue "labels" (JList []) ;; Py.iterate labels.

(** An upstream entry of the issues endpoint that is a pull request:
    the test ["pull_request" in issue] holds. *)
Definition is_pull_request (issue : json) : bool :=
  match Py.contains "pull_request" issue with
  | Ok b => b
  | Raise _ => false
  end.

Definition not_pull_request (issue : json) : bool := negb (is_pull_request issue).

(** The entries of a 200 answer that a loop over [body[:10]] visits. *)
Definition window (body : json) : result (list json) :=
  w <- Py.slice_to 10 body ;; Py.iterate w.

(** The summaries of a list of upstream entries, in order. *)
Definition summaries (translate : json -> result json) (entries : list json)
  : result (list json) :=
  Py.comprehension (map translate entries).

End Spec.

(** The request [client.get(url, headers=headers)] sends. *)
Definition authorized (token : option string) (u : string) : request :=
  Request u [("Authorization", token_header token)] [].

Definition issues_request (token : option string) (organization repo_name : string)
  : request :=
  authorized token (repository_url organization repo_name ++ "/issues").

Definition pulls_request (token : option string) (organization repo_name : string)
  : request :=
  authorized token (repository_url organization repo_name ++ "/pulls").

Definition commits_request (token : option string) (organization repo_name : string)
  : request :=
  authorized token (repository_url organization repo_name ++ "/commits").

Definition commit_detail_request (token : option string)
    (organization repo_name : string) (sha : json) : request :=
  authorized token (repository_url organization repo_name ++ "/commits/" ++ Py.str sha).

Definition repository_request (token : option string) (organization repo_name : string)
  : request :=
  authorized token (repository_url organization repo_name).

Definition organization_request (token : option string) (organization : string)
  : request :=
  authorized token (GITHUB_API_BASE ++ "/orgs/" ++ organization).

Definition user_request (token : option string) (username : string) : request :=
  authorized token (GITHUB_API_BASE ++ "/users/" ++ username).

Definition user_repos_request (token : option string) : request :=
  authorized token (GITHUB_API_BASE ++ "/user/repos").

(** A fetch is one GET followed by a pure continuation on status 200
    and a fixed fallback on every other status; a transport failure
    leaves it as an exception. *)
Definition fetch_shape {A} (provider : upstream) (rq : request)
    (on_200 : response -> result A) (fallback : A)
    (log : list request) : result A * list request :=
  match provider log rq with
  | Answered r =>
      if (status_code r =? 200)%Z then (on_200 r, (log ++ [rq])%list)
      else (Ok fallback, (log ++ [rq])%list)
  | Failed msg => (Raise (TransportError msg), (log ++ [rq])%list)
  end.

(** The entries a loop visits when the request [rq], sent after [log],
    is answered 200 with a decodable body; no entries otherwise. *)
Definition upstream_entries (provider : upstream) (rq : request) (log : list request)
  : list json :=
  match provider log rq with
  | Answered r =>
      if (status_code r =? 200)%Z then
        match body <- response_json r ;; Spec.window body with
        | Ok items => items
        | Raise _ => []
        end
      else []
  | Failed _ => []
  end.

(** A fetch that answers a status other than 200 with its fallback. *)
Definition falls_back {A} (provider : upstream) (fetch : M A) (rq : request)
    (fallback : A) : Prop :=
  forall log r,
    provider log rq = Answered r -> status_code r <> 200%Z ->
    fetch log = (Ok fallback, (log ++ [rq])%list).

(** A fetch that lets a transport failure out as an exception. *)
Definition raises_transport_failure {A} (provider : upstream) (fetch : M A)
    (rq : request) : Prop :=
  forall log msg,
    provider log rq = Failed msg ->
    fetch log = (Raise (TransportError msg), (log ++ [rq])%list).

(** The request a synchronous helper sends. *)
Definition plain_request (token : option string) (u : string)
    (ps : list (string * string)) : request :=
  Request u (get_github_headers token) ps.


(** The upstream repository is owned by [username]. *)
Definition owner_is (username : string) (repo : json) : bool :=
  match owned_by username repo with
  | Ok b => b
  | Raise _ => false
  end.

(** The repositories the credential can see, as a 200 answer to
    [/user/repos] lists them; none on any other answer. *)
Definition visible_repositories (provider : upstream) (token : option string)
    (log : list request) : list json :=
  match provider log (user_repos_request token) with
  | Answered r =>
      if (status_code r =? 200)%Z then
        match body <- response_json r ;; Py.iterate body with
        | Ok items => items
        | Raise _ => []
        end
      else []
  | Failed _ => []
  end.

(** Where a returned commit summary comes from: the detail request for
    the commit was answered, with status 200 and a detail object that
    gives the summary, or with another status and the basic summary. *)
Definition commit_origin (token : option string) (provider : upstream)
    (organization repo_name : string) (commit entry : json) : Prop :=
  exists sha log_i r,
    Py.subscript commit "sha" = Ok sha
    /\ provider log_i (commit_detail_request token organization repo_name sha)
       = Answered r
    /\ if (status_code r =? 200)%Z then
         exists detail,
           payload r = Some detail
           /\ Translate.commit_summary repo_name commit detail = Ok entry
       else Translate.commit_summary_basic repo_name commit = Ok entry.

(* ================================================================= *)
(** ** Optional upstream fields *)

Definition mentioned (k : string) (ks : list string) : bool :=
  existsb (String.eqb k) ks.

Arguments mentioned : simpl never.

(** The object [v] with the fields named in [ks] left out. *)
Definition without (ks : list string) (v : json) : json :=
  match v with
  | JObj kv => JObj (filter (fun p => negb (mentioned (fst p) ks)) kv)
  | other => other
  end.

(** The object [v] has no field [k]. *)
Definition lacks (k : string) (v : json) : Prop :=
  match v with
  | JObj kv => lookup k kv = None
  | _ => False
  end.












(** A field the translator reads by subscript: without it the
    translator raises. *)
Definition requires (translate : json -> result json) (key : string) : Prop :=
  forall v, lacks key v -> exists e, translate v = Raise e.

Definition repository_required : list string :=
  [ "name"; "stargazers_count"; "forks_count"; "html_url"; "updated_at" ].

Definition commit_required : list string := [ "sha"; "commit"; "html_url" ].

Definition pull_request_required : list string :=
  [ "number"; "title"; "user"; "state"; "html_url"; "created_at"; "updated_at" ].

Definition issue_required : list string :=
  [ "number"; "title"; "user"; "state"; "html_url"; "created_at"; "updated_at" ].

Definition user_required : list string := [ "login" ].

Definition user_repository_required : list string :=
  [ "id"; "name"; "full_name"; "stargazers_count"; "forks_count"; "updated_at";
    "html_url"; "private"; "fork" ].

(** The expression a display gives for key [k], first occurrence. *)
Fixpoint entry (k : string) (entries : list (string * result json))
  : option (result json) :=
  match entries with
  | [] => None
  | (k', r) :: rest => if String.eqb k k' then Some r else entry k rest
  end.


(* ================================================================= *)
(** ** Sample upstream data *)

Module Demo.

Definition token : option string := Some "ghp_example".

(** A provider that answers by URL; an unknown URL is a 404. *)
Definition serve (routes : list (string * response)) : upstream :=
  fun _ rq =>
    match find (fun route => String.eqb (fst route) (req_url rq)) routes with
    | Some (_, r) => Answered r
    | None => Answered (Response 404 None)
    end.

Definition unreachable : upstream := fun _ _ => Failed "connection refused".


Definition ok (body : json) : response := Response 200 (Some body).

Definition account (login : string) : json :=
  JObj [ ("login", JStr login);
         ("avatar_url", JStr ("https://avatars.example/" ++ login)) ].

Definition label (name : string) : json := JObj [ ("name", JStr name) ].

Definition issue (number : Z) (labels : list string) : json :=
  JObj [ ("number", JNum number);
         ("title", JStr "Crash on start");
         ("user", account "alice");
         ("state", JStr "open");
         ("html_url", JStr "https://github.com/octo/hello/issues");
         ("created_at", JStr "2024-01-01T00:00:00Z");
         ("updated_at", JStr "2024-01-02T00:00:00Z");
         ("labels", JList (map label labels)) ].

(** The same entry as the issues endpoint lists a pull request. *)
Definition pull_request_entry (number : Z) : json :=
  match issue number [] with
  | JObj kv => JObj (("pull_request", JObj [ ("url", JStr "https://api.github.com/pulls") ]) :: kv)
  | other => other
  end.

Definition twelve_entries : list json :=
  [ pull_request_entry 1;
    issue 2 ["Priority: HIGH"]; issue 3 ["low"; "bug"]; issue 4 ["bug"];
    issue 5 ["slow"; "Highlight"]; issue 6 []; issue 7 ["docs"]; issue 8 ["LOW"];
    issue 9 ["bug"]; issue 10 ["bug"]; issue 11 ["bug"]; issue 12 ["bug"] ].

Definition pull_request (number : Z) : json :=
  JObj [ ("number", JNum number);
         ("title", JStr "Add feature");
         ("user", account "bob");
         ("state", JStr "open");
         ("html_url", JStr "https://github.com/octo/hello/pulls");
         ("created_at", JStr "2024-02-01T00:00:00Z");
         ("updated_at", JStr "2024-02-02T00:00:00Z") ].

Definition commit (sha author : string) : json :=
  JObj [ ("sha", JStr sha);
         ("commit", JObj [ ("message", JStr "Fix typo");
                           ("author", JObj [ ("name", JStr author);
                                             ("date", JStr "2024-03-01T00:00:00Z") ]) ]);
         ("html_url", JStr "https://github.com/octo/hello/commit");
         ("author", account author) ].

Definition commit_detail (changes : list (Z * Z)) : json :=
  JObj [ ("files",
          JList (map (fun c => JObj [ ("additions", JNum (fst c));
                                      ("deletions", JNum (snd c)) ]) changes)) ].

Definition repository (name owner : string) (private : bool) : json :=
  JObj [ ("id", JNum 7);
         ("name", JStr name);
         ("full_name", JStr (owner ++ "/" ++ name));
         ("description", JStr "A sample");
         ("language", JStr "Python");
         ("stargazers_count", JNum 5);
         ("forks_count", JNum 2);
         ("updated_at", JStr "2024-04-01T00:00:00Z");
         ("html_url", JStr ("https://github.com/" ++ owner ++ "/" ++ name));
         ("private", JBool private);
         ("fork", JBool false);
         ("owner", account owner) ].

Definition base : string := "https://api.github.com/repos/octo/hello".

(** The repository [octo/hello]: three commits, the detail of the second
    one unavailable; two pull requests; twelve entries under issues. *)
Definition hello : upstream :=
  serve
    [ ("https://api.github.com/orgs/octo", ok (JObj [ ("login", JStr "octo") ]));
      (base, ok (repository "hello" "octo" false));
      (base ++ "/commits",
        ok (JList [ commit "1111111aaaa" "alice"; commit "2222222bbbb" "bob";
                    commit "3333333cccc" "alice" ]));
      (base ++ "/commits/1111111aaaa", ok (commit_detail [ (3, 1); (10, 0) ]%Z));
      (base ++ "/commits/2222222bbbb", Response 503 None);
      (base ++ "/commits/3333333cccc", ok (commit_detail []));
      (base ++ "/pulls", ok (JList [ pull_request 20; pull_request 21 ]));
      (base ++ "/issues", ok (JList twelve_entries)) ].

(** The credential sees repositories of two owners. *)
Definition accounts : upstream :=
  serve
    [ ("https://api.github.com/users/alice", ok (account "alice"));
      ("https://api.github.com/user/repos",
        ok (JList [ repository "one" "alice" false; repository "two" "bob" false;
                    repository "three" "alice" true ])) ].

(** The repository itself is gone while its lists still answer. *)
Definition hello_without_repository : upstream :=
  fun log rq =>
    if String.eqb (req_url rq) base then Answered (Response 404 None)
    else hello log rq.


End Demo.

(* ================================================================= *)
(** ** Further vocabulary: requests, shapes and rollups *)

(** A request as every async fetch builds it: a provider URL, the
    token header alone, no query parameters. *)
Definition well_formed_request (token : option string) (rq : request) : Prop :=
  Str.is_prefix GITHUB_API_BASE (req_url rq) = true
  /\ req_headers rq = [("Authorization", token_header token)]
  /\ req_params rq = [].

(** A computation that only appends to the log, at most [n] well-formed
    requests, whether it returns or raises. *)
Definition sends_at_most {A} (token : option string) (n : nat) (c : M A) : Prop :=
  forall log r log',
    c log = (r, log') ->
    exists sent,
      log' = (log ++ sent)%list
      /\ (List.length sent <= n)%nat
      /\ Forall (well_formed_request token) sent.

(** The same for an endpoint, which returns a body and never raises. *)
Definition endpoint_sends_at_most (token : option string) (n : nat)
    (run : list request -> json * list request) : Prop :=
  forall log b log',
    run log = (b, log') ->
    exists sent,
      log' = (log ++ sent)%list
      /\ (List.length sent <= n)%nat
      /\ Forall (well_formed_request token) sent
      /\ (sent <> [] -> exists t, token = Some t /\ t <> "").

(** The keys of a summary, in order. *)
Definition keys_of (v : json) : list string :=
  match v with
  | JObj kv => map fst kv
  | _ => []
  end.

Definition commit_keys : list string :=
  [ "id"; "message"; "author"; "date"; "repository"; "url"; "description";
    "files_changed"; "additions"; "deletions"; "commit_url"; "author_avatar" ].

Definition pull_request_keys : list string :=
  [ "id"; "title"; "author"; "status"; "repository"; "url"; "createdAt"; "updatedAt";
    "description"; "labels"; "assignees"; "reviewers"; "comments"; "commits";
    "additions"; "deletions"; "changed_files"; "author_avatar"; "draft"; "merged";
    "mergeable" ].

Definition issue_keys : list string :=
  [ "id"; "title"; "author"; "status"; "priority"; "repository"; "url"; "createdAt";
    "updatedAt"; "description"; "labels"; "assignees"; "comments"; "author_avatar";
    "milestone"; "locked"; "closed_at"; "reactions" ].

(** A summary field that copies an upstream value, reached by [path]. *)
Definition copies (translate : json -> result json) (rule : list string * string)
  : Prop :=
  let '(path, out) := rule in
  forall v x summary,
    Py.path v path = Ok x -> translate v = Ok summary -> Py.subscript summary out = Ok x.

Definition repository_renames : list (list string * string) :=
  [ (["name"], "name"); (["description"], "description"); (["language"], "language");
    (["stargazers_count"], "stars"); (["forks_count"], "forks"); (["html_url"], "url");
    (["updated_at"], "lastUpdated") ].

Definition commit_renames : list (list string * string) :=
  [ (["commit"; "message"], "message"); (["commit"; "author"; "name"], "author");
    (["commit"; "author"; "date"], "date"); (["html_url"], "url");
    (["commit"; "message"], "description"); (["html_url"], "commit_url") ].

Definition pull_request_renames : list (list string * string) :=
  [ (["title"], "title"); (["user"; "login"], "author"); (["state"], "status");
    (["html_url"], "url"); (["created_at"], "createdAt"); (["updated_at"], "updatedAt");
    (["body"], "description"); (["comments"], "comments"); (["commits"], "commits");
    (["additions"], "additions"); (["deletions"], "deletions");
    (["changed_files"], "changed_files"); (["user"; "avatar_url"], "author_avatar");
    (["draft"], "draft"); (["merged"], "merged"); (["mergeable"], "mergeable") ].

Definition issue_renames : list (list string * string) :=
  [ (["title"], "title"); (["user"; "login"], "author"); (["state"], "status");
    (["html_url"], "url"); (["created_at"], "createdAt"); (["updated_at"], "updatedAt");
    (["body"], "description"); (["comments"], "comments");
    (["user"; "avatar_url"], "author_avatar"); (["locked"], "locked");
    (["closed_at"], "closed_at") ].

Definition user_renames : list (list string * string) :=
  [ (["login"], "username"); (["name"], "name"); (["avatar_url"], "avatar_url");
    (["bio"], "bio"); (["public_repos"], "public_repos"); (["followers"], "followers");
    (["following"], "following") ].

Definition user_repository_renames : list (list string * string) :=
  [ (["id"], "id"); (["name"], "name"); (["full_name"], "full_name");
    (["description"], "description"); (["language"], "language");
    (["stargazers_count"], "stargazers_count"); (["forks_count"], "forks_count");
    (["updated_at"], "updated_at"); (["html_url"], "html_url");
    (["private"], "private"); (["fork"], "fork") ].

(** A field present with the value [null] makes the translator raise. *)
Definition rejects_null (translate : json -> result json) (key : string) : Prop :=
  forall kv, lookup key kv = Some JNull -> exists e, translate (JObj kv) = Raise e.

(** The priority a reader of the summary can recompute from its own
    "labels" list. *)
Definition name_has (kw : string) (name : json) : bool :=
  match name with
  | JStr s => Str.contains kw (Str.lower s)
  | _ => false
  end.

Definition priority_of_names (names : list json) : string :=
  if existsb (name_has "high") names then "high"
  else if existsb (name_has "low") names then "low"
  else "medium".

(** The bundle of [/api/github-data] from the bundle of the
    user-repository endpoint: the organization in front, and
    "repositoriesCount" at the end of the stats. *)
Definition with_organization (org_data : json) (b : json) : json :=
  match b with
  | JObj [ ("repository", r); ("commits", c); ("pullRequests", p); ("issues", i);
           ("stats", JObj stats) ] =>
      JObj [ ("organization", org_data); ("repository", r); ("commits", c);
             ("pullRequests", p); ("issues", i);
             ("stats", JObj (stats ++ [("repositoriesCount", JNum 1)])%list) ]
  | other => other
  end.

(** The integer [sum] adds for a value: a boolean counts as 0 or 1. *)
Definition int_of (v : json) : Z :=
  match v with
  | JNum n => n
  | JBool true => 1%Z
  | _ => 0%Z
  end.

Definition field (k : string) (v : json) : json :=
  match Py.subscript v k with
  | Ok x => x
  | Raise _ => JNull
  end.

(** What a synchronous helper makes of the provider's reply. *)
Definition body_or_empty (rp : reply) : json :=
  match rp with
  | Failed _ => JList []
  | Answered r =>
      if (400 <=? status_code r)%Z && (status_code r <? 600)%Z then JList []
      else match payload r with
           | Some body => body
           | None => JList []
           end
  end.

(** A helper that sends [rq] and nothing else, never raises, and
    returns [body_or_empty] of the reply. *)
Definition returns_body_or_empty (provider : upstream) (fetch : M json) (rq : request)
  : Prop :=
  forall log,
    fetch log = (Ok (body_or_empty (provider log rq)), (log ++ [rq])%list).

Definition repository_keys : list string :=
  [ "name"; "description"; "language"; "stars"; "forks"; "url"; "lastUpdated" ].

Definition user_keys : list string :=
  [ "username"; "name"; "avatar_url"; "bio"; "public_repos"; "followers"; "following" ].

(** A repository as the provider lists one without description and
    language: both fields present, both null. *)
Definition repository_with_nulls : json :=
  JObj [ ("name", JStr "hello"); ("description", JNull); ("language", JNull);
         ("stargazers_count", JNum 5); ("forks_count", JNum 2);
         ("html_url", JStr "https://github.com/octo/hello");
         ("updated_at", JStr "2024-04-01T00:00:00Z") ].

(** The title of the milestone an upstream issue carries, if any. *)
Definition milestone_of (issue : json) : json :=
  match Py.subscript issue "milestone" with
  | Ok (JObj ((k, x) :: m)) =>
      match lookup "title" ((k, x) :: m) with
      | Some title => title
      | None => JNull
      end
  | _ => JNull
  end.

(** The required fields of a sample issue, to put other fields before. *)
Definition plain_issue_fields : list (string * json) :=
  [ ("number", JNum 2); ("title", JStr "Crash on start");
    ("user", Demo.account "alice"); ("state", JStr "open");
    ("html_url", JStr "https://github.com/octo/hello/issues");
    ("created_at", JStr "2024-01-01T00:00:00Z");
    ("updated_at", JStr "2024-01-02T00:00:00Z") ].

Definition issue_with_milestone : list (string * json) :=
  ("milestone", JObj [ ("number", JNum 3); ("title", JStr "v1.0") ])
    :: plain_issue_fields.

Definition issue_with_null_reactions : list (string * json) :=
  ("reactions", JNull) :: plain_issue_fields.

(** The two bytes of U+00E9 in UTF-8, and two hashes made with it: nine
    characters in eighteen bytes, six characters in nine bytes. *)
Definition e_acute : string :=
  String (ascii_of_nat 195) (String (ascii_of_nat 169) EmptyString).

Definition nine_accented : string :=
  e_acute ++ e_acute ++ e_acute ++ e_acute ++ e_acute ++ e_acute ++ e_acute
    ++ e_acute ++ e_acute.

Definition six_characters : string := e_acute ++ e_acute ++ e_acute ++ "abc".

(* ================================================================= *)
(** ** Inversion of the two monads *)

Lemma rbind_ok {A B} (r : result A) (k : A -> result B) (b : B) :
  rbind r k = Ok b <-> exists a, r = Ok a /\ k a = Ok b.
Proof.
  split.
  - destruct r as [a|e]; simpl; intros H; [exists a; auto | discriminate].
  - intros (a & -> & H). exact H.
Qed.

Lemma mbind_ok {A B} (c : M A) (k : A -> M B) log b log' :
  mbind c k log = (Ok b, log') <->
  exists a log1, c log = (Ok a, log1) /\ k a log1 = (Ok b, log').
Proof.
  unfold mbind. split.
  - destruct (c log) as [[a|e] log1]; intros H; [eauto | discriminate].
  - intros (a & log1 & -> & H). exact H.
Qed.

Lemma lift_ok {A} (r : result A) log a log' :
  lift r log = (Ok a, log') <-> r = Ok a /\ log' = log.
Proof. unfold lift. split; [intros [= -> ->] | intros [-> ->]]; auto. Qed.

Lemma ret_ok {A} (x : A) log a log' :
  ret x log = (Ok a, log') <-> a = x /\ log' = log.
Proof. unfold ret. split; [intros [= -> ->] | intros [-> ->]]; auto. Qed.

(** Peels the binds of a successful run, one hypothesis at a time. *)
Ltac invert_run :=
  repeat match goal with
    | H : rbind _ _ = Ok _ |- _ =>
        apply rbind_ok in H; destruct H as (? & ? & H)
    | H : mbind _ _ _ = (Ok _, _) |- _ =>
        apply mbind_ok in H; destruct H as (? & ? & ? & H)
    | H : lift _ _ = (Ok _, _) |- _ =>
        apply lift_ok in H; destruct H as [H ?]; subst
    | H : ret _ _ = (Ok _, _) |- _ =>
        apply ret_ok in H; destruct H as [? ?]; subst
    | H : Ok _ = Ok _ |- _ => injection H as H; subst
    end.

(* ================================================================= *)
(** ** Substrings and case folding *)

Lemma is_prefix_iff p s :
  Str.is_prefix p s = true <-> exists post, s = p ++ post.
Proof.
  revert s. induction p as [|a p IH]; intros s; simpl.
  - split; eauto.
  - destruct s as [|b s].
    + split; [discriminate | intros (post & H); discriminate].
    + rewrite andb_true_iff, Ascii.eqb_eq, IH. split.
      * intros (-> & post & ->). eauto.
      * intros (post & [= -> ->]). eauto.
Qed.

Lemma contains_iff needle hay :
  Str.contains needle hay = true <-> exists pre post, hay = pre ++ needle ++ post.
Proof.
  induction hay as [|c hay IH]; simpl.
  - rewrite orb_false_r, is_prefix_iff. split.
    + intros (post & H). exists "", post. exact H.
    + intros (pre & post & H). destruct pre; simpl in H; [eauto | discriminate].
  - rewrite orb_true_iff, is_prefix_iff, IH. split.
    + intros [(post & H) | (pre & post & ->)].
      * exists "", post. exact H.
      * exists (String c pre), post. reflexivity.
    + intros (pre & post & H). destruct pre as [|c' pre]; simpl in H.
      * left. eauto.
      * right. injection H as -> ->. eauto.
Qed.

Lemma lower_app a b : Str.lower (a ++ b) = Str.lower a ++ Str.lower b.
Proof. induction a as [|c a IH]; simpl; [reflexivity | now rewrite IH]. Qed.

Lemma lower_split s a b :
  Str.lower s = a ++ b ->
  exists a' b', s = a' ++ b' /\ Str.lower a' = a /\ Str.lower b' = b.
Proof.
  revert s. induction a as [|c a IH]; intros s H; simpl in H.
  - exists "", s. auto.
  - destruct s as [|d s]; simpl in H; [discriminate|].
    injection H as Hc H. destruct (IH _ H) as (a' & b' & -> & Ha & Hb).
    exists (String d a'), b'. simpl. rewrite Hc, Ha. auto.
Qed.

Lemma contains_lower_iff kw name :
  Str.contains kw (Str.lower name) = true <-> Spec.contains_ignoring_case kw name.
Proof.
  rewrite contains_iff. unfold Spec.contains_ignoring_case. split.
  - intros (pre & post & H).
    apply lower_split in H. destruct H as (pre' & rest & -> & _ & H).
    apply lower_split in H. destruct H as (mid & post' & -> & Hm & _).
    eauto.
  - intros (pre & mid & post & -> & <-).
    exists (Str.lower pre), (Str.lower post). now rewrite !lower_app.
Qed.

(* ================================================================= *)
(** ** Dict displays *)

Lemma dict_items_lookup entries kvs k :
  Py.dict_items entries = Ok kvs ->
  match entry k entries with
  | Some r => exists v, r = Ok v /\ lookup k kvs = Some v
  | None => lookup k kvs = None
  end.
Proof.
  revert kvs. induction entries as [|[k' r] rest IH]; intros kvs H; simpl in H.
  - injection H as <-. reflexivity.
  - apply rbind_ok in H. destruct H as (v & Hr & H).
    apply rbind_ok in H. destruct H as (kvs' & Hrest & H).
    injection H as <-. simpl. destruct (String.eqb k k').
    + exists v. auto.
    + apply IH. exact Hrest.
Qed.

Lemma dict_field entries s k r :
  Py.dict entries = Ok s -> entry k entries = Some r ->
  exists v, r = Ok v /\ Py.subscript s k = Ok v.
Proof.
  unfold Py.dict. intros H Hk. invert_run.
  match goal with H : Py.dict_items _ = _ |- _ =>
    apply dict_items_lookup with (k := k) in H; rewrite Hk in H;
    destruct H as (v & -> & Hv) end.
  exists v. simpl. now rewrite Hv.
Qed.

(* ================================================================= *)
(** ** Priority derivation *)

Lemma label_has_iff kw label b :
  Translate.label_has kw label = Ok b -> (b = true <-> Spec.mentions kw label).
Proof.
  unfold Translate.label_has, Spec.mentions. intros H. invert_run.
  match goal with H : Py.lower ?n = Ok _ |- _ =>
    destruct n; simpl in H; try discriminate; injection H as <- end.
  rewrite contains_lower_iff. split.
  - intros Hc. eauto.
  - intros (name & Hn & Hc).
    match goal with H1 : Py.subscript _ _ = Ok (JStr ?a) |- _ =>
      rewrite H1 in Hn; injection Hn as -> end.
    exact Hc.
Qed.

Lemma any_true {A} (f : A -> result bool) xs :
  Py.any (map f xs) = Ok true -> Exists (fun x => f x = Ok true) xs.
Proof.
  induction xs as [|x xs IH]; simpl; intros H; [discriminate|].
  apply rbind_ok in H. destruct H as ([|] & Hx & H); auto.
Qed.

Lemma any_false {A} (f : A -> result bool) xs :
  Py.any (map f xs) = Ok false -> Forall (fun x => f x = Ok false) xs.
Proof.
  induction xs as [|x xs IH]; simpl; intros H; [constructor|].
  apply rbind_ok in H. destruct H as ([|] & Hx & H); [discriminate|auto].
Qed.

Lemma any_label_has_iff kw issue b :
  Translate.any_label_has kw issue = Ok b ->
  exists labels,
    Spec.labels_of issue = Ok labels /\ (b = true <-> Exists (Spec.mentions kw) labels).
Proof.
  unfold Translate.any_label_has, Spec.labels_of. intros H.
  apply rbind_ok in H. destruct H as (ls & Hget & H).
  apply rbind_ok in H. destruct H as (items & Hit & H).
  exists items. rewrite Hget. simpl. split; [exact Hit|].
  destruct b.
  - split; [intros _ | reflexivity].
    apply any_true in H. rewrite Exists_exists in *.
    destruct H as (x & Hin & Hx). exists x. split; [exact Hin|].
    now apply (label_has_iff _ _ Hx).
  - split; [discriminate|]. intros HE. exfalso.
    apply any_false in H. rewrite Forall_forall in H. rewrite Exists_exists in HE.
    destruct HE as (x & Hin & Hx).
    apply (label_has_iff _ _ (H x Hin)) in Hx. discriminate.
Qed.

Lemma priority_follows_rule issue p :
  Translate.priority issue = Ok p ->
  exists labels, Spec.labels_of issue = Ok labels /\ Spec.priority_rule labels p.
Proof.
  unfold Translate.priority. intros H.
  apply rbind_ok in H. destruct H as (high & Hh & H).
  destruct (any_label_has_iff _ _ Hh) as (labels & Hl & Hhigh).
  exists labels. split; [exact Hl|].
  destruct high.
  - injection H as <-. apply Spec.rule_high. now apply Hhigh.
  - assert (Hnh : ~ Exists (Spec.mentions "high") labels).
    { intros HE. apply Hhigh in HE. discriminate. }
    apply rbind_ok in H. destruct H as (low & Hlo & H).
    destruct (any_label_has_iff _ _ Hlo) as (labels' & Hl' & Hlow).
    rewrite Hl in Hl'. injection Hl' as <-.
    destruct low; injection H as <-.
    + apply Spec.rule_low; [exact Hnh | now apply Hlow].
    + apply Spec.rule_medium; [exact Hnh|].
      intros HE. apply Hlow in HE. discriminate.
Qed.

Lemma priority_rule_functional labels p q :
  Spec.priority_rule labels p -> Spec.priority_rule labels q -> p = q.
Proof. intros [] []; tauto. Qed.

Lemma Exists_permutation {A} (P : A -> Prop) xs ys :
  Permutation xs ys -> Exists P xs -> Exists P ys.
Proof.
  intros HP. rewrite !Exists_exists. intros (x & Hin & Hx).
  exists x. split; [now apply (Permutation_in _ HP) | exact Hx].
Qed.

Lemma priority_rule_permutation labels labels' p :
  Permutation labels labels' ->
  Spec.priority_rule labels p -> Spec.priority_rule labels' p.
Proof.
  intros HP H. pose proof (Permutation_sym HP) as HP'.
  destruct H; [apply Spec.rule_high | apply Spec.rule_low | apply Spec.rule_medium];
    eauto using Exists_permutation.
Qed.

(** The summary of an issue carries the priority computed for it. *)
Lemma issue_summary_priority repo_name issue summary :
  Translate.issue_summary repo_name issue = Ok summary ->
  exists p,
    Translate.priority issue = Ok p /\ Py.subscript summary "priority" = Ok (JStr p).
Proof.
  unfold Translate.issue_summary. intros H.
  apply rbind_ok in H. destruct H as (p & Hp & H).
  exists p. split; [exact Hp|].
  destruct (@dict_field _ _ "priority" _ H eq_refl) as (v & Hv & Hs).
  now injection Hv as <-.
Qed.

(* ================================================================= *)
(** ** One GET, and the shape of each fetch *)

Section Runs.

Variable token : option string.
Variable provider : upstream.

Lemma client_get_run u log :
  client_get token provider u log =
  match provider log (authorized token u) with
  | Answered r => (Ok r, (log ++ [authorized token u])%list)
  | Failed msg => (Raise (TransportError msg), (log ++ [authorized token u])%list)
  end.
Proof. reflexivity. Qed.

Lemma lift_bind {A B} (r : result A) (k : A -> M B) log :
  mbind (lift r) k log =
  match r with Ok a => k a log | Raise e => (Raise e, log) end.
Proof. unfold mbind, lift. destruct r; reflexivity. Qed.

Ltac fetch_shape_tac :=
  intros; unfold fetch_shape, mbind; rewrite client_get_run;
  unfold organization_request, repository_request, user_request, pulls_request,
    issues_request, user_repos_request;
  match goal with |- context [provider ?l ?q] => destruct (provider l q) as [r|msg] end;
  [ match goal with |- context [(status_code ?x =? 200)%Z] =>
      destruct (status_code x =? 200)%Z end; [|reflexivity]
  | reflexivity ].


Lemma get_repository_data_run organization repo_name log :
  get_repository_data token provider organization repo_name log =
  fetch_shape provider (repository_request token organization repo_name)
    (fun r => repo <- response_json r ;; Translate.repository_summary repo)
    (repository_placeholder repo_name) log.
Proof.
  unfold get_repository_data. fetch_shape_tac.
  unfold lift. destruct (response_json r); reflexivity.
Qed.

Lemma get_user_data_run username log :
  get_user_data token provider username log =
  fetch_shape provider (user_request token username)
    (fun r => user <- response_json r ;; Translate.user_summary user)
    (JObj [ ("username", JStr username); ("name", JStr username) ]) log.
Proof.
  unfold get_user_data. fetch_shape_tac.
  unfold lift. destruct (response_json r); reflexivity.
Qed.

Lemma get_repository_pull_requests_run organization repo_name log :
  get_repository_pull_requests token provider organization repo_name log =
  fetch_shape provider (pulls_request token organization repo_name)
    (fun r => prs <- response_json r ;;
              items <- Spec.window prs ;;
              Py.for_each items (pull_request_step repo_name) [])
    [] log.
Proof.
  unfold get_repository_pull_requests. fetch_shape_tac.
  unfold lift, Spec.window. destruct (response_json r) as [prs|]; [|reflexivity].
  simpl. destruct (Py.slice_to 10 prs) as [w|]; [|reflexivity].
  simpl. destruct (Py.iterate w); reflexivity.
Qed.

Lemma get_repository_issues_run organization repo_name log :
  get_repository_issues token provider organization repo_name log =
  fetch_shape provider (issues_request token organization repo_name)
    (fun r => issues <- response_json r ;;
              items <- Spec.window issues ;;
              Py.for_each items (issue_step repo_name) [])
    [] log.
Proof.
  unfold get_repository_issues. fetch_shape_tac.
  unfold lift, Spec.window. destruct (response_json r) as [issues|]; [|reflexivity].
  simpl. destruct (Py.slice_to 10 issues) as [w|]; [|reflexivity].
  simpl. destruct (Py.iterate w); reflexivity.
Qed.

Lemma get_user_repositories_run username log :
  get_user_repositories token provider username log =
  fetch_shape provider (user_repos_request token)
    (fun r => all_repos <- response_json r ;;
              items <- Py.iterate all_repos ;;
              Py.comprehension_if (owned_by username)
                Translate.user_repository_summary items)
    [] log.
Proof.
  unfold get_user_repositories. fetch_shape_tac.
  unfold lift. destruct (response_json r) as [all_repos|]; [|reflexivity].
  simpl. destruct (Py.iterate all_repos); reflexivity.
Qed.

End Runs.

(* ================================================================= *)
(** ** The ten-element window and the three loops *)

Lemma take_length n s : (Str.length (Str.take n s) <= n)%nat.
Proof.
  revert n. induction s as [|c s IH]; intros n; simpl; [lia|].
  destruct (Str.is_continuation c) eqn:Hc; simpl; rewrite ?Hc.
  - apply IH.
  - destruct n as [|n]; simpl; [lia|]. rewrite Hc. specialize (IH n). lia.
Qed.

Lemma chars_length s : List.length (Str.chars s) = Str.length s.
Proof.
  induction s as [|c s IH]; simpl; [reflexivity|].
  destruct (Str.is_continuation c); simpl; congruence.
Qed.

Lemma window_length body items :
  Spec.window body = Ok items -> (List.length items <= 10)%nat.
Proof.
  unfold Spec.window. intros H. apply rbind_ok in H. destruct H as (w & Hw & Hi).
  destruct body; cbv [Py.slice_to] in Hw; try discriminate.
  - assert (w = JStr (Str.take 10 s)) as -> by congruence.
    cbv [Py.iterate] in Hi.
    assert (items = map JStr (Str.chars (Str.take 10 s))) as -> by congruence.
    rewrite length_map, chars_length. apply take_length.
  - assert (w = JList (firstn 10 l)) as -> by congruence.
    cbv [Py.iterate] in Hi. assert (items = firstn 10 l) as -> by congruence.
    rewrite length_firstn. lia.
Qed.

Lemma summaries_cons translate x xs l :
  Spec.summaries translate (x :: xs) = Ok l <->
  exists v vs, translate x = Ok v /\ Spec.summaries translate xs = Ok vs /\ l = v :: vs.
Proof.
  unfold Spec.summaries. simpl. split.
  - intros H. invert_run. eauto.
  - intros (v & vs & -> & Hvs & ->). simpl.
    unfold Spec.summaries in Hvs. now rewrite Hvs.
Qed.

Lemma summaries_length translate xs l :
  Spec.summaries translate xs = Ok l -> List.length l = List.length xs.
Proof.
  revert l. induction xs as [|x xs IH]; intros l H.
  - now injection H as <-.
  - apply summaries_cons in H. destruct H as (v & vs & _ & Hvs & ->).
    simpl. f_equal. eauto.
Qed.

Lemma summaries_sources translate xs l :
  Spec.summaries translate xs = Ok l -> Forall2 (fun x v => translate x = Ok v) xs l.
Proof.
  revert l. induction xs as [|x xs IH]; intros l H.
  - injection H as <-. constructor.
  - apply summaries_cons in H. destruct H as (v & vs & Hv & Hvs & ->).
    constructor; eauto.
Qed.

Lemma pull_request_loop repo_name items acc l :
  Py.for_each items (pull_request_step repo_name) acc = Ok l <->
  exists news,
    Spec.summaries (Translate.pull_request_summary repo_name) items = Ok news
    /\ l = (acc ++ news)%list.
Proof.
  revert acc l. induction items as [|pr items IH]; intros acc l; simpl.
  - split.
    + intros [= <-]. exists []. now rewrite app_nil_r.
    + intros (news & [= <-] & ->). now rewrite app_nil_r.
  - unfold pull_request_step at 1. split.
    + intros H. invert_run.
      apply IH in H. destruct H as (news & Hn & ->).
      eexists. split.
      * apply summaries_cons. eauto.
      * now rewrite <- app_assoc.
    + intros (news & Hn & ->). apply summaries_cons in Hn.
      destruct Hn as (v & vs & -> & Hvs & ->). simpl.
      apply IH. exists vs. split; [exact Hvs | now rewrite <- app_assoc].
Qed.

(** An entry on which the marker test raises is no dict, and its
    summary raises as well. *)
Lemma marker_test_raises repo_name issue e :
  Py.contains "pull_request" issue = Raise e ->
  exists e', Translate.issue_summary repo_name issue = Raise e'.
Proof.
  destruct issue; simpl; try discriminate; intros _; eexists; reflexivity.
Qed.

Lemma issue_loop repo_name items acc l :
  Py.for_each items (issue_step repo_name) acc = Ok l <->
  exists news,
    Spec.summaries (Translate.issue_summary repo_name) (filter Spec.not_pull_request items)
      = Ok news
    /\ l = (acc ++ news)%list.
Proof.
  revert acc l. induction items as [|issue items IH]; intros acc l; simpl.
  - split.
    + intros [= <-]. exists []. now rewrite app_nil_r.
    + intros (news & [= <-] & ->). now rewrite app_nil_r.
  - unfold issue_step at 1, Spec.not_pull_request at 1, Spec.is_pull_request at 1.
    destruct (Py.contains "pull_request" issue) as [[|]|e] eqn:Hm; simpl.
    + apply IH.
    + split.
      * intros H. invert_run. apply IH in H. destruct H as (news & Hn & ->).
        eexists. split; [apply summaries_cons; eauto | now rewrite <- app_assoc].
      * intros (news & Hn & ->). apply summaries_cons in Hn.
        destruct Hn as (v & vs & -> & Hvs & ->). simpl.
        apply IH. exists vs. split; [exact Hvs | now rewrite <- app_assoc].
    + split; [discriminate|].
      intros (news & Hn & _). apply summaries_cons in Hn.
      destruct Hn as (v & vs & Hv & _).
      destruct (marker_test_raises repo_name _ Hm) as (e' & He'). congruence.
Qed.

Lemma filter_length_le {A} (f : A -> bool) xs :
  (List.length (filter f xs) <= List.length xs)%nat.
Proof. induction xs as [|x xs IH]; simpl; [lia | destruct (f x); simpl; lia]. Qed.

Lemma filter_length_lt {A} (f : A -> bool) xs :
  Exists (fun x => f x = false) xs ->
  (List.length (filter f xs) < List.length xs)%nat.
Proof.
  induction 1 as [x xs Hx | x xs _ IH]; simpl.
  - rewrite Hx. pose proof (filter_length_le f xs). lia.
  - destruct (f x); simpl; lia.
Qed.

Lemma commit_step_length token provider organization repo_name commit acc log l log' :
  commit_step token provider organization repo_name commit acc log = (Ok l, log') ->
  List.length l = S (List.length acc).
Proof.
  unfold commit_step. intros H.
  apply mbind_ok in H. destruct H as (sha & log1 & _ & H).
  apply mbind_ok in H. destruct H as (r & log2 & _ & H).
  destruct (status_code r =? 200)%Z; invert_run; rewrite length_app; simpl; lia.
Qed.

Lemma commit_loop_length token provider organization repo_name items acc log l log' :
  for_each_await items (commit_step token provider organization repo_name) acc log
    = (Ok l, log') ->
  List.length l = (List.length acc + List.length items)%nat.
Proof.
  revert acc log. induction items as [|commit items IH]; intros acc log H; simpl in H.
  - apply ret_ok in H. destruct H as [-> _]. simpl. lia.
  - apply mbind_ok in H. destruct H as (acc' & log1 & Hs & H).
    apply commit_step_length in Hs. apply IH in H. simpl. lia.
Qed.

(* ================================================================= *)
(** ** What the three list fetches return *)

Lemma fetch_shape_ok {A} provider rq (on_200 : response -> result A) fallback log a log' :
  fetch_shape provider rq on_200 fallback log = (Ok a, log') <->
  exists r,
    provider log rq = Answered r /\ log' = (log ++ [rq])%list /\
    if (status_code r =? 200)%Z then on_200 r = Ok a else a = fallback.
Proof.
  unfold fetch_shape. split.
  - destruct (provider log rq) as [r|msg]; [|discriminate].
    intros H. exists r. destruct (status_code r =? 200)%Z; injection H as -> <-; auto.
  - intros (r & -> & -> & H). destruct (status_code r =? 200)%Z; congruence.
Qed.

(** A list fetch that returns has walked [upstream_entries]. *)
Lemma list_fetch_ok provider rq (loop : list json -> result (list json)) log l log' :
  loop [] = Ok [] ->
  fetch_shape provider rq
    (fun r => body <- response_json r ;; items <- Spec.window body ;; loop items)
    [] log = (Ok l, log') ->
  loop (upstream_entries provider rq log) = Ok l.
Proof.
  intros Hnil H. apply fetch_shape_ok in H. destruct H as (r & Hr & _ & H).
  unfold upstream_entries. rewrite Hr.
  destruct (status_code r =? 200)%Z.
  - apply rbind_ok in H. destruct H as (body & -> & H).
    apply rbind_ok in H. destruct H as (items & Hw & H).
    simpl. rewrite Hw. exact H.
  - now subst.
Qed.

Lemma upstream_entries_length provider rq log :
  (List.length (upstream_entries provider rq log) <= 10)%nat.
Proof.
  unfold upstream_entries. destruct (provider log rq) as [r|msg]; simpl; [|lia].
  destruct (status_code r =? 200)%Z; simpl; [|lia].
  destruct (response_json r) as [body|]; simpl; [|lia].
  destruct (Spec.window body) as [items|] eqn:Hw; simpl; [|lia].
  now apply window_length in Hw.
Qed.

Lemma issues_returned token provider organization repo_name log l log' :
  get_repository_issues token provider organization repo_name log = (Ok l, log') ->
  Spec.summaries (Translate.issue_summary repo_name)
    (filter Spec.not_pull_request
       (upstream_entries provider (issues_request token organization repo_name) log))
  = Ok l.
Proof.
  rewrite get_repository_issues_run. intros H.
  apply list_fetch_ok in H; [|reflexivity].
  apply issue_loop in H. destruct H as (news & Hn & ->). exact Hn.
Qed.

Lemma pull_requests_returned token provider organization repo_name log l log' :
  get_repository_pull_requests token provider organization repo_name log = (Ok l, log') ->
  Spec.summaries (Translate.pull_request_summary repo_name)
    (upstream_entries provider (pulls_request token organization repo_name) log)
  = Ok l.
Proof.
  rewrite get_repository_pull_requests_run. intros H.
  apply list_fetch_ok in H; [|reflexivity].
  apply pull_request_loop in H. destruct H as (news & Hn & ->). exact Hn.
Qed.

Lemma commits_length token provider organization repo_name log l log' :
  get_repository_commits token provider organization repo_name log = (Ok l, log') ->
  (List.length l <= 10)%nat.
Proof.
  unfold get_repository_commits. intros H.
  apply mbind_ok in H. destruct H as (r & log1 & _ & H).
  destruct (status_code r =? 200)%Z.
  - apply mbind_ok in H. destruct H as (commits & log2 & _ & H).
    apply mbind_ok in H. destruct H as (w & log3 & Hw & H).
    apply mbind_ok in H. destruct H as (items & log4 & Hi & H).
    apply lift_ok in Hw. destruct Hw as [Hw _].
    apply lift_ok in Hi. destruct Hi as [Hi _].
    apply commit_loop_length in H. simpl in H.
    assert (Spec.window commits = Ok items) as Hwin.
    { unfold Spec.window. rewrite Hw. exact Hi. }
    apply window_length in Hwin. lia.
  - apply ret_ok in H. destruct H as [-> _]. simpl. lia.
Qed.

Lemma pull_requests_length token provider organization repo_name log l log' :
  get_repository_pull_requests token provider organization repo_name log = (Ok l, log') ->
  (List.length l <= 10)%nat.
Proof.
  intros H. apply pull_requests_returned in H. apply summaries_length in H.
  rewrite H. apply upstream_entries_length.
Qed.

Lemma issues_length token provider organization repo_name log l log' :
  get_repository_issues token provider organization repo_name log = (Ok l, log') ->
  (List.length l <= 10)%nat.
Proof.
  intros H. apply issues_returned in H. apply summaries_length in H.
  rewrite H. etransitivity; [apply filter_length_le | apply upstream_entries_length].
Qed.

(** An issue summary has the eighteen keys of the display, and none other. *)
Lemma issue_summary_unmarked repo_name issue summary :
  Translate.issue_summary repo_name issue = Ok summary ->
  Py.contains "pull_request" summary = Ok false.
Proof.
  unfold Translate.issue_summary, Translate.issue_entry, Py.dict. intros H.
  apply rbind_ok in H. destruct H as (p & _ & H).
  apply rbind_ok in H. destruct H as (kvs & Hk & H). injection H as <-.
  apply dict_items_lookup with (k := "pull_request") in Hk. simpl in Hk.
  simpl. now rewrite Hk.
Qed.

Lemma unmarked_source repo_name issue summary :
  Translate.issue_summary repo_name issue = Ok summary ->
  Spec.not_pull_request issue = true ->
  Py.contains "pull_request" issue = Ok false.
Proof.
  unfold Spec.not_pull_request, Spec.is_pull_request. intros Hs Hn.
  destruct (Py.contains "pull_request" issue) as [[|]|e] eqn:Hm.
  - discriminate.
  - reflexivity.
  - destruct (marker_test_raises repo_name _ Hm) as (e' & He'). congruence.
Qed.

(* ================================================================= *)
(** ** Issues: priority, pull-request filter, truncation *)

Lemma Forall2_targets {A B} (R : A -> B -> Prop) xs ys :
  Forall2 R xs ys -> Forall (fun y => exists x, In x xs /\ R x y) ys.
Proof.
  induction 1 as [|x y xs ys Hxy _ IH]; constructor.
  - exists x. simpl. auto.
  - eapply Forall_impl; [|exact IH]. intros b (a & Ha & Hab). exists a. simpl. auto.
Qed.

(** C1. Every issue summary returned by [get_repository_issues] comes
    from an upstream entry whose labels decide its priority by the rule
    of section 4.3: "high" when some label name contains "high" in any
    letter case, else "low" when some label name contains "low", else
    "medium". Any other returned issue whose labels are the same up to
    their order gets the same priority. *)
Theorem issue_priority_follows_label_precedence
    token provider organization repo_name log l log' :
  get_repository_issues token provider organization repo_name log = (Ok l, log') ->
  Forall
    (fun summary =>
       exists issue labels p,
         In issue
           (upstream_entries provider (issues_request token organization repo_name) log)
         /\ Translate.issue_summary repo_name issue = Ok summary
         /\ Spec.labels_of issue = Ok labels
         /\ Py.subscript summary "priority" = Ok (JStr p)
         /\ Spec.priority_rule labels p
         /\ forall repo_name' issue' summary' labels',
              Translate.issue_summary repo_name' issue' = Ok summary' ->
              Spec.labels_of issue' = Ok labels' ->
              Permutation labels labels' ->
              Py.subscript summary' "priority" = Ok (JStr p))
    l.
Proof.
  intros H. apply issues_returned in H. apply summaries_sources in H.
  apply Forall2_targets in H. eapply Forall_impl; [|exact H].
  intros summary (issue & Hin & Hs). apply filter_In in Hin. destruct Hin as [Hin _].
  destruct (issue_summary_priority _ _ Hs) as (p & Hp & Hfield).
  destruct (priority_follows_rule _ Hp) as (labels & Hl & Hrule).
  exists issue, labels, p. repeat split; auto.
  intros repo_name' issue' summary' labels' Hs' Hl' Hperm.
  destruct (issue_summary_priority _ _ Hs') as (q & Hq & Hfield').
  destruct (priority_follows_rule _ Hq) as (labels'' & Hl'' & Hrule').
  rewrite Hl' in Hl''. injection Hl'' as <-.
  apply (priority_rule_permutation Hperm) in Hrule.
  now rewrite (priority_rule_functional Hrule' Hrule) in Hfield'.
Qed.

Lemma issue_priority_follows_label_precedence_witness :
  exists l log',
    get_repository_issues Demo.token Demo.hello "octo" "hello" [] = (Ok l, log')
    /\ List.length l = 9%nat
    /\ Forall
         (fun summary =>
            exists issue labels p,
              In issue
                (upstream_entries Demo.hello
                   (issues_request Demo.token "octo" "hello") [])
              /\ Translate.issue_summary "hello" issue = Ok summary
              /\ Spec.labels_of issue = Ok labels
              /\ Py.subscript summary "priority" = Ok (JStr p)
              /\ Spec.priority_rule labels p
              /\ forall repo_name' issue' summary' labels',
                   Translate.issue_summary repo_name' issue' = Ok summary' ->
                   Spec.labels_of issue' = Ok labels' ->
                   Permutation labels labels' ->
                   Py.subscript summary' "priority" = Ok (JStr p))
         l.
Proof.
  eexists. eexists. split; [vm_compute; reflexivity|]. split; [reflexivity|].
  eapply issue_priority_follows_label_precedence
    with (token := Demo.token) (provider := Demo.hello) (log := []).
  vm_compute. reflexivity.
Defined.

(** C6. The issue summaries returned by [get_repository_issues] are the
    summaries, in order, of upstream entries none of which carries the
    "pull_request" key; no returned summary carries it either. *)
Theorem issue_list_excludes_pull_requests
    token provider organization repo_name log l log' :
  get_repository_issues token provider organization repo_name log = (Ok l, log') ->
  exists sources,
    incl sources
      (upstream_entries provider (issues_request token organization repo_name) log)
    /\ Forall2 (fun issue summary => Translate.issue_summary repo_name issue = Ok summary)
         sources l
    /\ Forall (fun issue => Py.contains "pull_request" issue = Ok false) sources
    /\ Forall (fun summary => Py.contains "pull_request" summary = Ok false) l.
Proof.
  intros H. apply issues_returned in H. apply summaries_sources in H.
  eexists. split; [apply incl_filter|]. split; [exact H|]. split.
  - clear log'. remember (filter _ _) as sources eqn:Hsrc.
    assert (Hkept : Forall (fun i => Spec.not_pull_request i = true) sources).
    { subst sources. apply Forall_forall. intros i Hi. now apply filter_In in Hi. }
    clear Hsrc. induction H as [|issue summary xs ys Hs _ IH]; [constructor|].
    inversion Hkept; subst. constructor; eauto using unmarked_source.
  - apply Forall2_targets in H. eapply Forall_impl; [|exact H].
    intros summary (issue & _ & Hs). eauto using issue_summary_unmarked.
Qed.

Lemma issue_list_excludes_pull_requests_witness :
  exists l log',
    get_repository_issues Demo.token Demo.hello "octo" "hello" [] = (Ok l, log')
    /\ Spec.is_pull_request (hd JNull Demo.twelve_entries) = true
    /\ exists sources,
         incl sources
           (upstream_entries Demo.hello (issues_request Demo.token "octo" "hello") [])
         /\ Forall2 (fun issue summary => Translate.issue_summary "hello" issue = Ok summary)
              sources l
         /\ Forall (fun issue => Py.contains "pull_request" issue = Ok false) sources
         /\ Forall (fun summary => Py.contains "pull_request" summary = Ok false) l.
Proof.
  eexists. eexists. split; [vm_compute; reflexivity|]. split; [reflexivity|].
  eapply issue_list_excludes_pull_requests
    with (token := Demo.token) (provider := Demo.hello) (log := []).
  vm_compute. reflexivity.
Defined.

(** C10. When the issues endpoint answers 200 with a JSON array, the
    function returns exactly when every entry without the pull-request
    marker among the first ten has a summary, and then returns those
    summaries in order: the marker filter runs on the truncated window.
    If one of the first ten entries is a pull request, fewer than ten
    issues are returned, however many issues follow in the array. *)
Theorem issues_filtered_after_truncation
    token provider organization repo_name log r entries :
  provider log (issues_request token organization repo_name) = Answered r ->
  status_code r = 200%Z ->
  payload r = Some (JList entries) ->
  forall l,
    (fst (get_repository_issues token provider organization repo_name log) = Ok l <->
     Spec.summaries (Translate.issue_summary repo_name)
       (filter Spec.not_pull_request (firstn 10 entries)) = Ok l)
    /\ (fst (get_repository_issues token provider organization repo_name log) = Ok l ->
        Exists (fun entry => Spec.is_pull_request entry = true) (firstn 10 entries) ->
        (List.length l < 10)%nat).
Proof.
  intros Hr Hst Hp l.
  assert (Hrun : fst (get_repository_issues token provider organization repo_name log)
                 = Py.for_each (firstn 10 entries) (issue_step repo_name) []).
  { rewrite get_repository_issues_run. unfold fetch_shape. rewrite Hr, Hst.
    unfold response_json. rewrite Hp. reflexivity. }
  rewrite Hrun.
  assert (Hiff : Py.for_each (firstn 10 entries) (issue_step repo_name) [] = Ok l <->
                 Spec.summaries (Translate.issue_summary repo_name)
                   (filter Spec.not_pull_request (firstn 10 entries)) = Ok l).
  { rewrite issue_loop. split.
    - intros (news & Hn & ->). exact Hn.
    - intros Hn. exists l. auto. }
  split; [exact Hiff|].
  intros Hl Hex. apply Hiff in Hl. apply summaries_length in Hl. rewrite Hl.
  assert (Hlt : (List.length (filter Spec.not_pull_request (firstn 10 entries))
                 < List.length (firstn 10 entries))%nat).
  { apply filter_length_lt. eapply Exists_impl; [|exact Hex].
    intros entry He. unfold Spec.not_pull_request. now rewrite He. }
  rewrite length_firstn in Hlt. lia.
Qed.

Lemma issues_filtered_after_truncation_witness :
  Demo.hello [] (issues_request Demo.token "octo" "hello")
    = Answered (Demo.ok (JList Demo.twelve_entries))
  /\ List.length (filter Spec.not_pull_request Demo.twelve_entries) = 11%nat
  /\ exists l,
       fst (get_repository_issues Demo.token Demo.hello "octo" "hello" []) = Ok l
       /\ List.length l = 9%nat
       /\ Spec.summaries (Translate.issue_summary "hello")
            (filter Spec.not_pull_request (firstn 10 Demo.twelve_entries)) = Ok l.
Proof.
  split; [reflexivity|]. split; [reflexivity|].
  eexists. split; [vm_compute; reflexivity|]. split; [reflexivity|].
  apply (proj1 (@issues_filtered_after_truncation
                  Demo.token Demo.hello "octo" "hello" [] _ Demo.twelve_entries
                  eq_refl eq_refl eq_refl _)).
  vm_compute. reflexivity.
Defined.

(* ================================================================= *)
(** ** Endpoints *)

Lemma endpoint_cases token (body : M json) log b log' :
  endpoint token body log = (b, log') ->
  (token_missing token = true
   /\ b = error_body "GitHub token not configured" /\ log' = log)
  \/ (token_missing token = false
      /\ (body log = (Ok b, log')
          \/ exists e, body log = (Raise e, log') /\ b = error_body (Py.exn_str e))).
Proof.
  unfold endpoint. destruct (token_missing token).
  - intros [= <- <-]. auto.
  - destruct (body log) as [[v|e] log1]; intros [= <- <-]; right; split; eauto.
Qed.

Lemma error_body_has_no_list msg key v :
  In key ["commits"; "pullRequests"; "issues"] ->
  Py.subscript (error_body msg) key = Ok v -> False.
Proof.
  simpl. intros [<-|[<-|[<-|[]]]]; discriminate.
Qed.

(** C4. With the credential unset (or empty, which [not GITHUB_TOKEN]
    treats alike) each of the four data endpoints returns the body
    [{"error": "GitHub token not configured"}] and leaves the request log
    as it found it: nothing is sent upstream, whatever the provider. *)
Theorem missing_token_returns_configuration_error
    token provider org repo username repo_name log :
  token_missing token = true ->
  get_github_data token provider org repo log
    = (error_body "GitHub token not configured", log)
  /\ get_github_user token provider username log
    = (error_body "GitHub token not configured", log)
  /\ get_user_repositories_detailed token provider username log
    = (error_body "GitHub token not configured", log)
  /\ get_user_repository_detailed token provider username repo_name log
    = (error_body "GitHub token not configured", log).
Proof.
  intros H.
  unfold get_github_data, get_github_user, get_user_repositories_detailed,
    get_user_repository_detailed, endpoint.
  rewrite H. repeat split.
Qed.

Lemma missing_token_returns_configuration_error_witness :
  token_missing None = true
  /\ get_github_data None Demo.hello "octo" "hello" []
     = (JObj [("error", JStr "GitHub token not configured")], [])
  /\ get_github_user None Demo.accounts "alice" []
     = (JObj [("error", JStr "GitHub token not configured")], [])
  /\ get_user_repositories_detailed None Demo.accounts "alice" []
     = (JObj [("error", JStr "GitHub token not configured")], [])
  /\ get_user_repository_detailed None Demo.hello "octo" "hello" []
     = (JObj [("error", JStr "GitHub token not configured")], []).
Proof.
  split; [reflexivity|].
  apply (@missing_token_returns_configuration_error
           None Demo.hello "octo" "hello" "alice" "hello" [] eq_refl).
Defined.

Lemma bundle_lists token provider organization repo_name log b log' key v :
  get_github_data token provider organization repo_name log = (b, log')
  \/ get_user_repository_detailed token provider organization repo_name log = (b, log') ->
  In key ["commits"; "pullRequests"; "issues"] ->
  Py.subscript b key = Ok v ->
  exists l, v = JList l /\ (List.length l <= 10)%nat.
Proof.
  intros Hrun Hkey Hv.
  assert (Herr : forall msg, b = error_body msg -> False).
  { intros msg ->. eapply error_body_has_no_list; eauto. }
  destruct Hrun as [Hrun|Hrun];
    apply endpoint_cases in Hrun;
    destruct Hrun as [(_ & Hb & _) | (_ & [Hbody | (e & _ & Hb)])];
    try (exfalso; eapply Herr; eassumption).
  - apply mbind_ok in Hbody. destruct Hbody as (org_data & l1 & _ & Hbody).
    apply mbind_ok in Hbody. destruct Hbody as (repo_data & l2 & _ & Hbody).
    apply mbind_ok in Hbody. destruct Hbody as (commits & l3 & Hc & Hbody).
    apply mbind_ok in Hbody. destruct Hbody as (prs & l4 & Hp & Hbody).
    apply mbind_ok in Hbody. destruct Hbody as (issues & l5 & Hi & Hbody).
    apply mbind_ok in Hbody. destruct Hbody as (contributors & l6 & _ & Hbody).
    apply ret_ok in Hbody. destruct Hbody as [-> _].
    apply commits_length in Hc. apply pull_requests_length in Hp.
    apply issues_length in Hi.
    simpl in Hkey. destruct Hkey as [<-|[<-|[<-|[]]]]; simpl in Hv;
      injection Hv as <-; eauto.
  - apply mbind_ok in Hbody. destruct Hbody as (repo_data & l2 & _ & Hbody).
    apply mbind_ok in Hbody. destruct Hbody as (commits & l3 & Hc & Hbody).
    apply mbind_ok in Hbody. destruct Hbody as (prs & l4 & Hp & Hbody).
    apply mbind_ok in Hbody. destruct Hbody as (issues & l5 & Hi & Hbody).
    apply mbind_ok in Hbody. destruct Hbody as (contributors & l6 & _ & Hbody).
    apply ret_ok in Hbody. destruct Hbody as [-> _].
    apply commits_length in Hc. apply pull_requests_length in Hp.
    apply issues_length in Hi.
    simpl in Hkey. destruct Hkey as [<-|[<-|[<-|[]]]]; simpl in Hv;
      injection Hv as <-; eauto.
Qed.

(** C5. Whatever the provider answers, a list returned by
    [get_repository_commits], [get_repository_pull_requests] or
    [get_repository_issues] has at most ten elements, and so has each of
    the lists "commits", "pullRequests" and "issues" in a body returned
    by the two bundle endpoints. *)
Theorem returned_lists_hold_at_most_ten token provider organization repo_name log :
  (forall l log',
      get_repository_commits token provider organization repo_name log = (Ok l, log') ->
      (List.length l <= 10)%nat)
  /\ (forall l log',
      get_repository_pull_requests token provider organization repo_name log
        = (Ok l, log') ->
      (List.length l <= 10)%nat)
  /\ (forall l log',
      get_repository_issues token provider organization repo_name log = (Ok l, log') ->
      (List.length l <= 10)%nat)
  /\ (forall b log' key v,
      get_github_data token provider organization repo_name log = (b, log')
      \/ get_user_repository_detailed token provider organization repo_name log
         = (b, log') ->
      In key ["commits"; "pullRequests"; "issues"] ->
      Py.subscript b key = Ok v ->
      exists l, v = JList l /\ (List.length l <= 10)%nat).
Proof.
  repeat split.
  - intros l log'. apply commits_length.
  - intros l log'. apply pull_requests_length.
  - intros l log'. apply issues_length.
  - intros b log' key v. apply bundle_lists.
Qed.

Lemma returned_lists_hold_at_most_ten_witness :
  (exists l log',
      get_repository_issues Demo.token Demo.hello "octo" "hello" [] = (Ok l, log')
      /\ (List.length l <= 10)%nat)
  /\ (exists b log' v,
      get_github_data Demo.token Demo.hello "octo" "hello" [] = (b, log')
      /\ Py.subscript b "commits" = Ok v
      /\ exists l, v = JList l /\ (List.length l <= 10)%nat).
Proof.
  pose proof (@returned_lists_hold_at_most_ten
                Demo.token Demo.hello "octo" "hello" []) as (_ & _ & Hi & Hb).
  split.
  - eexists. eexists. split; [vm_compute; reflexivity|].
    eapply Hi. vm_compute. reflexivity.
  - eexists. eexists. eexists. split; [vm_compute; reflexivity|].
    split; [vm_compute; reflexivity|].
    eapply (Hb _ _ "commits");
      [left; vm_compute; reflexivity | simpl; auto | vm_compute; reflexivity].
Defined.

(* ================================================================= *)
(** ** Upstream failures *)

Lemma status_not_200 r : status_code r <> 200%Z -> (status_code r =? 200)%Z = false.
Proof. intros H. now apply Z.eqb_neq. Qed.

Lemma fetch_shape_falls_back {A} provider rq (on_200 : response -> result A) fallback
    (fetch : M A) :
  (forall log, fetch log = fetch_shape provider rq on_200 fallback log) ->
  falls_back provider fetch rq fallback /\ raises_transport_failure provider fetch rq.
Proof.
  intros Hshape. split.
  - intros log r Hr Hst. rewrite Hshape. unfold fetch_shape.
    now rewrite Hr, (status_not_200 _ Hst).
  - intros log msg Hr. rewrite Hshape. unfold fetch_shape. now rewrite Hr.
Qed.

Lemma commit_step_run token provider organization repo_name commit acc log :
  commit_step token provider organization repo_name commit acc log =
  match Py.subscript commit "sha" with
  | Raise e => (Raise e, log)
  | Ok sha =>
      let rq := commit_detail_request token organization repo_name sha in
      match provider log rq with
      | Failed msg => (Raise (TransportError msg), (log ++ [rq])%list)
      | Answered r =>
          (if (status_code r =? 200)%Z then
             detail <- response_json r ;;
             entry <- Translate.commit_summary repo_name commit detail ;;
             Ok (acc ++ [entry])%list
           else
             entry <- Translate.commit_summary_basic repo_name commit ;;
             Ok (acc ++ [entry])%list,
           (log ++ [rq])%list)
      end
  end.
Proof.
  unfold commit_step, commit_detail_request. rewrite lift_bind.
  destruct (Py.subscript commit "sha") as [sha|e]; [|reflexivity].
  unfold mbind at 1. rewrite client_get_run. cbv zeta.
  destruct (provider log _) as [r|msg]; [|reflexivity].
  destruct (status_code r =? 200)%Z.
  - rewrite lift_bind. destruct (response_json r) as [detail|]; [|reflexivity].
    rewrite lift_bind. simpl.
    destruct (Translate.commit_summary repo_name commit detail); reflexivity.
  - rewrite lift_bind.
    destruct (Translate.commit_summary_basic repo_name commit); reflexivity.
Qed.

Lemma get_repository_commits_falls_back token provider organization repo_name :
  falls_back provider (get_repository_commits token provider organization repo_name)
    (commits_request token organization repo_name) []
  /\ raises_transport_failure provider
       (get_repository_commits token provider organization repo_name)
       (commits_request token organization repo_name).
Proof.
  split.
  - intros log r Hr Hst. unfold get_repository_commits, mbind.
    rewrite client_get_run. unfold commits_request in Hr. rewrite Hr.
    now rewrite (status_not_200 _ Hst).
  - intros log msg Hr. unfold get_repository_commits, mbind.
    rewrite client_get_run. unfold commits_request in Hr. now rewrite Hr.
Qed.

Lemma fetch_list_run token provider u ps log :
  fetch_list token provider u ps log =
  match provider log (plain_request token u ps) with
  | Failed msg => (Ok (JList []), (log ++ [plain_request token u ps])%list)
  | Answered r =>
      (if (400 <=? status_code r)%Z && (status_code r <? 600)%Z then Ok (JList [])
       else match payload r with Some v => Ok v | None => Ok (JList []) end,
       (log ++ [plain_request token u ps])%list)
  end.
Proof.
  unfold fetch_list, try_except, mbind, http_get, plain_request.
  destruct (provider log _) as [r|msg]; [|reflexivity].
  unfold lift, raise_for_status, response_json.
  destruct ((400 <=? status_code r)%Z && (status_code r <? 600)%Z); [reflexivity|].
  destruct (payload r); reflexivity.
Qed.




(* ================================================================= *)
(** ** The repository bundle when the repository lookup fails *)

(** C8. When the provider answers the repository lookup with a status
    other than 200, [get_repository_data] returns the placeholder
    [{"name": repo_name, "description": "Repository not found"}] without
    raising, and both bundle endpoints go on: once the commit, pull
    request and issue lists are fetched, the bundle is returned with the
    placeholder as its "repository". *)
Theorem repository_placeholder_when_lookup_fails
    token provider organization repo_name log r :
  provider log (repository_request token organization repo_name) = Answered r ->
  status_code r <> 200%Z ->
  let sent := (log ++ [repository_request token organization repo_name])%list in
  get_repository_data token provider organization repo_name log
    = (Ok (repository_placeholder repo_name), sent)
  /\ (forall commits prs issues contributors log1 log2 log3,
       token_missing token = false ->
       get_repository_commits token provider organization repo_name sent
         = (Ok commits, log1) ->
       get_repository_pull_requests token provider organization repo_name log1
         = (Ok prs, log2) ->
       get_repository_issues token provider organization repo_name log2
         = (Ok issues, log3) ->
       active_contributors commits = Ok contributors ->
       get_user_repository_detailed token provider organization repo_name log
         = (JObj
              [ ("repository",
                  JObj [ ("name", JStr repo_name);
                         ("description", JStr "Repository not found") ]);
                ("commits", JList commits);
                ("pullRequests", JList prs);
                ("issues", JList issues);
                ("stats", JObj
                  [ ("totalCommits", count commits);
                    ("totalPRs", count prs);
                    ("totalIssues", count issues);
                    ("activeContributors", contributors) ]) ],
            log3)
       /\ forall org_data log0,
            get_organization_data token provider organization log0 = (Ok org_data, log) ->
            get_github_data token provider organization repo_name log0
              = (JObj
                   [ ("organization", org_data);
                     ("repository",
                       JObj [ ("name", JStr repo_name);
                              ("description", JStr "Repository not found") ]);
                     ("commits", JList commits);
                     ("pullRequests", JList prs);
                     ("issues", JList issues);
                     ("stats", JObj
                       [ ("totalCommits", count commits);
                         ("totalPRs", count prs);
                         ("totalIssues", count issues);
                         ("activeContributors", contributors);
                         ("repositoriesCount", JNum 1) ]) ],
                 log3))
  /\ (token_missing token = false ->
      (forall log' rq,
          exists r', provider log' rq = Answered r' /\ status_code r' <> 200%Z) ->
      fst (get_user_repository_detailed token provider organization repo_name log)
      = JObj
          [ ("repository",
              JObj [ ("name", JStr repo_name);
                     ("description", JStr "Repository not found") ]);
            ("commits", JList []);
            ("pullRequests", JList []);
            ("issues", JList []);
            ("stats", JObj
              [ ("totalCommits", JNum 0);
                ("totalPRs", JNum 0);
                ("totalIssues", JNum 0);
                ("activeContributors", JNum 0) ]) ]).
Proof.
  intros Hr Hst sent.
  assert (Hdata : get_repository_data token provider organization repo_name log
                  = (Ok (repository_placeholder repo_name), sent)).
  { rewrite get_repository_data_run. unfold fetch_shape.
    now rewrite Hr, (status_not_200 _ Hst). }
  assert (Hbundle : forall commits prs issues contributors log1 log2 log3,
             token_missing token = false ->
             get_repository_commits token provider organization repo_name sent
               = (Ok commits, log1) ->
             get_repository_pull_requests token provider organization repo_name log1
               = (Ok prs, log2) ->
             get_repository_issues token provider organization repo_name log2
               = (Ok issues, log3) ->
             active_contributors commits = Ok contributors ->
             get_user_repository_detailed token provider organization repo_name log
             = (JObj
                  [ ("repository", repository_placeholder repo_name);
                    ("commits", JList commits);
                    ("pullRequests", JList prs);
                    ("issues", JList issues);
                    ("stats", JObj
                      [ ("totalCommits", count commits);
                        ("totalPRs", count prs);
                        ("totalIssues", count issues);
                        ("activeContributors", contributors) ]) ],
                log3)).
  { intros commits prs issues contributors log1 log2 log3 Htok Hc Hp Hi Ha.
    unfold get_user_repository_detailed, endpoint. rewrite Htok.
    unfold mbind. rewrite Hdata, Hc, Hp, Hi. unfold lift. rewrite Ha. reflexivity. }
  split; [exact Hdata|]. split.
  - intros commits prs issues contributors log1 log2 log3 Htok Hc Hp Hi Ha. split.
    + now apply (Hbundle commits prs issues contributors log1 log2 log3).
    + intros org_data log0 Ho.
      unfold get_github_data, endpoint. rewrite Htok.
      unfold mbind. rewrite Ho, Hdata, Hc, Hp, Hi. unfold lift. rewrite Ha.
      reflexivity.
  - intros Htok Hall.
    assert (Hfc : falls_back provider
                    (get_repository_commits token provider organization repo_name)
                    (commits_request token organization repo_name) [])
      by apply get_repository_commits_falls_back.
    assert (Hfp : falls_back provider
                    (get_repository_pull_requests token provider organization repo_name)
                    (pulls_request token organization repo_name) [])
      by (eapply fetch_shape_falls_back, get_repository_pull_requests_run).
    assert (Hfi : falls_back provider
                    (get_repository_issues token provider organization repo_name)
                    (issues_request token organization repo_name) [])
      by (eapply fetch_shape_falls_back, get_repository_issues_run).
    destruct (Hall sent (commits_request token organization repo_name))
      as (rc & Hrc & Hstc).
    pose proof (Hfc _ _ Hrc Hstc) as Hc.
    set (log1 := (sent ++ [commits_request token organization repo_name])%list) in *.
    destruct (Hall log1 (pulls_request token organization repo_name))
      as (rp & Hrp & Hstp).
    pose proof (Hfp _ _ Hrp Hstp) as Hp.
    set (log2 := (log1 ++ [pulls_request token organization repo_name])%list) in *.
    destruct (Hall log2 (issues_request token organization repo_name))
      as (ri & Hri & Hsti).
    pose proof (Hfi _ _ Hri Hsti) as Hi.
    rewrite (Hbundle [] [] [] (JNum 0) _ _ _ Htok Hc Hp Hi eq_refl). reflexivity.
Qed.

Lemma repository_placeholder_when_lookup_fails_witness :
  Demo.hello_without_repository [] (repository_request Demo.token "octo" "hello")
    = Answered (Response 404 None)
  /\ exists commits prs issues contributors log3,
       List.length commits = 3%nat /\ List.length prs = 2%nat
       /\ List.length issues = 9%nat
       /\ get_user_repository_detailed Demo.token Demo.hello_without_repository
            "octo" "hello" []
          = (JObj
               [ ("repository",
                   JObj [ ("name", JStr "hello");
                          ("description", JStr "Repository not found") ]);
                 ("commits", JList commits);
                 ("pullRequests", JList prs);
                 ("issues", JList issues);
                 ("stats", JObj
                   [ ("totalCommits", count commits);
                     ("totalPRs", count prs);
                     ("totalIssues", count issues);
                     ("activeContributors", contributors) ]) ],
             log3).
Proof.
  split; [reflexivity|].
  pose proof (@repository_placeholder_when_lookup_fails
                Demo.token Demo.hello_without_repository "octo" "hello" []
                (Response 404 None) eq_refl) as H.
  assert (Hst : status_code (Response 404 None) <> 200%Z) by discriminate.
  destruct (H Hst) as (_ & Hbundle & _).
  do 5 eexists. split; [|split; [|split]].
  4: { eapply Hbundle; [reflexivity | vm_compute; reflexivity ..]. }
  all: reflexivity.
Defined.

(* ================================================================= *)
(** ** Repositories of a user *)

Lemma comprehension_if_ok cond elt xs l :
  Py.comprehension_if cond elt xs = Ok l ->
  Spec.summaries elt
    (filter (fun x => match cond x with Ok b => b | Raise _ => false end) xs) = Ok l.
Proof.
  revert l. induction xs as [|x xs IH]; intros l H; simpl in H.
  - exact H.
  - apply rbind_ok in H. destruct H as (c & Hc & H). simpl. rewrite Hc.
    destruct c.
    + apply rbind_ok in H. destruct H as (v & Hv & H).
      apply rbind_ok in H. destruct H as (vs & Hvs & H). injection H as <-.
      apply summaries_cons. exists v, vs. auto.
    + auto.
Qed.

Lemma owner_is_iff username repo :
  owner_is username repo = true <->
  Py.path repo ["owner"; "login"] = Ok (JStr username).
Proof.
  unfold owner_is, owned_by.
  destruct (Py.path repo ["owner"; "login"]) as [login|e]; simpl.
  - destruct login; simpl; try (split; [discriminate | intros [=]]).
    rewrite String.eqb_eq. split; [now intros -> | now intros [= ->]].
  - split; discriminate.
Qed.

Lemma user_repositories_returned token provider username log l log' :
  get_user_repositories token provider username log = (Ok l, log') ->
  Spec.summaries Translate.user_repository_summary
    (filter (owner_is username) (visible_repositories provider token log)) = Ok l.
Proof.
  rewrite get_user_repositories_run. intros H.
  apply fetch_shape_ok in H. destruct H as (r & Hr & _ & H).
  unfold visible_repositories. rewrite Hr.
  destruct (status_code r =? 200)%Z.
  - apply rbind_ok in H. destruct H as (body & -> & H).
    apply rbind_ok in H. destruct H as (items & Hi & H).
    simpl. rewrite Hi. now apply comprehension_if_ok in H.
  - now subst.
Qed.

(** C9. The list returned by [get_user_repositories] holds, in upstream
    order, the summaries of exactly those visible repositories whose
    owner login equals the requested username; in the detailed bundle
    "repositories" is that list and "total_repos" is its length. *)
Theorem user_repositories_filtered_by_owner token provider username :
  (forall log l log',
      get_user_repositories token provider username log = (Ok l, log') ->
      let kept :=
        filter (owner_is username) (visible_repositories provider token log) in
      Spec.summaries Translate.user_repository_summary kept = Ok l
      /\ List.length l = List.length kept
      /\ forall repo,
           In repo kept <->
           In repo (visible_repositories provider token log)
           /\ Py.path repo ["owner"; "login"] = Ok (JStr username))
  /\ (forall log b log' total,
      get_user_repositories_detailed token provider username log = (b, log') ->
      Py.subscript b "total_repos" = Ok total ->
      exists user log1 l,
        get_user_data token provider username log = (Ok user, log1)
        /\ get_user_repositories token provider username log1 = (Ok l, log')
        /\ Py.subscript b "repositories" = Ok (JList l)
        /\ total = JNum (Z.of_nat (List.length l))
        /\ List.length l =
           List.length
             (filter (owner_is username)
                (visible_repositories provider token log1))).
Proof.
  split.
  - intros log l log' H kept. apply user_repositories_returned in H.
    split; [exact H|]. split; [now apply summaries_length in H|].
    intros repo. unfold kept. rewrite filter_In, owner_is_iff. reflexivity.
  - intros log b log' total Hrun Htotal.
    apply endpoint_cases in Hrun.
    destruct Hrun as [(_ & -> & _) | (_ & [Hbody | (e & _ & ->)])];
      try discriminate.
    apply mbind_ok in Hbody. destruct Hbody as (user & log1 & Hu & Hbody).
    apply mbind_ok in Hbody. destruct Hbody as (l & log2 & Hl & Hbody).
    apply mbind_ok in Hbody. destruct Hbody as (private_repos & ? & Hx & Hbody).
    apply lift_ok in Hx. destruct Hx as [_ ->].
    apply mbind_ok in Hbody. destruct Hbody as (public_repos & ? & Hx & Hbody).
    apply lift_ok in Hx. destruct Hx as [_ ->].
    apply mbind_ok in Hbody. destruct Hbody as (langs & ? & Hx & Hbody).
    apply lift_ok in Hx. destruct Hx as [_ ->].
    apply mbind_ok in Hbody. destruct Hbody as (stars & ? & Hx & Hbody).
    apply lift_ok in Hx. destruct Hx as [_ ->].
    apply mbind_ok in Hbody. destruct Hbody as (forks & ? & Hx & Hbody).
    apply lift_ok in Hx. destruct Hx as [_ ->].
    apply ret_ok in Hbody. destruct Hbody as [-> ->].
    simpl in Htotal. injection Htotal as <-.
    exists user, log1, l. repeat split; auto.
    apply user_repositories_returned in Hl. now apply summaries_length in Hl.
Qed.

Lemma user_repositories_filtered_by_owner_witness :
  List.length (visible_repositories Demo.accounts Demo.token []) = 3%nat
  /\ (exists l log',
        get_user_repositories Demo.token Demo.accounts "alice" [] = (Ok l, log')
        /\ List.length l = 2%nat
        /\ Spec.summaries Translate.user_repository_summary
             (filter (owner_is "alice")
                (visible_repositories Demo.accounts Demo.token [])) = Ok l)
  /\ (exists b log',
        get_user_repositories_detailed Demo.token Demo.accounts "alice" [] = (b, log')
        /\ Py.subscript b "total_repos" = Ok (JNum 2)
        /\ exists user log1 l,
             get_user_data Demo.token Demo.accounts "alice" [] = (Ok user, log1)
             /\ get_user_repositories Demo.token Demo.accounts "alice" log1 = (Ok l, log')
             /\ Py.subscript b "repositories" = Ok (JList l)
             /\ JNum 2 = JNum (Z.of_nat (List.length l))
             /\ List.length l =
                List.length
                  (filter (owner_is "alice")
                     (visible_repositories Demo.accounts Demo.token log1))).
Proof.
  pose proof (@user_repositories_filtered_by_owner Demo.token Demo.accounts "alice")
    as [Hlist Htotal].
  split; [reflexivity|]. split.
  - eexists. eexists. split; [vm_compute; reflexivity|]. split; [reflexivity|].
    eapply Hlist. vm_compute. reflexivity.
  - eexists. eexists. split; [vm_compute; reflexivity|]. split; [reflexivity|].
    eapply Htotal; vm_compute; reflexivity.
Defined.

(* ================================================================= *)
(** ** Commits and their detail fetch *)

Lemma dict_field_eq entries s k r :
  Py.dict entries = Ok s -> entry k entries = Some r -> Py.subscript s k = r.
Proof.
  intros H Hk. destruct (@dict_field _ _ _ _ H Hk) as (v & -> & Hv). exact Hv.
Qed.

Lemma dict_ok_fields entries s :
  Py.dict entries = Ok s -> Forall (fun e => exists v, snd e = Ok v) entries.
Proof.
  unfold Py.dict. intros H. apply rbind_ok in H. destruct H as (kvs & H & _).
  revert kvs H. induction entries as [|[k r] rest IH]; intros kvs H; [constructor|].
  simpl in H. apply rbind_ok in H. destruct H as (v & Hr & H).
  apply rbind_ok in H. destruct H as (kvs' & Hrest & _).
  constructor; [exists v; exact Hr | eauto].
Qed.


Lemma commit_loop_origin token provider organization repo_name items acc log l log' :
  for_each_await items (commit_step token provider organization repo_name) acc log
    = (Ok l, log') ->
  exists news,
    l = (acc ++ news)%list
    /\ Forall2 (commit_origin token provider organization repo_name) items news.
Proof.
  revert acc log. induction items as [|commit items IH]; intros acc log H; simpl in H.
  - apply ret_ok in H. destruct H as [-> _]. exists []. now rewrite app_nil_r.
  - apply mbind_ok in H. destruct H as (acc' & log1 & Hs & H).
    apply IH in H. destruct H as (news & -> & Hnews).
    rewrite commit_step_run in Hs.
    destruct (Py.subscript commit "sha") as [sha|] eqn:Hsha; [|discriminate].
    cbv zeta in Hs.
    destruct (provider log _) as [r|] eqn:Hr; [|discriminate].
    assert (exists entry,
               acc' = (acc ++ [entry])%list
               /\ if (status_code r =? 200)%Z then
                    exists detail,
                      payload r = Some detail
                      /\ Translate.commit_summary repo_name commit detail = Ok entry
                  else Translate.commit_summary_basic repo_name commit = Ok entry)
      as (entry & -> & Hentry).
    { destruct (status_code r =? 200)%Z; injection Hs as Hs _.
      - apply rbind_ok in Hs. destruct Hs as (detail & Hd & Hs).
        apply rbind_ok in Hs. destruct Hs as (entry & He & Hs). injection Hs as <-.
        exists entry. split; [reflexivity|]. exists detail. split; [|exact He].
        unfold response_json in Hd. destruct (payload r); [congruence|discriminate].
      - apply rbind_ok in Hs. destruct Hs as (entry & He & Hs). injection Hs as <-.
        eauto. }
    exists (entry :: news). split; [now rewrite <- app_assoc|].
    constructor; [|exact Hnews]. exists sha, log, r. auto.
Qed.

Lemma commits_returned token provider organization repo_name log l log' :
  get_repository_commits token provider organization repo_name log = (Ok l, log') ->
  Forall2 (commit_origin token provider organization repo_name)
    (upstream_entries provider (commits_request token organization repo_name) log) l.
Proof.
  unfold get_repository_commits, upstream_entries, commits_request. intros H.
  unfold mbind at 1 in H. rewrite client_get_run in H.
  destruct (provider log _) as [r|]; [|discriminate].
  destruct (status_code r =? 200)%Z.
  - rewrite lift_bind in H. destruct (response_json r) as [body|]; [|discriminate].
    simpl. unfold Spec.window.
    rewrite lift_bind in H. destruct (Py.slice_to 10 body) as [w|]; [|discriminate].
    rewrite lift_bind in H. simpl. destruct (Py.iterate w) as [items|]; [|discriminate].
    apply commit_loop_origin in H. destruct H as (news & -> & H). exact H.
  - apply ret_ok in H. destruct H as [-> _]. constructor.
Qed.







(* ================================================================= *)
(** ** Translators and optional fields *)



(** Settles one field of a display after its object lost the keys [ks]:
    a key outside the optional ones is still there, an optional one is
    either still there or gives way to its default. *)
Ltac expose_lookups :=
  unfold Translate.names_of, Translate.number_str, Translate.author_avatar,
    Translate.milestone_title, Translate.reaction, Translate.sum_over_files,
    Translate.priority, Translate.any_label_has in *;
  cbn [Py.subscript Py.get Py.path rbind snd] in *.















Lemma dict_raises entries :
  Exists (fun e => exists x, snd e = Raise x) entries ->
  exists x, Py.dict entries = Raise x.
Proof.
  unfold Py.dict. intros H.
  assert (exists x, Py.dict_items entries = Raise x) as (x & ->).
  { induction H as [[k r] rest (x & Hx) | [k r] rest _ (x & IH)]; simpl.
    - simpl in Hx. rewrite Hx. simpl. eauto.
    - destruct r as [v|e]; simpl; [|eauto]. rewrite IH. simpl. eauto. }
  simpl. eauto.
Qed.

(** Finds, in a display, the field that raises once [key] is absent. *)
Ltac raise_in_display Hl :=
  apply dict_raises; expose_lookups; rewrite ?Hl;
  repeat first [ apply Exists_cons_hd; eexists; reflexivity | apply Exists_cons_tl ].

Ltac settle_required T :=
  let v := fresh "v" in
  let Hl := fresh "Hl" in
  intros v Hl; destruct v; try contradiction; cbn [lacks] in Hl;
  unfold T; raise_in_display Hl.

Lemma repository_summary_requires :
  Forall (requires Translate.repository_summary) repository_required.
Proof. repeat constructor; settle_required Translate.repository_summary. Qed.

Lemma commit_summary_requires repo_name detail :
  Forall (requires (fun commit => Translate.commit_summary repo_name commit detail))
    commit_required.
Proof. repeat constructor; settle_required Translate.commit_summary. Qed.

Lemma commit_summary_basic_requires repo_name :
  Forall (requires (Translate.commit_summary_basic repo_name)) commit_required.
Proof. repeat constructor; settle_required Translate.commit_summary_basic. Qed.

Lemma pull_request_summary_requires repo_name :
  Forall (requires (Translate.pull_request_summary repo_name)) pull_request_required.
Proof. repeat constructor; settle_required Translate.pull_request_summary. Qed.

Lemma user_summary_requires : Forall (requires Translate.user_summary) user_required.
Proof. repeat constructor; settle_required Translate.user_summary. Qed.

Lemma user_repository_summary_requires :
  Forall (requires Translate.user_repository_summary) user_repository_required.
Proof. repeat constructor; settle_required Translate.user_repository_summary. Qed.

Lemma issue_summary_requires repo_name :
  Forall (requires (Translate.issue_summary repo_name)) issue_required.
Proof.
  repeat constructor; intros v Hl; destruct v as [| | | | |kv]; try contradiction;
    cbn [lacks] in Hl; unfold Translate.issue_summary;
    destruct (Translate.priority (JObj kv)) as [p|e]; cbn [rbind]; eauto;
    unfold Translate.issue_entry; raise_in_display Hl.
Qed.



(* ================================================================= *)
(** ** Further properties: commits *)

Lemma take_is_prefix n s : exists rest, s = Str.take n s ++ rest.
Proof.
  revert n. induction s as [|c s IH]; intros n; [exists ""; reflexivity|].
  simpl. destruct (Str.is_continuation c).
  - destruct (IH n) as (rest & Hrest). exists rest. simpl. now rewrite <- Hrest.
  - destruct n as [|n]; [exists (String c s); reflexivity|].
    destruct (IH n) as (rest & Hrest). exists rest. simpl. now rewrite <- Hrest.
Qed.

Lemma take_length_exact n s :
  (n <= Str.length s)%nat -> Str.length (Str.take n s) = n.
Proof.
  revert n. induction s as [|c s IH]; intros n H; simpl in *; [lia|].
  destruct (Str.is_continuation c) eqn:Hc; simpl; rewrite ?Hc.
  - now apply IH.
  - destruct n as [|n]; [reflexivity|]. simpl. rewrite Hc. rewrite IH; lia.
Qed.

Lemma commit_summary_id repo_name commit entry :
  (Translate.commit_summary_basic repo_name commit = Ok entry
   \/ exists detail, Translate.commit_summary repo_name commit detail = Ok entry) ->
  exists sha,
    Py.subscript commit "sha" = Ok sha /\ Py.subscript entry "id" = Py.slice_to 7 sha.
Proof.
  intros [H | (detail & H)].
  - unfold Translate.commit_summary_basic in H.
    pose proof (@dict_field_eq _ _ "id" _ H eq_refl) as Hid.
    destruct (Py.subscript commit "sha") as [sha|e] eqn:Hsha.
    + exists sha. split; [reflexivity | exact Hid].
    + apply dict_ok_fields in H. inversion H as [|x xs (v & Hv) _]; subst.
      cbn [snd rbind] in Hv. discriminate.
  - unfold Translate.commit_summary in H.
    pose proof (@dict_field_eq _ _ "id" _ H eq_refl) as Hid.
    destruct (Py.subscript commit "sha") as [sha|e] eqn:Hsha.
    + exists sha. split; [reflexivity | exact Hid].
    + apply dict_ok_fields in H. inversion H as [|x xs (v & Hv) _]; subst.
      cbn [snd rbind] in Hv. discriminate.
Qed.

Lemma commit_origin_summary token provider organization repo_name commit entry :
  commit_origin token provider organization repo_name commit entry ->
  Translate.commit_summary_basic repo_name commit = Ok entry
  \/ exists detail, Translate.commit_summary repo_name commit detail = Ok entry.
Proof.
  intros (sha & log_i & r & _ & _ & H).
  destruct (status_code r =? 200)%Z; [right | left; exact H].
  destruct H as (detail & _ & H). eauto.
Qed.

(** X1. Every commit summary returned by [get_repository_commits] has as
    "id" the first seven characters of the upstream hash: a prefix of
    it, exactly seven characters long once the hash has seven or more,
    a character being a code point however many bytes it takes. *)
Theorem commit_id_is_seven_character_prefix
    token provider organization repo_name log l log' :
  get_repository_commits token provider organization repo_name log = (Ok l, log') ->
  Forall2
    (fun commit entry =>
       exists sha,
         Py.subscript commit "sha" = Ok sha
         /\ Py.subscript entry "id" = Py.slice_to 7 sha
         /\ forall s,
              sha = JStr s ->
              exists id rest,
                Py.subscript entry "id" = Ok (JStr id)
                /\ s = id ++ rest
                /\ ((7 <= Str.length s)%nat -> Str.length id = 7%nat))
    (upstream_entries provider (commits_request token organization repo_name) log) l.
Proof.
  intros H. apply commits_returned in H.
  eapply Forall2_impl; [|exact H]. intros commit entry Ho.
  apply commit_origin_summary in Ho. apply commit_summary_id in Ho.
  destruct Ho as (sha & Hsha & Hid). exists sha. repeat split; auto.
  intros s ->. destruct (take_is_prefix 7 s) as (rest & Hrest).
  exists (Str.take 7 s), rest. repeat split; auto.
  apply take_length_exact.
Qed.

Lemma commit_id_is_seven_character_prefix_witness :
  exists l log',
    get_repository_commits Demo.token Demo.hello "octo" "hello" [] = (Ok l, log')
    /\ map (field "id") l = [JStr "1111111"; JStr "2222222"; JStr "3333333"]
    /\ Py.slice_to 7 (JStr nine_accented)
       = Ok (JStr (e_acute ++ e_acute ++ e_acute ++ e_acute ++ e_acute ++ e_acute
                     ++ e_acute))
    /\ Py.slice_to 7 (JStr six_characters) = Ok (JStr six_characters)
    /\ Forall2
         (fun commit entry =>
            exists sha,
              Py.subscript commit "sha" = Ok sha
              /\ Py.subscript entry "id" = Py.slice_to 7 sha
              /\ forall s,
                   sha = JStr s ->
                   exists id rest,
                     Py.subscript entry "id" = Ok (JStr id)
                     /\ s = id ++ rest
                     /\ ((7 <= Str.length s)%nat -> Str.length id = 7%nat))
         (upstream_entries Demo.hello (commits_request Demo.token "octo" "hello") []) l.
Proof.
  eexists. eexists. split; [vm_compute; reflexivity|]. split; [reflexivity|].
  split; [reflexivity|]. split; [reflexivity|].
  eapply commit_id_is_seven_character_prefix
    with (token := Demo.token) (provider := Demo.hello) (log := []).
  vm_compute. reflexivity.
Defined.

Lemma commit_loop_requests token provider organization repo_name items acc log l log' :
  for_each_await items (commit_step token provider organization repo_name) acc log
    = (Ok l, log') ->
  exists shas,
    Forall2 (fun commit sha => Py.subscript commit "sha" = Ok sha) items shas
    /\ log' = (log ++ map (commit_detail_request token organization repo_name) shas)%list.
Proof.
  revert acc log. induction items as [|commit items IH]; intros acc log H; simpl in H.
  - apply ret_ok in H. destruct H as [_ ->]. exists []. split; [constructor|].
    now rewrite app_nil_r.
  - apply mbind_ok in H. destruct H as (acc' & log1 & Hs & H).
    apply IH in H. destruct H as (shas & Hshas & ->).
    rewrite commit_step_run in Hs.
    destruct (Py.subscript commit "sha") as [sha|] eqn:Hsha; [|discriminate].
    cbv zeta in Hs. destruct (provider log _) as [r|]; [|discriminate].
    injection Hs as _ <-.
    exists (sha :: shas). split; [constructor; auto|].
    simpl. now rewrite <- app_assoc.
Qed.

(** X2. A call of [get_repository_commits] that returns has sent the
    list request and then one detail request per commit of the window,
    in the order of the list and nothing else; it returns one summary
    per commit of the window, so never more than eleven requests for
    ten summaries. *)
Theorem commits_fetch_sends_one_detail_request_per_commit
    token provider organization repo_name log l log' :
  get_repository_commits token provider organization repo_name log = (Ok l, log') ->
  let commits :=
    upstream_entries provider (commits_request token organization repo_name) log in
  exists shas,
    Forall2 (fun commit sha => Py.subscript commit "sha" = Ok sha) commits shas
    /\ log' = (log ++ commits_request token organization repo_name
                   :: map (commit_detail_request token organization repo_name) shas)%list
    /\ List.length l = List.length commits
    /\ (List.length shas <= 10)%nat.
Proof.
  intros H commits.
  assert (Hlen : List.length l = List.length commits).
  { apply commits_returned in H. symmetry. eapply Forall2_length. exact H. }
  assert (Hten : (List.length commits <= 10)%nat) by apply upstream_entries_length.
  unfold get_repository_commits in H.
  unfold mbind at 1 in H. rewrite client_get_run in H.
  subst commits. unfold upstream_entries, commits_request in *.
  destruct (provider log _) as [r|]; [|discriminate].
  destruct (status_code r =? 200)%Z.
  - rewrite lift_bind in H. destruct (response_json r) as [body|]; [|discriminate].
    cbn [rbind] in *. unfold Spec.window in *.
    rewrite lift_bind in H. destruct (Py.slice_to 10 body) as [w|]; [|discriminate].
    rewrite lift_bind in H. cbn [rbind] in *.
    destruct (Py.iterate w) as [items|]; [|discriminate].
    apply commit_loop_requests in H. destruct H as (shas & Hshas & ->).
    exists shas. repeat split; auto.
    + now rewrite <- app_assoc.
    + rewrite <- (Forall2_length Hshas). exact Hten.
  - apply ret_ok in H. destruct H as [-> ->]. exists []. repeat split; auto.
Qed.

Lemma commits_fetch_sends_one_detail_request_per_commit_witness :
  exists l log',
    get_repository_commits Demo.token Demo.hello "octo" "hello" [] = (Ok l, log')
    /\ map req_url log'
       = [ "https://api.github.com/repos/octo/hello/commits";
           "https://api.github.com/repos/octo/hello/commits/1111111aaaa";
           "https://api.github.com/repos/octo/hello/commits/2222222bbbb";
           "https://api.github.com/repos/octo/hello/commits/3333333cccc" ]
    /\ exists shas,
         Forall2 (fun commit sha => Py.subscript commit "sha" = Ok sha)
           (upstream_entries Demo.hello (commits_request Demo.token "octo" "hello") [])
           shas
         /\ log' = ([] ++ commits_request Demo.token "octo" "hello"
                      :: map (commit_detail_request Demo.token "octo" "hello") shas)%list
         /\ List.length l
            = List.length
                (upstream_entries Demo.hello
                   (commits_request Demo.token "octo" "hello") [])
         /\ (List.length shas <= 10)%nat.
Proof.
  eexists. eexists. split; [vm_compute; reflexivity|]. split; [reflexivity|].
  eapply commits_fetch_sends_one_detail_request_per_commit
    with (token := Demo.token) (provider := Demo.hello) (log := []).
  vm_compute. reflexivity.
Defined.

(* ================================================================= *)
(** ** Further properties: pull requests and bundle statistics *)

Lemma pull_request_loop_exact repo_name items acc :
  Py.for_each items (pull_request_step repo_name) acc
  = (news <- Spec.summaries (Translate.pull_request_summary repo_name) items ;;
     Ok (acc ++ news)%list).
Proof.
  revert acc. induction items as [|pr items IH]; intros acc.
  - simpl. now rewrite app_nil_r.
  - unfold Spec.summaries in *. cbn [Py.for_each map Py.comprehension].
    unfold pull_request_step at 1.
    destruct (Translate.pull_request_summary repo_name pr) as [v|e]; [|reflexivity].
    cbn [rbind]. rewrite IH.
    destruct (Py.comprehension _) as [vs|e]; [|reflexivity].
    cbn [rbind]. now rewrite <- app_assoc.
Qed.

(** X3. When the pulls endpoint answers 200 with a JSON array,
    [get_repository_pull_requests] sends that one request and returns
    the summaries of the first ten entries, in order, or raises what the
    first entry among them without a summary raises: it returns no
    partial list and never reads an entry past the tenth. *)
Theorem pull_requests_are_summaries_of_first_ten
    token provider organization repo_name log r prs :
  provider log (pulls_request token organization repo_name) = Answered r ->
  status_code r = 200%Z ->
  payload r = Some (JList prs) ->
  get_repository_pull_requests token provider organization repo_name log
  = (Spec.summaries (Translate.pull_request_summary repo_name) (firstn 10 prs),
     (log ++ [pulls_request token organization repo_name])%list).
Proof.
  intros Hr Hst Hp. rewrite get_repository_pull_requests_run.
  unfold fetch_shape. rewrite Hr, Hst. unfold response_json. rewrite Hp.
  cbn [rbind Z.eqb Pos.eqb]. f_equal.
  change (Spec.window (JList prs)) with (Ok (A := list json) (firstn 10 prs)).
  cbn [rbind]. rewrite pull_request_loop_exact.
  destruct (Spec.summaries _ _); reflexivity.
Qed.

Lemma pull_requests_are_summaries_of_first_ten_witness :
  exists l,
    Spec.summaries (Translate.pull_request_summary "hello")
      (firstn 10 [Demo.pull_request 20; Demo.pull_request 21]) = Ok l
    /\ List.length l = 2%nat
    /\ get_repository_pull_requests Demo.token Demo.hello "octo" "hello" []
       = (Spec.summaries (Translate.pull_request_summary "hello")
            (firstn 10 [Demo.pull_request 20; Demo.pull_request 21]),
          ([] ++ [pulls_request Demo.token "octo" "hello"])%list).
Proof.
  eexists. split; [vm_compute; reflexivity|]. split; [reflexivity|].
  apply (@pull_requests_are_summaries_of_first_ten
           Demo.token Demo.hello "octo" "hello" []
           (Demo.ok (JList [Demo.pull_request 20; Demo.pull_request 21]))
           [Demo.pull_request 20; Demo.pull_request 21]);
    reflexivity.
Defined.

Lemma set_from_length seen xs out :
  Py.set_from seen xs = Ok out ->
  (List.length seen <= List.length out <= List.length seen + List.length xs)%nat.
Proof.
  revert seen. induction xs as [|x xs IH]; intros seen H; simpl in H.
  - injection H as <-. simpl. lia.
  - destruct (Py.hashable x); [|discriminate].
    destruct (existsb (Py.eq_scalar x) seen); apply IH in H; simpl.
    + lia.
    + rewrite length_app in H. simpl in H. lia.
Qed.

Lemma set_nonempty x xs out : Py.set (x :: xs) = Ok out -> (1 <= List.length out)%nat.
Proof.
  unfold Py.set. simpl. destruct (Py.hashable x); [|discriminate].
  intros H. apply set_from_length in H. simpl in H. lia.
Qed.

Lemma active_contributors_bounds commits_data contributors :
  active_contributors commits_data = Ok contributors ->
  exists n,
    contributors = JNum (Z.of_nat n)
    /\ (n <= List.length commits_data)%nat
    /\ (commits_data <> [] -> (1 <= n)%nat).
Proof.
  unfold active_contributors, count. intros H.
  apply rbind_ok in H. destruct H as (authors & Ha & H).
  apply rbind_ok in H. destruct H as (distinct & Hd & H). injection H as <-.
  assert (Hlen : List.length authors = List.length commits_data).
  { change (Spec.summaries (fun commit => Py.subscript commit "author") commits_data
            = Ok authors) in Ha.
    now apply summaries_length in Ha. }
  exists (List.length distinct). split; [reflexivity|]. split.
  - unfold Py.set in Hd. apply set_from_length in Hd. simpl in Hd. lia.
  - intros Hne. destruct authors as [|a authors].
    + destruct commits_data; [congruence | discriminate].
    + now apply set_nonempty in Hd.
Qed.

Lemma bundle_with_stats token provider organization repo_name log b log' stats :
  get_github_data token provider organization repo_name log = (b, log')
  \/ get_user_repository_detailed token provider organization repo_name log = (b, log') ->
  Py.subscript b "stats" = Ok stats ->
  exists commits prs issues contributors,
    Py.subscript b "commits" = Ok (JList commits)
    /\ Py.subscript b "pullRequests" = Ok (JList prs)
    /\ Py.subscript b "issues" = Ok (JList issues)
    /\ active_contributors commits = Ok contributors
    /\ Py.subscript stats "totalCommits" = Ok (count commits)
    /\ Py.subscript stats "totalPRs" = Ok (count prs)
    /\ Py.subscript stats "totalIssues" = Ok (count issues)
    /\ Py.subscript stats "activeContributors" = Ok contributors.
Proof.
  intros Hrun Hstats.
  destruct Hrun as [Hrun|Hrun];
    apply endpoint_cases in Hrun;
    destruct Hrun as [(_ & -> & _) | (_ & [Hbody | (e & _ & ->)])];
    try discriminate.
  - apply mbind_ok in Hbody. destruct Hbody as (org_data & l1 & _ & Hbody).
    apply mbind_ok in Hbody. destruct Hbody as (repo_data & l2 & _ & Hbody).
    apply mbind_ok in Hbody. destruct Hbody as (commits & l3 & _ & Hbody).
    apply mbind_ok in Hbody. destruct Hbody as (prs & l4 & _ & Hbody).
    apply mbind_ok in Hbody. destruct Hbody as (issues & l5 & _ & Hbody).
    apply mbind_ok in Hbody. destruct Hbody as (contributors & l6 & Hc & Hbody).
    apply lift_ok in Hc. destruct Hc as [Hc _].
    apply ret_ok in Hbody. destruct Hbody as [-> _].
    simpl in Hstats. injection Hstats as <-.
    exists commits, prs, issues, contributors. repeat split; auto.
  - apply mbind_ok in Hbody. destruct Hbody as (repo_data & l2 & _ & Hbody).
    apply mbind_ok in Hbody. destruct Hbody as (commits & l3 & _ & Hbody).
    apply mbind_ok in Hbody. destruct Hbody as (prs & l4 & _ & Hbody).
    apply mbind_ok in Hbody. destruct Hbody as (issues & l5 & _ & Hbody).
    apply mbind_ok in Hbody. destruct Hbody as (contributors & l6 & Hc & Hbody).
    apply lift_ok in Hc. destruct Hc as [Hc _].
    apply ret_ok in Hbody. destruct Hbody as [-> _].
    simpl in Hstats. injection Hstats as <-.
    exists commits, prs, issues, contributors. repeat split; auto.
Qed.

(** X4. In a bundle returned by either bundle endpoint the statistics
    agree with the lists of the same body: the three totals are the
    lengths of "commits", "pullRequests" and "issues", and
    "activeContributors" is a number between 0 and the number of
    commits, at least 1 when there is a commit. *)
Theorem bundle_stats_agree_with_lists
    token provider organization repo_name log b log' stats :
  get_github_data token provider organization repo_name log = (b, log')
  \/ get_user_repository_detailed token provider organization repo_name log = (b, log') ->
  Py.subscript b "stats" = Ok stats ->
  exists commits prs issues n,
    Py.subscript b "commits" = Ok (JList commits)
    /\ Py.subscript b "pullRequests" = Ok (JList prs)
    /\ Py.subscript b "issues" = Ok (JList issues)
    /\ Py.subscript stats "totalCommits" = Ok (JNum (Z.of_nat (List.length commits)))
    /\ Py.subscript stats "totalPRs" = Ok (JNum (Z.of_nat (List.length prs)))
    /\ Py.subscript stats "totalIssues" = Ok (JNum (Z.of_nat (List.length issues)))
    /\ Py.subscript stats "activeContributors" = Ok (JNum (Z.of_nat n))
    /\ (n <= List.length commits)%nat
    /\ (commits <> [] -> (1 <= n)%nat).
Proof.
  intros Hrun Hstats.
  destruct (bundle_with_stats _ _ _ _ _ Hrun Hstats)
    as (commits & prs & issues & contributors & Hc & Hp & Hi & Ha & H1 & H2 & H3 & H4).
  destruct (active_contributors_bounds _ Ha) as (n & -> & Hle & Hge).
  exists commits, prs, issues, n. repeat split; auto.
Qed.

Lemma bundle_stats_agree_with_lists_witness :
  exists b log' stats,
    get_github_data Demo.token Demo.hello "octo" "hello" [] = (b, log')
    /\ Py.subscript b "stats" = Ok stats
    /\ Py.subscript stats "activeContributors" = Ok (JNum 2)
    /\ exists commits prs issues n,
         Py.subscript b "commits" = Ok (JList commits)
         /\ Py.subscript b "pullRequests" = Ok (JList prs)
         /\ Py.subscript b "issues" = Ok (JList issues)
         /\ Py.subscript stats "totalCommits"
            = Ok (JNum (Z.of_nat (List.length commits)))
         /\ Py.subscript stats "totalPRs" = Ok (JNum (Z.of_nat (List.length prs)))
         /\ Py.subscript stats "totalIssues"
            = Ok (JNum (Z.of_nat (List.length issues)))
         /\ Py.subscript stats "activeContributors" = Ok (JNum (Z.of_nat n))
         /\ (n <= List.length commits)%nat
         /\ (commits <> [] -> (1 <= n)%nat).
Proof.
  eexists. eexists. eexists. split; [vm_compute; reflexivity|].
  split; [vm_compute; reflexivity|]. split; [reflexivity|].
  eapply bundle_stats_agree_with_lists
    with (token := Demo.token) (provider := Demo.hello) (log := [])
         (organization := "octo") (repo_name := "hello");
    [left; vm_compute; reflexivity | vm_compute; reflexivity].
Defined.

Lemma seen_string x seen :
  existsb (Py.eq_scalar (JStr x)) (map JStr seen) = true <-> In x seen.
Proof.
  rewrite existsb_exists. split.
  - intros (v & Hin & Heq). apply in_map_iff in Hin. destruct Hin as (s & <- & Hs).
    simpl in Heq. apply String.eqb_eq in Heq. now subst.
  - intros Hin. exists (JStr x). split; [now apply in_map|].
    simpl. apply String.eqb_refl.
Qed.

Lemma set_from_strings names seen :
  NoDup seen ->
  exists out,
    Py.set_from (map JStr seen) (map JStr names) = Ok (map JStr out)
    /\ NoDup out
    /\ forall a, In a out <-> In a seen \/ In a names.
Proof.
  revert seen. induction names as [|x names IH]; intros seen Hnd.
  - exists seen. simpl. repeat split; auto. tauto.
  - cbn [map Py.set_from Py.hashable].
    destruct (existsb (Py.eq_scalar (JStr x)) (map JStr seen)) eqn:Hx.
    + apply seen_string in Hx.
      destruct (IH seen Hnd) as (out & Hout & Hnd' & Hmem).
      exists out. repeat split; auto.
      * intros Ha. apply Hmem in Ha. simpl. tauto.
      * intros [Ha | [<- | Ha]]; apply Hmem; auto.
    + assert (Hnot : ~ In x seen).
      { intros Hin. apply seen_string in Hin. congruence. }
      assert (Hnd1 : NoDup (seen ++ [x])).
      { apply NoDup_app; auto.
        - constructor; [intros [] | constructor].
        - intros a Ha [<- | []]. contradiction. }
      destruct (IH (seen ++ [x])%list Hnd1) as (out & Hout & Hnd' & Hmem).
      exists out. rewrite map_app in Hout. repeat split; auto.
      * intros Ha. apply Hmem in Ha. rewrite in_app_iff in Ha. simpl in *. tauto.
      * intros Ha. apply Hmem. rewrite in_app_iff. simpl in *. tauto.
Qed.

Lemma set_from_unhashable xs seen :
  Exists (fun a => Py.hashable a = false) xs -> exists e, Py.set_from seen xs = Raise e.
Proof.
  intros H. revert seen. induction H as [x xs Hx | x xs _ IH]; intros seen; simpl.
  - rewrite Hx. eauto.
  - destruct (Py.hashable x); [|eauto].
    destruct (existsb (Py.eq_scalar x) seen); apply IH.
Qed.

Lemma comprehension_of_values (f : json -> result json) xs vs :
  Forall2 (fun x v => f x = Ok v) xs vs -> Py.comprehension (map f xs) = Ok vs.
Proof.
  induction 1 as [|x v xs vs Hx _ IH]; simpl; [reflexivity|].
  now rewrite Hx, IH.
Qed.

(** X5. The statistic [len(set(authors))] counts every author once:
    when the authors of the commit summaries are strings it is the
    length of a duplicate-free list with exactly those authors as
    members. An author that is a JSON array or object cannot enter the
    set, and the computation raises instead. *)
Theorem active_contributors_counts_distinct_authors commits_data :
  (forall names,
      Forall2 (fun commit name => Py.subscript commit "author" = Ok (JStr name))
        commits_data names ->
      exists distinct,
        NoDup distinct
        /\ (forall a, In a distinct <-> In a names)
        /\ active_contributors commits_data
           = Ok (JNum (Z.of_nat (List.length distinct))))
  /\ (forall authors,
        Forall2 (fun commit author => Py.subscript commit "author" = Ok author)
          commits_data authors ->
        Exists (fun author => Py.hashable author = false) authors ->
        exists e, active_contributors commits_data = Raise e).
Proof.
  split.
  - intros names H.
    destruct (@set_from_strings names [] (NoDup_nil _)) as (distinct & Hset & Hnd & Hmem).
    exists distinct. split; [exact Hnd|]. split.
    + intros a. rewrite Hmem. simpl. tauto.
    + unfold active_contributors.
      assert (Hc : Py.comprehension
                     (map (fun commit => Py.subscript commit "author") commits_data)
                   = Ok (map JStr names)).
      { apply comprehension_of_values. clear Hset Hmem.
        induction H; simpl; constructor; auto. }
      rewrite Hc. cbn [rbind]. unfold Py.set. simpl in Hset. rewrite Hset.
      cbn [rbind]. unfold count. now rewrite length_map.
  - intros authors H Hex. unfold active_contributors.
    rewrite (comprehension_of_values _ H). cbn [rbind].
    destruct (set_from_unhashable [] Hex) as (e & He).
    unfold Py.set. rewrite He. eexists. reflexivity.
Qed.

Lemma active_contributors_counts_distinct_authors_witness :
  exists commits,
    fst (get_repository_commits Demo.token Demo.hello "octo" "hello" []) = Ok commits
    /\ Forall2 (fun commit name => Py.subscript commit "author" = Ok (JStr name))
         commits ["alice"; "bob"; "alice"]
    /\ exists distinct,
         NoDup distinct
         /\ (forall a, In a distinct <-> In a ["alice"; "bob"; "alice"])
         /\ active_contributors commits = Ok (JNum (Z.of_nat (List.length distinct))).
Proof.
  eexists. split; [vm_compute; reflexivity|].
  assert (H : Forall2
                (fun commit name => Py.subscript commit "author" = Ok (JStr name))
                (match fst (get_repository_commits Demo.token Demo.hello
                              "octo" "hello" []) with
                 | Ok l => l
                 | Raise _ => []
                 end)
                ["alice"; "bob"; "alice"]).
  { repeat constructor. }
  split; [exact H|].
  exact (proj1 (active_contributors_counts_distinct_authors _) _ H).
Defined.

(* ================================================================= *)
(** ** Further properties: what an endpoint sends upstream *)

Section Sending.

Variable token : option string.
Variable provider : upstream.

Lemma sends_weaken {A} n m (c : M A) :
  (n <= m)%nat -> sends_at_most token n c -> sends_at_most token m c.
Proof.
  intros Hle H log r log' Hrun. destruct (H _ _ _ Hrun) as (sent & -> & Hlen & Hwf).
  exists sent. repeat split; auto. lia.
Qed.

Lemma sends_ret {A} (a : A) : sends_at_most token 0 (ret a).
Proof.
  intros log r log' [= <- <-]. exists []. rewrite app_nil_r. repeat split; auto.
Qed.

Lemma sends_lift {A} (r : result A) : sends_at_most token 0 (lift r).
Proof.
  intros log r' log' [= <- <-]. exists []. rewrite app_nil_r. repeat split; auto.
Qed.

Lemma sends_bind {A B} n m (c : M A) (k : A -> M B) :
  sends_at_most token n c ->
  (forall a log log1, c log = (Ok a, log1) -> sends_at_most token m (k a)) ->
  sends_at_most token (n + m) (mbind c k).
Proof.
  intros Hc Hk log r log' Hrun. unfold mbind in Hrun.
  destruct (c log) as [[a|e] log1] eqn:Hcl.
  - destruct (Hc _ _ _ Hcl) as (s1 & -> & Hl1 & Hw1).
    destruct (Hk a _ _ Hcl _ _ _ Hrun) as (s2 & -> & Hl2 & Hw2).
    exists (s1 ++ s2)%list. rewrite app_assoc. repeat split; auto.
    + rewrite length_app. lia.
    + apply Forall_app. auto.
  - injection Hrun as <- <-.
    destruct (Hc _ _ _ Hcl) as (s1 & -> & Hl1 & Hw1).
    exists s1. repeat split; auto. lia.
Qed.

Lemma sends_client_get u :
  Str.is_prefix GITHUB_API_BASE u = true ->
  sends_at_most token 1 (client_get token provider u).
Proof.
  intros Hu log r log' Hrun. rewrite client_get_run in Hrun.
  exists [authorized token u].
  destruct (provider log _); injection Hrun as <- <-;
    repeat split; auto; repeat constructor; auto.
Qed.

Lemma sends_for_each {S} (body : json -> S -> M S) xs s :
  (forall x s', sends_at_most token 1 (body x s')) ->
  sends_at_most token (List.length xs) (for_each_await xs body s).
Proof.
  intros Hbody. revert s. induction xs as [|x xs IH]; intros s.
  - apply sends_ret.
  - simpl for_each_await. change (List.length (x :: xs)) with (1 + List.length xs)%nat.
    apply sends_bind; [apply Hbody | intros; apply IH].
Qed.

Lemma base_prefix rest : Str.is_prefix GITHUB_API_BASE (GITHUB_API_BASE ++ rest) = true.
Proof. reflexivity. Qed.

Lemma repository_prefix organization repo_name rest :
  Str.is_prefix GITHUB_API_BASE (repository_url organization repo_name ++ rest) = true.
Proof. reflexivity. Qed.

(** A fetch of the shape GET, then pure work: one request at most. *)
Lemma sends_one_then_pure {A} u (k : response -> M A) :
  Str.is_prefix GITHUB_API_BASE u = true ->
  (forall r, sends_at_most token 0 (k r)) ->
  sends_at_most token 1 (mbind (client_get token provider u) k).
Proof.
  intros Hu Hk. change 1%nat with (1 + 0)%nat.
  apply sends_bind; [now apply sends_client_get | intros; apply Hk].
Qed.

Ltac pure_steps :=
  repeat first
    [ apply sends_ret
    | apply sends_lift
    | match goal with
      | |- sends_at_most _ 0 (if ?c then _ else _) => destruct c
      | |- sends_at_most _ 0 (mbind _ _) =>
          change 0%nat with (0 + 0)%nat; apply sends_bind; [|intros]
      end ].

Lemma sends_get_organization_data organization :
  sends_at_most token 1 (get_organization_data token provider organization).
Proof.
  unfold get_organization_data.
  apply sends_one_then_pure; [apply base_prefix | intros r; pure_steps].
Qed.

Lemma sends_get_repository_data organization repo_name :
  sends_at_most token 1 (get_repository_data token provider organization repo_name).
Proof.
  unfold get_repository_data.
  apply sends_one_then_pure;
    [apply (repository_prefix organization repo_name "") | intros r; pure_steps].
Qed.

Lemma sends_get_user_data username :
  sends_at_most token 1 (get_user_data token provider username).
Proof.
  unfold get_user_data.
  apply sends_one_then_pure; [apply base_prefix | intros r; pure_steps].
Qed.

Lemma sends_get_user_repositories username :
  sends_at_most token 1 (get_user_repositories token provider username).
Proof.
  unfold get_user_repositories.
  apply sends_one_then_pure; [apply base_prefix | intros r; pure_steps].
Qed.

Lemma sends_get_repository_pull_requests organization repo_name :
  sends_at_most token 1
    (get_repository_pull_requests token provider organization repo_name).
Proof.
  unfold get_repository_pull_requests.
  apply sends_one_then_pure; [apply repository_prefix | intros r; pure_steps].
Qed.

Lemma sends_get_repository_issues organization repo_name :
  sends_at_most token 1 (get_repository_issues token provider organization repo_name).
Proof.
  unfold get_repository_issues.
  apply sends_one_then_pure; [apply repository_prefix | intros r; pure_steps].
Qed.

Lemma sends_commit_step organization repo_name commit acc :
  sends_at_most token 1 (commit_step token provider organization repo_name commit acc).
Proof.
  unfold commit_step. change 1%nat with (0 + 1)%nat.
  apply sends_bind; [apply sends_lift|]. intros sha _ _ _.
  apply sends_one_then_pure; [|intros r; pure_steps].
  unfold repository_url. reflexivity.
Qed.

Lemma sends_get_repository_commits organization repo_name :
  sends_at_most token 11 (get_repository_commits token provider organization repo_name).
Proof.
  unfold get_repository_commits. change 11%nat with (1 + 10)%nat.
  apply sends_bind; [apply sends_client_get, repository_prefix|].
  intros r _ _ _. destruct (status_code r =? 200)%Z.
  - apply sends_weaken with (n := (0 + (0 + (0 + 10)))%nat); [lia|].
    apply sends_bind; [apply sends_lift|]. intros commits _ _ _.
    apply sends_bind; [apply sends_lift|]. intros w log0 log1 Hw.
    apply sends_bind; [apply sends_lift|]. intros items log2 log3 Hi.
    apply lift_ok in Hw. destruct Hw as [Hw _].
    apply lift_ok in Hi. destruct Hi as [Hi _].
    assert (Hlen : (List.length items <= 10)%nat).
    { apply (@window_length commits). unfold Spec.window. now rewrite Hw. }
    apply sends_weaken with (n := List.length items); [exact Hlen|].
    apply sends_for_each. intros x s'. apply sends_commit_step.
  - apply sends_weaken with (n := 0%nat); [lia | apply sends_ret].
Qed.

Lemma endpoint_sends n (body : M json) :
  sends_at_most token n body ->
  endpoint_sends_at_most token n (endpoint token body).
Proof.
  intros Hbody log b log' Hrun. apply endpoint_cases in Hrun.
  destruct Hrun as [(_ & _ & ->) | (Htok & Hrun)].
  - exists []. rewrite app_nil_r.
    split; [reflexivity|]. split; [simpl; lia|]. split; [constructor|].
    intros H. now contradiction H.
  - assert (exists r, body log = (r, log')) as (r & Hr).
    { destruct Hrun as [H | (e & H & _)]; eauto. }
    destruct (Hbody _ _ _ Hr) as (sent & -> & Hlen & Hwf).
    exists sent. repeat split; auto. intros _.
    unfold token_missing in Htok. destruct token as [t|]; [|discriminate].
    exists t. split; [reflexivity|]. intros ->. discriminate.
Qed.

End Sending.

(** X6. Whatever the provider answers, and whether the endpoint ends
    with a bundle or an error body, it only appends to the request log:
    at most 15 requests for [get_github_data], 14 for
    [get_user_repository_detailed], 2 for the two user endpoints. Every
    request goes to [GITHUB_API_BASE], carries the Authorization header
    made of the configured token and nothing else, and a request is sent
    only when that token is set and not empty. *)
Theorem endpoints_send_bounded_authorized_requests token provider :
  (forall org repo,
      endpoint_sends_at_most token 15 (get_github_data token provider org repo))
  /\ (forall username repo_name,
        endpoint_sends_at_most token 14
          (get_user_repository_detailed token provider username repo_name))
  /\ (forall username,
        endpoint_sends_at_most token 2 (get_github_user token provider username))
  /\ (forall username,
        endpoint_sends_at_most token 2
          (get_user_repositories_detailed token provider username)).
Proof.
  split; [|split; [|split]].
  - intros org repo. unfold get_github_data. apply endpoint_sends.
    change 15%nat with (1 + (1 + (11 + (1 + (1 + (0 + 0))))))%nat.
    apply sends_bind; [apply sends_get_organization_data | intros].
    apply sends_bind; [apply sends_get_repository_data | intros].
    apply sends_bind; [apply sends_get_repository_commits | intros].
    apply sends_bind; [apply sends_get_repository_pull_requests | intros].
    apply sends_bind; [apply sends_get_repository_issues | intros].
    apply sends_bind; [apply sends_lift | intros]. apply sends_ret.
  - intros username repo_name. unfold get_user_repository_detailed.
    apply endpoint_sends.
    change 14%nat with (1 + (11 + (1 + (1 + (0 + 0)))))%nat.
    apply sends_bind; [apply sends_get_repository_data | intros].
    apply sends_bind; [apply sends_get_repository_commits | intros].
    apply sends_bind; [apply sends_get_repository_pull_requests | intros].
    apply sends_bind; [apply sends_get_repository_issues | intros].
    apply sends_bind; [apply sends_lift | intros]. apply sends_ret.
  - intros username. unfold get_github_user. apply endpoint_sends.
    change 2%nat with (1 + (1 + 0))%nat.
    apply sends_bind; [apply sends_get_user_data | intros].
    apply sends_bind; [apply sends_get_user_repositories | intros]. apply sends_ret.
  - intros username. unfold get_user_repositories_detailed. apply endpoint_sends.
    change 2%nat with (1 + (1 + (0 + (0 + (0 + (0 + (0 + 0)))))))%nat.
    apply sends_bind; [apply sends_get_user_data | intros].
    apply sends_bind; [apply sends_get_user_repositories | intros].
    repeat (apply sends_bind; [apply sends_lift | intros]). apply sends_ret.
Qed.

Lemma endpoints_send_bounded_authorized_requests_witness :
  exists b log',
    get_github_data Demo.token Demo.hello "octo" "hello" [] = (b, log')
    /\ List.length log' = 8%nat
    /\ exists sent,
         log' = ([] ++ sent)%list
         /\ (List.length sent <= 15)%nat
         /\ Forall (well_formed_request Demo.token) sent
         /\ (sent <> [] -> exists t, Demo.token = Some t /\ t <> "").
Proof.
  eexists. eexists. split; [vm_compute; reflexivity|]. split; [reflexivity|].
  eapply (proj1 (endpoints_send_bounded_authorized_requests Demo.token Demo.hello)
            "octo" "hello").
  vm_compute. reflexivity.
Defined.

(* ================================================================= *)
(** ** Further properties: the synchronous helpers *)

Lemma fetch_list_returns token provider u ps :
  returns_body_or_empty provider (fetch_list token provider u ps)
    (Request u (get_github_headers token) ps).
Proof.
  intros log. rewrite fetch_list_run. unfold plain_request, body_or_empty.
  destruct (provider log _) as [r|msg]; [|reflexivity].
  destruct ((400 <=? status_code r)%Z && (status_code r <? 600)%Z); [reflexivity|].
  destruct (payload r); reflexivity.
Qed.

(** X7. The four synchronous helpers never raise. Each sends exactly one
    request, always about the fixed organization "github", with the
    Accept and User-Agent headers and the Authorization header only when
    the token is set and not empty. Each returns the decoded body,
    whole, unless the status is 4xx or 5xx, the transport fails or the
    body is no JSON, in which cases it returns the empty list. *)
Theorem synchronous_helpers_return_body_or_empty token provider :
  returns_body_or_empty provider (fetch_organization_repos token provider)
    (Request "https://api.github.com/users/github/repos" (get_github_headers token) [])
  /\ (forall repo_name since_date,
        returns_body_or_empty provider
          (fetch_commits token provider repo_name since_date)
          (Request ("https://api.github.com/repos/github/" ++ repo_name ++ "/commits")
             (get_github_headers token)
             [("since", since_date); ("per_page", "100")]))
  /\ (forall repo_name,
        returns_body_or_empty provider (fetch_pull_requests token provider repo_name)
          (Request ("https://api.github.com/repos/github/" ++ repo_name ++ "/pulls")
             (get_github_headers token)
             [("state", "all"); ("per_page", "100")]))
  /\ (forall repo_name,
        returns_body_or_empty provider (fetch_issues token provider repo_name)
          (Request ("https://api.github.com/repos/github/" ++ repo_name ++ "/issues")
             (get_github_headers token)
             [("state", "all"); ("per_page", "100")]))
  /\ (token_missing token = true ->
      get_github_headers token
      = [ ("Accept", "application/vnd.github.v3+json"); ("User-Agent", "GitHub-API") ])
  /\ (forall t,
        token = Some t -> t <> "" ->
        get_github_headers token
        = [ ("Accept", "application/vnd.github.v3+json"); ("User-Agent", "GitHub-API");
            ("Authorization", "token " ++ t) ]).
Proof.
  split; [apply fetch_list_returns|].
  split; [intros; apply fetch_list_returns|].
  split; [intros; apply fetch_list_returns|].
  split; [intros; apply fetch_list_returns|].
  split.
  - intros H. unfold get_github_headers. now rewrite H.
  - intros t -> Ht. unfold get_github_headers, token_missing, token_header.
    destruct (String.eqb t "") eqn:E; [|reflexivity].
    apply String.eqb_eq in E. contradiction.
Qed.

Lemma synchronous_helpers_return_body_or_empty_witness :
  fetch_issues Demo.token Demo.unreachable "hello" []
  = (Ok (JList []),
     [ Request "https://api.github.com/repos/github/hello/issues"
         [ ("Accept", "application/vnd.github.v3+json"); ("User-Agent", "GitHub-API");
           ("Authorization", "token ghp_example") ]
         [("state", "all"); ("per_page", "100")] ])
  /\ get_github_headers None
     = [ ("Accept", "application/vnd.github.v3+json"); ("User-Agent", "GitHub-API") ].
Proof.
  pose proof (synchronous_helpers_return_body_or_empty Demo.token Demo.unreachable)
    as (_ & _ & _ & Hissues & _).
  pose proof (synchronous_helpers_return_body_or_empty None Demo.unreachable)
    as (_ & _ & _ & _ & Hnone & _).
  split; [exact (Hissues "hello" []) | exact (Hnone eq_refl)].
Defined.

(* ================================================================= *)
(** ** Further properties: the shape of the summaries *)

Lemma dict_keys entries s :
  Py.dict entries = Ok s -> keys_of s = map fst entries.
Proof.
  unfold Py.dict. intros H. apply rbind_ok in H. destruct H as (kvs & Hk & H).
  injection H as <-. simpl.
  revert kvs Hk. induction entries as [|[k r] rest IH]; intros kvs H; simpl in H.
  - now injection H as <-.
  - apply rbind_ok in H. destruct H as (v & _ & H).
    apply rbind_ok in H. destruct H as (kvs' & Hrest & H). injection H as <-.
    simpl. f_equal. eauto.
Qed.

Lemma commit_origin_keys token provider organization repo_name commit entry :
  commit_origin token provider organization repo_name commit entry ->
  keys_of entry = commit_keys.
Proof.
  intros H. apply commit_origin_summary in H.
  destruct H as [H | (detail & H)]; apply dict_keys in H; exact H.
Qed.

Lemma issue_summary_keys repo_name issue summary :
  Translate.issue_summary repo_name issue = Ok summary -> keys_of summary = issue_keys.
Proof.
  unfold Translate.issue_summary. intros H.
  apply rbind_ok in H. destruct H as (p & _ & H). apply dict_keys in H. exact H.
Qed.

(** X8. The summaries have a fixed shape. Every commit summary returned
    has the same twelve keys in the same order, whether its detail was
    fetched or not; every pull-request summary its twenty-one keys and
    every issue summary its eighteen. A repository or user lookup
    returns either the full summary (seven keys) or the two-key
    placeholder, which has none of the count fields. *)
Theorem summaries_have_fixed_keys token provider organization repo_name log :
  (forall l log',
      get_repository_commits token provider organization repo_name log = (Ok l, log') ->
      Forall (fun entry => keys_of entry = commit_keys) l)
  /\ (forall l log',
        get_repository_pull_requests token provider organization repo_name log
          = (Ok l, log') ->
        Forall (fun entry => keys_of entry = pull_request_keys) l)
  /\ (forall l log',
        get_repository_issues token provider organization repo_name log = (Ok l, log') ->
        Forall (fun entry => keys_of entry = issue_keys) l)
  /\ (forall v log',
        get_repository_data token provider organization repo_name log = (Ok v, log') ->
        keys_of v = repository_keys
        \/ v = JObj [ ("name", JStr repo_name);
                      ("description", JStr "Repository not found") ])
  /\ (forall username v log',
        get_user_data token provider username log = (Ok v, log') ->
        keys_of v = user_keys
        \/ v = JObj [ ("username", JStr username); ("name", JStr username) ]).
Proof.
  split; [|split; [|split; [|split]]].
  - intros l log' H. apply commits_returned in H. apply Forall2_targets in H.
    eapply Forall_impl; [|exact H]. intros entry (commit & _ & Ho).
    eapply commit_origin_keys; eauto.
  - intros l log' H. apply pull_requests_returned in H.
    apply summaries_sources in H. apply Forall2_targets in H.
    eapply Forall_impl; [|exact H]. intros entry (pr & _ & Hs).
    apply dict_keys in Hs. exact Hs.
  - intros l log' H. apply issues_returned in H.
    apply summaries_sources in H. apply Forall2_targets in H.
    eapply Forall_impl; [|exact H]. intros entry (issue & _ & Hs).
    eapply issue_summary_keys; eauto.
  - intros v log' H. rewrite get_repository_data_run in H.
    apply fetch_shape_ok in H. destruct H as (r & _ & _ & H).
    destruct (status_code r =? 200)%Z; [left | right; exact H].
    apply rbind_ok in H. destruct H as (repo & _ & H). apply dict_keys in H. exact H.
  - intros username v log' H. rewrite get_user_data_run in H.
    apply fetch_shape_ok in H. destruct H as (r & _ & _ & H).
    destruct (status_code r =? 200)%Z; [left | right; exact H].
    apply rbind_ok in H. destruct H as (user & _ & H). apply dict_keys in H. exact H.
Qed.

Lemma summaries_have_fixed_keys_witness :
  exists l log',
    get_repository_commits Demo.token Demo.hello "octo" "hello" [] = (Ok l, log')
    /\ List.length l = 3%nat
    /\ Forall (fun entry => keys_of entry = commit_keys) l.
Proof.
  eexists. eexists. split; [vm_compute; reflexivity|]. split; [reflexivity|].
  eapply (proj1 (summaries_have_fixed_keys Demo.token Demo.hello "octo" "hello" [])).
  vm_compute. reflexivity.
Defined.

(* ================================================================= *)
(** ** Further properties: fields copied from upstream *)

(** The summary field [out] against the upstream value under a path. *)
Ltac settle_copy He :=
  match goal with
  | |- Py.subscript ?s ?out = _ => rewrite (@dict_field_eq _ s out _ He eq_refl)
  end;
  clear He;
  match goal with
  | Hp : Py.path ?v _ = Ok _ |- _ =>
      destruct v; try discriminate Hp;
      first
        [ exact Hp
        | cbn [Py.subscript Py.get Py.path rbind] in *;
          repeat match goal with
            | |- context [lookup ?k ?kv] => destruct (lookup k kv); try discriminate Hp
            end;
          first [ exact Hp | congruence ] ]
  end.

Ltac settle_copies T :=
  repeat constructor; cbn [copies];
  let v := fresh "v" in
  let x := fresh "x" in
  let summary := fresh "summary" in
  let Hp := fresh "Hp" in
  let H := fresh "H" in
  intros v x summary Hp H; unfold T in H; settle_copy H.

Lemma repository_summary_copies :
  Forall (copies Translate.repository_summary) repository_renames.
Proof. settle_copies Translate.repository_summary. Qed.

Lemma user_summary_copies : Forall (copies Translate.user_summary) user_renames.
Proof. settle_copies Translate.user_summary. Qed.

Lemma user_repository_summary_copies :
  Forall (copies Translate.user_repository_summary) user_repository_renames.
Proof. settle_copies Translate.user_repository_summary. Qed.

Lemma pull_request_summary_copies repo_name :
  Forall (copies (Translate.pull_request_summary repo_name)) pull_request_renames.
Proof. settle_copies Translate.pull_request_summary. Qed.

Lemma commit_summary_basic_copies repo_name :
  Forall (copies (Translate.commit_summary_basic repo_name)) commit_renames.
Proof. settle_copies Translate.commit_summary_basic. Qed.

Lemma commit_summary_copies repo_name detail :
  Forall (copies (fun commit => Translate.commit_summary repo_name commit detail))
    commit_renames.
Proof. settle_copies Translate.commit_summary. Qed.

Lemma issue_summary_copies repo_name :
  Forall (copies (Translate.issue_summary repo_name)) issue_renames.
Proof.
  repeat constructor; cbn [copies]; intros v x summary Hp H;
    unfold Translate.issue_summary in H;
    apply rbind_ok in H; destruct H as (p & _ & H);
    unfold Translate.issue_entry in H; settle_copy H.
Qed.

(** X9. The translators rename, they do not rewrite: each listed summary
    field holds the upstream value found under the listed path,
    unchanged, whatever its type; so "status" is the upstream "state"
    whatever "merged" says, and a field that is present with the value
    null stays null instead of taking the default of an absent one. *)
Theorem translators_copy_renamed_fields repo_name :
  Forall (copies Translate.repository_summary) repository_renames
  /\ (forall detail,
        Forall (copies (fun commit => Translate.commit_summary repo_name commit detail))
          commit_renames)
  /\ Forall (copies (Translate.commit_summary_basic repo_name)) commit_renames
  /\ Forall (copies (Translate.pull_request_summary repo_name)) pull_request_renames
  /\ Forall (copies (Translate.issue_summary repo_name)) issue_renames
  /\ Forall (copies Translate.user_summary) user_renames
  /\ Forall (copies Translate.user_repository_summary) user_repository_renames.
Proof.
  split; [apply repository_summary_copies|].
  split; [intros detail; apply commit_summary_copies|].
  split; [apply commit_summary_basic_copies|].
  split; [apply pull_request_summary_copies|].
  split; [apply issue_summary_copies|].
  split; [apply user_summary_copies | apply user_repository_summary_copies].
Qed.

Lemma translators_copy_renamed_fields_witness :
  exists summary,
    Translate.repository_summary repository_with_nulls = Ok summary
    /\ Py.subscript summary "language" = Ok JNull
    /\ Py.subscript summary "stars" = Ok (JNum 5).
Proof.
  pose proof (translators_copy_renamed_fields "hello") as (Hrepo & _).
  unfold repository_renames in Hrepo.
  repeat match goal with
         | H : Forall _ (_ :: _) |- _ => inversion H; clear H; subst
         end.
  cbn [copies] in *.
  eexists. split; [vm_compute; reflexivity|]. split.
  - match goal with
    | H : forall v x s, Py.path v ["language"] = Ok x -> _ |- _ =>
        apply (H repository_with_nulls); reflexivity
    end.
  - match goal with
    | H : forall v x s, Py.path v ["stargazers_count"] = Ok x -> _ |- _ =>
        apply (H repository_with_nulls); reflexivity
    end.
Defined.

(* ================================================================= *)
(** ** Further properties: how the two bundle endpoints relate *)

(** X10. With the token set, [get_github_data] is the organization
    lookup followed by what [get_user_repository_detailed] does for the
    same owner and repository: the same requests, the same error body
    when that part fails, and otherwise the same bundle with the
    organization put in front and "repositoriesCount": 1 added to the
    statistics. *)
Theorem github_data_extends_repository_bundle
    token provider org repo log org_data log1 b log' :
  token_missing token = false ->
  get_organization_data token provider org log = (Ok org_data, log1) ->
  get_user_repository_detailed token provider org repo log1 = (b, log') ->
  get_github_data token provider org repo log = (with_organization org_data b, log').
Proof.
  intros Htok Horg.
  unfold get_user_repository_detailed, get_github_data, endpoint. rewrite Htok.
  unfold mbind at 1 6. rewrite Horg.
  unfold mbind.
  destruct (get_repository_data token provider org repo log1) as [[rd|e] l2];
    [|intros [= <- <-]; reflexivity].
  destruct (get_repository_commits token provider org repo l2) as [[cs|e] l3];
    [|intros [= <- <-]; reflexivity].
  destruct (get_repository_pull_requests token provider org repo l3) as [[ps|e] l4];
    [|intros [= <- <-]; reflexivity].
  destruct (get_repository_issues token provider org repo l4) as [[iss|e] l5];
    [|intros [= <- <-]; reflexivity].
  unfold lift, ret.
  destruct (active_contributors cs) as [n|e]; intros [= <- <-]; reflexivity.
Qed.

Lemma github_data_extends_repository_bundle_witness :
  exists org_data log1 b log',
    get_organization_data Demo.token Demo.hello "octo" [] = (Ok org_data, log1)
    /\ get_user_repository_detailed Demo.token Demo.hello "octo" "hello" log1 = (b, log')
    /\ keys_of b = ["repository"; "commits"; "pullRequests"; "issues"; "stats"]
    /\ get_github_data Demo.token Demo.hello "octo" "hello" []
       = (with_organization org_data b, log')
    /\ keys_of (with_organization org_data b)
       = ["organization"; "repository"; "commits"; "pullRequests"; "issues"; "stats"].
Proof.
  do 4 eexists. split; [vm_compute; reflexivity|].
  split; [vm_compute; reflexivity|]. split; [reflexivity|]. split; [|reflexivity].
  eapply (@github_data_extends_repository_bundle Demo.token Demo.hello "octo" "hello" []);
    [reflexivity | vm_compute; reflexivity | vm_compute; reflexivity].
Defined.

(* ================================================================= *)
(** ** Further properties: the rollups over a user's repositories *)

Lemma comprehension_if_identity cond xs kept :
  Py.comprehension_if cond (fun x => Ok x) xs = Ok kept ->
  kept = filter (fun x => match cond x with Ok b => b | Raise _ => false end) xs
  /\ Forall (fun x => exists b, cond x = Ok b) xs.
Proof.
  revert kept. induction xs as [|x xs IH]; intros kept H; simpl in H.
  - injection H as <-. split; [reflexivity | constructor].
  - apply rbind_ok in H. destruct H as (c & Hc & H). simpl. rewrite Hc.
    destruct c.
    + apply rbind_ok in H. destruct H as (vs & Hvs & H). injection H as <-.
      destruct (IH _ Hvs) as [-> Hall]. split; [reflexivity|]. constructor; eauto.
    + destruct (IH _ H) as [-> Hall]. split; [reflexivity|]. constructor; eauto.
Qed.

Lemma count_private_partition repos p q :
  count_private true repos = Ok p -> count_private false repos = Ok q ->
  (int_of p + int_of q = Z.of_nat (List.length repos))%Z.
Proof.
  unfold count_private, count. intros Hp Hq.
  apply rbind_ok in Hp. destruct Hp as (kp & Hkp & Hp). injection Hp as <-.
  apply rbind_ok in Hq. destruct Hq as (kq & Hkq & Hq). injection Hq as <-.
  apply comprehension_if_identity in Hkp. destruct Hkp as [-> Hall].
  apply comprehension_if_identity in Hkq. destruct Hkq as [-> _].
  cbn [int_of]. rewrite <- Nat2Z.inj_add. f_equal.
  induction Hall as [|x xs (b & Hb) _ IH]; [reflexivity|].
  apply rbind_ok in Hb. destruct Hb as (v & Hv & _).
  cbn [filter]. rewrite Hv. cbn [rbind].
  destruct (Py.truthy v); cbn [Bool.eqb List.length]; lia.
Qed.

Lemma sum_from_values vs acc n :
  Py.sum_from acc (map Ok vs) = Ok n ->
  n = (acc + fold_right (fun v t => int_of v + t) 0 vs)%Z.
Proof.
  revert acc. induction vs as [|v vs IH]; intros acc H; simpl in H.
  - injection H as <-. simpl. lia.
  - apply rbind_ok in H. destruct H as (acc' & Ha & H). apply IH in H. subst n.
    unfold Py.add in Ha.
    destruct v as [| [|] | m | s | l | kv]; try discriminate;
      injection Ha as <-; cbn [fold_right int_of]; lia.
Qed.

Lemma total_of_sum fld repos v :
  total_of fld repos = Ok v ->
  v = JNum (fold_right (fun repo t => int_of (field fld repo) + t) 0 repos)%Z.
Proof.
  unfold total_of, Py.sum. intros H.
  apply rbind_ok in H. destruct H as (vs & Hvs & H).
  apply rbind_ok in H. destruct H as (n & Hn & H). injection H as <-.
  apply sum_from_values in Hn. subst n. f_equal. rewrite Z.add_0_l.
  clear - Hvs. revert vs Hvs. induction repos as [|repo repos IH]; intros vs H.
  - now injection H as <-.
  - simpl in H. apply rbind_ok in H. destruct H as (x & Hx & H).
    apply rbind_ok in H. destruct H as (xs & Hxs & H). injection H as <-.
    simpl. unfold field at 1. rewrite Hx. f_equal. eauto.
Qed.

Lemma error_body_has_only_error msg key v :
  key <> "error" -> Py.subscript (error_body msg) key = Ok v -> False.
Proof.
  intros Hk. simpl. destruct (String.eqb key "error") eqn:E; [|discriminate].
  apply String.eqb_eq in E. contradiction.
Qed.

Lemma detailed_body token provider username log b log' key v :
  get_user_repositories_detailed token provider username log = (b, log') ->
  key <> "error" ->
  Py.subscript b key = Ok v ->
  exists user repos p q langs stars forks,
    b = JObj [ ("user", user); ("repositories", JList repos);
               ("total_repos", count repos); ("private_repos", p);
               ("public_repos", q); ("languages", langs);
               ("total_stars", stars); ("total_forks", forks) ]
    /\ count_private true repos = Ok p
    /\ count_private false repos = Ok q
    /\ languages repos = Ok langs
    /\ total_of "stargazers_count" repos = Ok stars
    /\ total_of "forks_count" repos = Ok forks.
Proof.
  intros Hrun Hkey Hv. apply endpoint_cases in Hrun.
  destruct Hrun as [(_ & -> & _) | (_ & [Hbody | (e & _ & ->)])];
    try (exfalso; eapply error_body_has_only_error; eassumption).
  apply mbind_ok in Hbody. destruct Hbody as (user & log1 & _ & Hbody).
  apply mbind_ok in Hbody. destruct Hbody as (repos & log2 & _ & Hbody).
  apply mbind_ok in Hbody. destruct Hbody as (p & ? & Hp & Hbody).
  apply lift_ok in Hp. destruct Hp as [Hp ->].
  apply mbind_ok in Hbody. destruct Hbody as (q & ? & Hq & Hbody).
  apply lift_ok in Hq. destruct Hq as [Hq ->].
  apply mbind_ok in Hbody. destruct Hbody as (langs & ? & Hl & Hbody).
  apply lift_ok in Hl. destruct Hl as [Hl ->].
  apply mbind_ok in Hbody. destruct Hbody as (stars & ? & Hs & Hbody).
  apply lift_ok in Hs. destruct Hs as [Hs ->].
  apply mbind_ok in Hbody. destruct Hbody as (forks & ? & Hf & Hbody).
  apply lift_ok in Hf. destruct Hf as [Hf ->].
  apply ret_ok in Hbody. destruct Hbody as [-> _].
  exists user, repos, p, q, langs, stars, forks. auto 10.
Qed.

(** X11. In a body returned by [get_user_repositories_detailed] the
    counts add up over the "repositories" list of the same body:
    "private_repos" plus "public_repos" is "total_repos", and
    "total_stars" and "total_forks" are the sums of "stargazers_count"
    and "forks_count" over that list, so repositories of other owners
    count for nothing. *)
Theorem repository_rollups_add_up token provider username log b log' total :
  get_user_repositories_detailed token provider username log = (b, log') ->
  Py.subscript b "total_repos" = Ok total ->
  exists repos,
    Py.subscript b "repositories" = Ok (JList repos)
    /\ total = JNum (Z.of_nat (List.length repos))
    /\ (int_of (field "private_repos" b) + int_of (field "public_repos" b)
        = Z.of_nat (List.length repos))%Z
    /\ field "total_stars" b
       = JNum (fold_right
                 (fun repo t => int_of (field "stargazers_count" repo) + t) 0 repos)%Z
    /\ field "total_forks" b
       = JNum (fold_right
                 (fun repo t => int_of (field "forks_count" repo) + t) 0 repos)%Z.
Proof.
  intros Hrun Htotal.
  assert (Hkey : "total_repos" <> "error") by discriminate.
  destruct (detailed_body _ _ _ _ Hrun Hkey Htotal)
    as (user & repos & p & q & langs & stars & forks & -> & Hp & Hq & _ & Hs & Hf).
  exists repos. simpl in Htotal. injection Htotal as <-.
  split; [reflexivity|]. split; [reflexivity|]. split.
  - cbn. now apply count_private_partition.
  - split; cbn; now apply total_of_sum.
Qed.

Lemma repository_rollups_add_up_witness :
  exists b log',
    get_user_repositories_detailed Demo.token Demo.accounts "alice" [] = (b, log')
    /\ field "private_repos" b = JNum 1
    /\ field "public_repos" b = JNum 1
    /\ field "total_stars" b = JNum 10
    /\ exists repos,
         Py.subscript b "repositories" = Ok (JList repos)
         /\ JNum 2 = JNum (Z.of_nat (List.length repos))
         /\ (int_of (field "private_repos" b) + int_of (field "public_repos" b)
             = Z.of_nat (List.length repos))%Z
         /\ field "total_stars" b
            = JNum (fold_right
                      (fun repo t => int_of (field "stargazers_count" repo) + t) 0
                      repos)%Z
         /\ field "total_forks" b
            = JNum (fold_right
                      (fun repo t => int_of (field "forks_count" repo) + t) 0 repos)%Z.
Proof.
  eexists. eexists. split; [vm_compute; reflexivity|].
  split; [reflexivity|]. split; [reflexivity|]. split; [reflexivity|].
  eapply repository_rollups_add_up
    with (token := Demo.token) (provider := Demo.accounts) (username := "alice")
         (log := []);
    vm_compute; reflexivity.
Defined.

Lemma eq_scalar_refl a : Py.hashable a = true -> Py.eq_scalar a a = true.
Proof.
  destruct a as [| b | n | s | l | kv]; simpl; intros H; try discriminate; auto.
  - now destruct b.
  - apply Z.eqb_refl.
  - apply String.eqb_refl.
Qed.

Lemma ordered_pairs_snoc {A} (R : A -> A -> Prop) l x :
  ForallOrdPairs R l -> Forall (fun a => R a x) l -> ForallOrdPairs R (l ++ [x]).
Proof.
  induction 1 as [|a l Ha _ IH]; intros Hx; simpl.
  - constructor; constructor.
  - inversion Hx; subst. constructor; [|auto].
    apply Forall_app. split; [exact Ha | constructor; auto].
Qed.

(** What [set] keeps: members of the input only, one for every input
    value, hashable and pairwise different. *)
Lemma set_from_members xs seen out :
  Py.set_from seen xs = Ok out ->
  Forall (fun a => Py.hashable a = true) seen ->
  ForallOrdPairs (fun a b => Py.eq_scalar b a = false) seen ->
  (forall a, In a out -> In a seen \/ In a xs)
  /\ (forall a, In a seen \/ In a xs -> exists b, In b out /\ Py.eq_scalar a b = true)
  /\ Forall (fun a => Py.hashable a = true) out
  /\ ForallOrdPairs (fun a b => Py.eq_scalar b a = false) out.
Proof.
  revert seen. induction xs as [|x xs IH]; intros seen H Hh Hd; simpl in H.
  - injection H as <-. repeat split; auto.
    intros a [Ha | []]. exists a. split; [exact Ha|].
    apply eq_scalar_refl. rewrite Forall_forall in Hh. auto.
  - destruct (Py.hashable x) eqn:Hx; [|discriminate].
    destruct (existsb (Py.eq_scalar x) seen) eqn:Hseen.
    + destruct (IH _ H Hh Hd) as (Hin & Hcov & Hh' & Hd').
      repeat split; auto.
      * intros a Ha. apply Hin in Ha. simpl. tauto.
      * intros a [Ha | [<- | Ha]]; auto.
        apply existsb_exists in Hseen. destruct Hseen as (s & Hs & Hxs).
        destruct (Hcov s (or_introl Hs)) as (b & Hb & Hsb).
        exists b. split; [exact Hb|].
        destruct x as [| bx | nx | sx | lx | kx]; try discriminate;
          destruct s as [| bs | ns | ss | ls | ks]; try discriminate;
          destruct b as [| bb | nb | sb | lb | kb]; try discriminate;
          simpl in *; auto.
        all: repeat match goal with
               | H : Bool.eqb _ _ = true |- _ => apply Bool.eqb_prop in H
               | H : (_ =? _)%Z = true |- _ => apply Z.eqb_eq in H
               | H : String.eqb _ _ = true |- _ => apply String.eqb_eq in H
               end; subst;
          repeat match goal with b : bool |- _ => destruct b end;
          try discriminate; try reflexivity;
          try apply Z.eqb_refl; try apply String.eqb_refl;
          try (apply Z.eqb_eq; congruence).
    + assert (Hnew : Forall (fun a => Py.eq_scalar x a = false) seen).
      { apply Forall_forall. intros s Hs.
        destruct (Py.eq_scalar x s) eqn:E; [|reflexivity].
        assert (existsb (Py.eq_scalar x) seen = true)
          by (apply existsb_exists; eauto).
        congruence. }
      assert (Hh1 : Forall (fun a => Py.hashable a = true) (seen ++ [x])).
      { apply Forall_app. split; [exact Hh | constructor; auto]. }
      assert (Hd1 : ForallOrdPairs (fun a b => Py.eq_scalar b a = false) (seen ++ [x])).
      { apply ordered_pairs_snoc; auto. }
      destruct (IH _ H Hh1 Hd1) as (Hin & Hcov & Hh' & Hd').
      repeat split; auto.
      * intros a Ha. apply Hin in Ha. rewrite in_app_iff in Ha. simpl in *. tauto.
      * intros a Ha. apply Hcov. rewrite in_app_iff. simpl in *. tauto.
Qed.

Lemma differing_values_nodup l :
  Forall (fun a => Py.hashable a = true) l ->
  ForallOrdPairs (fun a b => Py.eq_scalar b a = false) l ->
  NoDup l.
Proof.
  intros Hh Hd. induction Hd as [|a l Ha _ IH]; [constructor|].
  inversion Hh; subst. constructor; [|auto].
  intros Hin. rewrite Forall_forall in Ha. specialize (Ha _ Hin).
  rewrite eq_scalar_refl in Ha; [discriminate | assumption].
Qed.

(** X12. In a body returned by [get_user_repositories_detailed] the
    "languages" list has no duplicate and no "Unknown"; each member is
    the language of a listed repository, and each listed repository
    whose language is a string other than "Unknown" has it in the list.
    A repository whose language is null, which is not the string
    "Unknown", puts null in the list. *)
Theorem languages_are_distinct_and_known token provider username log b log' v :
  get_user_repositories_detailed token provider username log = (b, log') ->
  Py.subscript b "languages" = Ok v ->
  exists repos langs,
    Py.subscript b "repositories" = Ok (JList repos)
    /\ v = JList langs
    /\ NoDup langs
    /\ Forall (fun l => Py.eq_str l "Unknown" = false) langs
    /\ (forall l, In l langs ->
                  exists repo, In repo repos /\ Py.subscript repo "language" = Ok l)
    /\ (forall repo s,
          In repo repos -> Py.subscript repo "language" = Ok (JStr s) ->
          s <> "Unknown" -> In (JStr s) langs)
    /\ (forall repo,
          In repo repos -> Py.subscript repo "language" = Ok JNull -> In JNull langs).
Proof.
  intros Hrun Hv.
  assert (Hkey : "languages" <> "error") by discriminate.
  destruct (detailed_body _ _ _ _ Hrun Hkey Hv)
    as (user & repos & p & q & langs & stars & forks & -> & _ & _ & Hl & _).
  simpl in Hv. injection Hv as <-.
  unfold languages in Hl.
  apply rbind_ok in Hl. destruct Hl as (named & Hnamed & Hl).
  apply rbind_ok in Hl. destruct Hl as (distinct & Hset & Hl). injection Hl as <-.
  apply comprehension_if_ok in Hnamed. apply summaries_sources in Hnamed.
  unfold Py.set in Hset.
  destruct (@set_from_members named [] distinct Hset (Forall_nil _) (FOP_nil _))
    as (Hin & Hcov & Hh & Hd).
  set (keep := fun x : json =>
                 match l <- Py.subscript x "language" ;;
                       Ok (negb (Py.eq_str l "Unknown")) with
                 | Ok b => b
                 | Raise _ => false
                 end) in *.
  assert (Hsrc : forall l, In l named ->
                   exists repo, In repo repos
                                /\ Py.subscript repo "language" = Ok l
                                /\ Py.eq_str l "Unknown" = false).
  { intros l Hl. apply Forall2_targets in Hnamed. rewrite Forall_forall in Hnamed.
    destruct (Hnamed _ Hl) as (repo & Hrepo & Hlang).
    apply filter_In in Hrepo. destruct Hrepo as [Hrepo Hkeep].
    exists repo. split; [exact Hrepo|]. split; [exact Hlang|].
    unfold keep in Hkeep. rewrite Hlang in Hkeep. cbn [rbind] in Hkeep.
    now apply negb_true_iff in Hkeep. }
  assert (Hdst : forall repo l,
                   In repo repos -> Py.subscript repo "language" = Ok l ->
                   Py.eq_str l "Unknown" = false -> In l named).
  { intros repo l Hrepo Hlang Hun.
    assert (Hk : In repo (filter keep repos)).
    { apply filter_In. split; [exact Hrepo|]. unfold keep. rewrite Hlang.
      cbn [rbind]. now rewrite Hun. }
    clear - Hnamed Hk Hlang. induction Hnamed as [|x y xs ys Hxy _ IH].
    - destruct Hk.
    - destruct Hk as [<- | Hk]; [left; congruence | right; auto]. }
  exists repos, distinct. split; [reflexivity|]. split; [reflexivity|].
  split; [now apply differing_values_nodup|]. split.
  - apply Forall_forall. intros l Hl. destruct (Hin _ Hl) as [[] | Hl'].
    destruct (Hsrc _ Hl') as (_ & _ & _ & H). exact H.
  - split; [|split].
    + intros l Hl. destruct (Hin _ Hl) as [[] | Hl'].
      destruct (Hsrc _ Hl') as (repo & Hrepo & Hlang & _). eauto.
    + intros repo s Hrepo Hlang Hs.
      assert (Hun : Py.eq_str (JStr s) "Unknown" = false).
      { simpl. apply String.eqb_neq. exact Hs. }
      destruct (Hcov (JStr s) (or_intror (Hdst _ _ Hrepo Hlang Hun))) as (b & Hb & Hsb).
      destruct b; simpl in Hsb; try discriminate.
      apply String.eqb_eq in Hsb. now subst.
    + intros repo Hrepo Hlang.
      destruct (Hcov JNull (or_intror (Hdst _ _ Hrepo Hlang eq_refl))) as (b & Hb & Hsb).
      destruct b; simpl in Hsb; try discriminate. exact Hb.
Qed.

Lemma languages_are_distinct_and_known_witness :
  exists b log' v,
    get_user_repositories_detailed Demo.token Demo.accounts "alice" [] = (b, log')
    /\ Py.subscript b "languages" = Ok v
    /\ v = JList [JStr "Python"]
    /\ exists repos langs,
         Py.subscript b "repositories" = Ok (JList repos)
         /\ v = JList langs
         /\ NoDup langs
         /\ Forall (fun l => Py.eq_str l "Unknown" = false) langs
         /\ (forall l, In l langs ->
                       exists repo, In repo repos /\ Py.subscript repo "language" = Ok l)
         /\ (forall repo s,
               In repo repos -> Py.subscript repo "language" = Ok (JStr s) ->
               s <> "Unknown" -> In (JStr s) langs)
         /\ (forall repo,
               In repo repos -> Py.subscript repo "language" = Ok JNull ->
               In JNull langs).
Proof.
  eexists. eexists. eexists. split; [vm_compute; reflexivity|].
  split; [vm_compute; reflexivity|]. split; [reflexivity|].
  eapply languages_are_distinct_and_known
    with (token := Demo.token) (provider := Demo.accounts) (username := "alice")
         (log := []);
    vm_compute; reflexivity.
Defined.

(* ================================================================= *)
(** ** Further properties: issues, their labels and milestone *)

Lemma any_by_names kw items names b :
  Forall2 (fun item name => Py.subscript item "name" = Ok name) items names ->
  Py.any (map (Translate.label_has kw) items) = Ok b ->
  b = existsb (name_has kw) names.
Proof.
  intros H. revert b. induction H as [|item name items names Hn _ IH]; intros b Hb.
  - now injection Hb as <-.
  - simpl in Hb. apply rbind_ok in Hb. destruct Hb as (b0 & Hb0 & Hb).
    unfold Translate.label_has in Hb0. rewrite Hn in Hb0. cbn [rbind] in Hb0.
    apply rbind_ok in Hb0. destruct Hb0 as (s & Hs & Hb0). injection Hb0 as <-.
    destruct name; simpl in Hs; try discriminate. injection Hs as <-.
    cbn [existsb name_has].
    destruct (Str.contains kw (Str.lower s0)); [now injection Hb as <- | auto].
Qed.

Lemma comprehension_values (f : json -> result json) xs vs :
  Py.comprehension (map f xs) = Ok vs -> Forall2 (fun x v => f x = Ok v) xs vs.
Proof. apply summaries_sources. Qed.

Lemma issue_priority_from_names repo_name issue summary :
  Translate.issue_summary repo_name issue = Ok summary ->
  exists names,
    Py.subscript summary "labels" = Ok (JList names)
    /\ Py.subscript summary "priority" = Ok (JStr (priority_of_names names)).
Proof.
  intros H. destruct (issue_summary_priority _ _ H) as (p & Hp & Hfield).
  unfold Translate.issue_summary in H. apply rbind_ok in H.
  destruct H as (p' & Hp' & He). rewrite Hp in Hp'. injection Hp' as <-.
  unfold Translate.issue_entry in He.
  destruct (@dict_field _ _ "labels" _ He eq_refl) as (v & Hv & Hlabels).
  unfold Translate.names_of in Hv.
  apply rbind_ok in Hv. destruct Hv as (xs & Hxs & Hv).
  apply rbind_ok in Hv. destruct Hv as (items & Hitems & Hv).
  apply rbind_ok in Hv. destruct Hv as (names & Hnames & Hv). injection Hv as <-.
  apply comprehension_values in Hnames.
  exists names. split; [exact Hlabels|]. rewrite Hfield. do 2 f_equal.
  unfold Translate.priority, Translate.any_label_has in Hp.
  rewrite Hxs in Hp. cbn [rbind] in Hp. rewrite Hitems in Hp. cbn [rbind] in Hp.
  apply rbind_ok in Hp. destruct Hp as (high & Hhigh & Hp).
  apply (any_by_names _ Hnames) in Hhigh. unfold priority_of_names.
  rewrite <- Hhigh. destruct high; [now injection Hp as <-|].
  apply rbind_ok in Hp. destruct Hp as (low & Hlow & Hp).
  apply (any_by_names _ Hnames) in Hlow. rewrite <- Hlow.
  destruct low; now injection Hp as <-.
Qed.

(** X13. A returned issue summary is consistent with itself: its
    "priority" is what the precedence high, low, medium gives on the
    label names listed under its own "labels", so a reader of the
    summary can recompute it without the upstream issue. *)
Theorem issue_priority_matches_summary_labels
    token provider organization repo_name log l log' :
  get_repository_issues token provider organization repo_name log = (Ok l, log') ->
  Forall
    (fun summary =>
       exists names,
         Py.subscript summary "labels" = Ok (JList names)
         /\ Py.subscript summary "priority" = Ok (JStr (priority_of_names names)))
    l.
Proof.
  intros H. apply issues_returned in H. apply summaries_sources in H.
  apply Forall2_targets in H. eapply Forall_impl; [|exact H].
  intros summary (issue & _ & Hs). eapply issue_priority_from_names; eauto.
Qed.

Lemma issue_priority_matches_summary_labels_witness :
  exists l log',
    get_repository_issues Demo.token Demo.hello "octo" "hello" [] = (Ok l, log')
    /\ map (field "priority") (firstn 4 l)
       = [JStr "high"; JStr "low"; JStr "medium"; JStr "high"]
    /\ Forall
         (fun summary =>
            exists names,
              Py.subscript summary "labels" = Ok (JList names)
              /\ Py.subscript summary "priority"
                 = Ok (JStr (priority_of_names names)))
         l.
Proof.
  eexists. eexists. split; [vm_compute; reflexivity|]. split; [reflexivity|].
  eapply issue_priority_matches_summary_labels
    with (token := Demo.token) (provider := Demo.hello) (log := [])
         (organization := "octo") (repo_name := "hello").
  vm_compute. reflexivity.
Defined.

Lemma milestone_title_value kv v :
  Translate.milestone_title (JObj kv) = Ok v -> v = milestone_of (JObj kv).
Proof.
  unfold Translate.milestone_title, milestone_of.
  cbn [Py.get Py.subscript rbind].
  destruct (lookup "milestone" kv) as [m|]; cbn [rbind Py.truthy];
    [|now intros [= <-]].
  destruct m as [| [|] | n | s | l | [|[k x] m]]; cbn [Py.truthy rbind Py.get];
    try (now intros [= <-]); try discriminate.
  - destruct (negb (n =? 0)%Z); [discriminate | now intros [= <-]].
  - destruct (negb (String.eqb s "")); [discriminate | now intros [= <-]].
  - destruct l; [now intros [= <-] | discriminate].
  - destruct (lookup "title" ((k, x) :: m)); now intros [= <-].
Qed.

(** X14. The "milestone" of an issue summary is the title of the
    upstream milestone object, and null in every other case in which
    the issue has a summary: no milestone field, a null one, an empty
    object, or a milestone object without a title. *)
Theorem issue_milestone_is_title_or_null repo_name kv summary :
  Translate.issue_summary repo_name (JObj kv) = Ok summary ->
  Py.subscript summary "milestone" = Ok (milestone_of (JObj kv)).
Proof.
  unfold Translate.issue_summary. intros H.
  apply rbind_ok in H. destruct H as (p & _ & H).
  unfold Translate.issue_entry in H.
  destruct (@dict_field _ _ "milestone" _ H eq_refl) as (v & Hv & Hfield).
  rewrite Hfield. f_equal. now apply milestone_title_value.
Qed.

Lemma issue_milestone_is_title_or_null_witness :
  exists summary,
    Translate.issue_summary "hello" (JObj issue_with_milestone) = Ok summary
    /\ Py.subscript summary "milestone" = Ok (JStr "v1.0").
Proof.
  eexists. split; [vm_compute; reflexivity|].
  apply (@issue_milestone_is_title_or_null "hello" issue_with_milestone).
  vm_compute. reflexivity.
Defined.

Ltac settle_null T :=
  let kv := fresh "kv" in
  let Hl := fresh "Hl" in
  intros kv Hl; unfold T; raise_in_display Hl.

Lemma pull_request_rejects_null repo_name :
  Forall (rejects_null (Translate.pull_request_summary repo_name))
    [ "labels"; "assignees"; "requested_reviewers" ].
Proof. repeat constructor; settle_null Translate.pull_request_summary. Qed.

Lemma commit_detail_rejects_null repo_name commit :
  rejects_null (fun detail => Translate.commit_summary repo_name commit detail) "files".
Proof. settle_null Translate.commit_summary. Qed.

Lemma issue_rejects_null repo_name :
  Forall (rejects_null (Translate.issue_summary repo_name))
    [ "labels"; "assignees"; "reactions" ].
Proof.
  repeat constructor; intros kv Hl; unfold Translate.issue_summary;
    destruct (Translate.priority (JObj kv)) as [p|e]; cbn [rbind]; eauto;
    unfold Translate.issue_entry; raise_in_display Hl.
Qed.

(** X15. Null is not absence. A list field that is present with the
    value null ("labels", "assignees", "requested_reviewers", the
    "files" of a commit detail) or a null "reactions" makes the
    translator raise, where the same field left out would give the
    default; the whole list fetch fails with it. *)
Theorem null_list_fields_raise repo_name :
  Forall (rejects_null (Translate.pull_request_summary repo_name))
    [ "labels"; "assignees"; "requested_reviewers" ]
  /\ Forall (rejects_null (Translate.issue_summary repo_name))
       [ "labels"; "assignees"; "reactions" ]
  /\ (forall commit,
        rejects_null (fun detail => Translate.commit_summary repo_name commit detail)
          "files").
Proof.
  split; [apply pull_request_rejects_null|].
  split; [apply issue_rejects_null | intros commit; apply commit_detail_rejects_null].
Qed.

Lemma null_list_fields_raise_witness :
  exists e,
    Translate.issue_summary "hello" (JObj issue_with_null_reactions) = Raise e.
Proof.
  pose proof (null_list_fields_raise "hello") as (_ & Hissue & _).
  inversion Hissue as [|k1 ks1 _ H1]; subst.
  inversion H1 as [|k2 ks2 _ H2]; subst.
  inversion H2 as [|k3 ks3 Hreactions _]; subst.
  apply Hreactions. reflexivity.
Defined.

(* ================================================================= *)
(** ** Further properties: the two user endpoints, and the repository name *)

(** X16. The two user endpoints do the same upstream work. Where
    [get_github_user] answers with an error body,
    [get_user_repositories_detailed] answers with the same one; where it
    answers with a user and a repository list, the detailed endpoint has
    sent the same requests and returns either an error body raised by a
    rollup or a bundle with that user, that list and its length as
    "total_repos". *)
Theorem user_endpoints_agree token provider username log b log' :
  get_github_user token provider username log = (b, log') ->
  exists b',
    get_user_repositories_detailed token provider username log = (b', log')
    /\ ((exists msg, b = error_body msg) -> b' = b)
    /\ (forall user repos,
          b = JObj [ ("user", user); ("repositories", JList repos) ] ->
          (exists msg, b' = error_body msg)
          \/ (Py.subscript b' "user" = Ok user
              /\ Py.subscript b' "repositories" = Ok (JList repos)
              /\ Py.subscript b' "total_repos" = Ok (count repos))).
Proof.
  unfold get_github_user, get_user_repositories_detailed, endpoint.
  destruct (token_missing token).
  - intros [= <- <-]. eexists. split; [reflexivity|]. split; [reflexivity|].
    intros user repos Hb. discriminate.
  - unfold mbind.
    destruct (get_user_data token provider username log) as [[user|e] log1].
    2: { intros [= <- <-]. eexists. split; [reflexivity|]. split; [reflexivity|].
         intros user repos Hb. discriminate. }
    destruct (get_user_repositories token provider username log1) as [[repos|e] log2].
    2: { intros [= <- <-]. eexists. split; [reflexivity|]. split; [reflexivity|].
         intros user' repos Hb. discriminate. }
    unfold ret, lift. intros [= <- <-].
    destruct (count_private true repos) as [p|e];
      [|eexists; split; [reflexivity|]; split;
        [intros (msg & Hm); discriminate | intros; left; eauto]].
    destruct (count_private false repos) as [q|e];
      [|eexists; split; [reflexivity|]; split;
        [intros (msg & Hm); discriminate | intros; left; eauto]].
    destruct (languages repos) as [langs|e];
      [|eexists; split; [reflexivity|]; split;
        [intros (msg & Hm); discriminate | intros; left; eauto]].
    destruct (total_of "stargazers_count" repos) as [stars|e];
      [|eexists; split; [reflexivity|]; split;
        [intros (msg & Hm); discriminate | intros; left; eauto]].
    destruct (total_of "forks_count" repos) as [forks|e];
      [|eexists; split; [reflexivity|]; split;
        [intros (msg & Hm); discriminate | intros; left; eauto]].
    eexists. split; [reflexivity|]. split; [intros (msg & Hm); discriminate|].
    intros user' repos' [= <- <-]. right. repeat split.
Qed.

Lemma user_endpoints_agree_witness :
  exists b log' user repos,
    get_github_user Demo.token Demo.accounts "alice" [] = (b, log')
    /\ b = JObj [ ("user", user); ("repositories", JList repos) ]
    /\ List.length repos = 2%nat
    /\ exists b',
         get_user_repositories_detailed Demo.token Demo.accounts "alice" [] = (b', log')
         /\ Py.subscript b' "total_repos" = Ok (JNum 2).
Proof.
  do 4 eexists. split; [vm_compute; reflexivity|]. split; [reflexivity|].
  split; [reflexivity|].
  destruct (@user_endpoints_agree Demo.token Demo.accounts "alice" [] _ _ eq_refl)
    as (b' & Hrun & _ & _).
  exists b'. split; [exact Hrun|].
  vm_compute in Hrun. injection Hrun as <-. reflexivity.
Defined.

Lemma commit_origin_repository token provider organization repo_name commit entry :
  commit_origin token provider organization repo_name commit entry ->
  Py.subscript entry "repository" = Ok (JStr repo_name).
Proof.
  intros H. apply commit_origin_summary in H.
  destruct H as [H | (detail & H)];
    apply (@dict_field_eq _ _ "repository" _ H); reflexivity.
Qed.

(** X17. Every commit, pull-request and issue summary names under
    "repository" the repository the caller asked for: the name is the
    argument of the call, not a value read from the provider's reply. *)
Theorem summaries_name_requested_repository token provider organization repo_name log :
  (forall l log',
      get_repository_commits token provider organization repo_name log = (Ok l, log') ->
      Forall (fun entry => Py.subscript entry "repository" = Ok (JStr repo_name)) l)
  /\ (forall l log',
        get_repository_pull_requests token provider organization repo_name log
          = (Ok l, log') ->
        Forall (fun entry => Py.subscript entry "repository" = Ok (JStr repo_name)) l)
  /\ (forall l log',
        get_repository_issues token provider organization repo_name log = (Ok l, log') ->
        Forall (fun entry => Py.subscript entry "repository" = Ok (JStr repo_name)) l).
Proof.
  split; [|split].
  - intros l log' H. apply commits_returned in H. apply Forall2_targets in H.
    eapply Forall_impl; [|exact H]. intros entry (commit & _ & Ho).
    eapply commit_origin_repository; eauto.
  - intros l log' H. apply pull_requests_returned in H.
    apply summaries_sources in H. apply Forall2_targets in H.
    eapply Forall_impl; [|exact H]. intros entry (pr & _ & Hs).
    apply (@dict_field_eq _ _ "repository" _ Hs); reflexivity.
  - intros l log' H. apply issues_returned in H.
    apply summaries_sources in H. apply Forall2_targets in H.
    eapply Forall_impl; [|exact H]. intros entry (issue & _ & Hs).
    unfold Translate.issue_summary in Hs. apply rbind_ok in Hs.
    destruct Hs as (p & _ & Hs).
    apply (@dict_field_eq _ _ "repository" _ Hs); reflexivity.
Qed.

Lemma summaries_name_requested_repository_witness :
  exists l log',
    get_repository_pull_requests Demo.token Demo.hello "octo" "hello" [] = (Ok l, log')
    /\ List.length l = 2%nat
    /\ Forall (fun entry => Py.subscript entry "repository" = Ok (JStr "hello")) l.
Proof.
  eexists. eexists. split; [vm_compute; reflexivity|]. split; [reflexivity|].
  eapply (proj1 (proj2 (summaries_name_requested_repository
                          Demo.token Demo.hello "octo" "hello" []))).
  vm_compute. reflexivity.
Defined.

(* ================================================================= *)
(** ** Further properties: the fields a translator cannot do without *)

(** X18. A field that a translator reads by subscript is required: on an
    upstream object without it the translator raises, whatever else the
    object holds, and returns no summary. *)
Theorem translators_require_subscripted_fields repo_name :
  Forall (requires Translate.repository_summary) repository_required
  /\ (forall detail,
        Forall (requires (fun commit => Translate.commit_summary repo_name commit detail))
          commit_required)
  /\ Forall (requires (Translate.commit_summary_basic repo_name)) commit_required
  /\ Forall (requires (Translate.pull_request_summary repo_name)) pull_request_required
  /\ Forall (requires (Translate.issue_summary repo_name)) issue_required
  /\ Forall (requires Translate.user_summary) user_required
  /\ Forall (requires Translate.user_repository_summary) user_repository_required.
Proof.
  split; [apply repository_summary_requires|].
  split; [intros detail; apply commit_summary_requires|].
  split; [apply commit_summary_basic_requires|].
  split; [apply pull_request_summary_requires|].
  split; [apply issue_summary_requires|].
  split; [apply user_summary_requires | apply user_repository_summary_requires].
Qed.

Lemma translators_require_subscripted_fields_witness :
  Translate.user_summary (without ["login"] (Demo.account "alice"))
    = Raise (KeyError "login")
  /\ Translate.pull_request_summary "hello" (without ["number"] (Demo.pull_request 20))
     = Raise (KeyError "number")
  /\ (exists e,
        Translate.user_summary (without ["login"] (Demo.account "alice")) = Raise e)
  /\ (exists e,
        Translate.pull_request_summary "hello"
          (without ["number"] (Demo.pull_request 20)) = Raise e).
Proof.
  pose proof (translators_require_subscripted_fields "hello")
    as (_ & _ & _ & Hpr & _ & Huser & _).
  split; [reflexivity|]. split; [reflexivity|]. split.
  - inversion Huser as [|k ks Hlogin _]; subst. apply Hlogin. reflexivity.
  - inversion Hpr as [|k ks Hnumber _]; subst. apply Hnumber. reflexivity.
Defined.
